(** * history-in-sublime-merge: repository resolution of [src/extension.ts]

    A shallow embedding of the extension's repository lookup
    ([getRepository]), of the file-location code that follows it
    ([getFileDetails], [openFile]) and of the launcher they feed
    ([openSublimeMerge]), together with the parts of Node's [path] and [fs]
    modules and of the JavaScript string library that this code calls.

    Conventions of the model.
    - JavaScript strings are [string]s; a character stands for one code
      unit in the range 0..255.
    - [path] is Node's POSIX flavour ([path.posix]); [process.cwd()] is a
      field of the host.
    - [fs] is a provider record: [existsSync] never throws, [statSync] and
      [readFileSync] either return or throw.
    - Effects are explicit: every computation returns its completion
      (normal, thrown) together with the trace of the filesystem probes,
      console lines, user-facing warnings and process launches it made, in
      program order.
    - The [while] loops are bounded by a fuel; a third completion,
      [OutOfFuel], stands for a loop that has not ended, and is shown
      never to occur.
    - The [async] functions contain no [await] of a pending promise, so
      they run to completion in one turn; a rejected promise is a thrown
      completion. *)

From Stdlib Require Import String Ascii List Bool Arith Lia.
Import ListNotations.

Open Scope list_scope.
Open Scope string_scope.

(** ** JavaScript string operations used by the extension *)

Module JsString.

(** [String.prototype.trim]: the white space and line terminator code
    units below 256 (TAB, LF, VT, FF, CR, SP, NBSP). *)
Definition isWhiteSpace (c : ascii) : bool :=
  let n := nat_of_ascii c in
  (((9 <=? n) && (n <=? 13)) || (n =? 32) || (n =? 160))%nat.

Fixpoint trimStart (s : string) : string :=
  match s with
  | EmptyString => EmptyString
  | String c s' => if isWhiteSpace c then trimStart s' else s
  end.

(** Trailing white space is dropped from the right: a character is kept
    when something that is kept follows it, or when it is not white
    space. *)
Fixpoint trimEnd (s : string) : string :=
  match s with
  | EmptyString => EmptyString
  | String c s' =>
      match trimEnd s' with
      | EmptyString => if isWhiteSpace c then EmptyString else String c EmptyString
      | t => String c t
      end
  end.

Definition trim (s : string) : string := trimEnd (trimStart s).

(** [s.startsWith(p)] *)
Definition startsWith (s p : string) : bool := String.prefix p s.

(** [s.substring(n)] for [0 <= n]: the suffix from index [n]. *)
Fixpoint substring_from (n : nat) (s : string) : string :=
  match n, s with
  | 0, _ => s
  | S n', String _ s' => substring_from n' s'
  | S _, EmptyString => EmptyString
  end.

(** [s.replace(pat, rep)] with a string pattern: the first occurrence of
    [pat] is replaced.  The extension only passes the empty replacement,
    so the [$]-patterns of the replacement text never come into play. *)
Fixpoint replace (s pat rep : string) : string :=
  if String.prefix pat s then rep ++ substring_from (String.length pat) s
  else match s with
       | EmptyString => EmptyString
       | String c s' => String c (replace s' pat rep)
       end.

(** [s.split("/")] *)
Fixpoint split_slash (s : string) : list string :=
  match s with
  | EmptyString => [EmptyString]
  | String c s' =>
      if Ascii.eqb c "/" then EmptyString :: split_slash s'
      else match split_slash s' with
           | [] => [String c EmptyString]
           | seg :: segs => String c seg :: segs
           end
  end.

(** The double quote, for the template literals that contain one. *)
Definition dquote : string := String (ascii_of_nat 34) EmptyString.

End JsString.

(** ** Node's [path] module, POSIX flavour *)

Module path.

Definition isPosixPathSeparator (c : ascii) : bool := Ascii.eqb c "/".

(** [path.isAbsolute(p)]: non-empty and starting with a slash. *)
Definition isAbsolute (p : string) : bool :=
  match p with
  | String c _ => isPosixPathSeparator c
  | EmptyString => false
  end.

(** [path.parse(p).root]. *)
Definition parse_root (p : string) : string :=
  if isAbsolute p then "/" else "".

(** The backward scan of [path.dirname]: [i] runs from the last index
    down to 1 (index 0 is never looked at); the result is [end], or
    [None] for the [-1] of the source. *)
Fixpoint dirname_scan (p : string) (i : nat) (matchedSlash : bool) : option nat :=
  match i with
  | 0 => None
  | S i' =>
      match String.get i p with
      | Some c =>
          if isPosixPathSeparator c then
            if matchedSlash then dirname_scan p i' true else Some i
          else dirname_scan p i' false
      | None => dirname_scan p i' false
      end
  end.

Definition dirname (p : string) : string :=
  match p with
  | EmptyString => "."
  | String c0 _ =>
      let hasRoot := isPosixPathSeparator c0 in
      match dirname_scan p (String.length p - 1) true with
      | None => if hasRoot then "/" else "."
      | Some e =>
          if hasRoot && (e =? 1)%nat then "//" else String.substring 0 e p
      end
  end.

(** [normalizeString], on segments.  [res] is the stack of the segments
    kept so far, last one first: empty segments and [.] are skipped,
    [..] pops the last kept segment unless there is none or it is [..]
    itself, in which case it is kept when [allowAboveRoot] and dropped
    otherwise. *)
Fixpoint normalizeSegments (allowAboveRoot : bool) (res segs : list string)
  : list string :=
  match segs with
  | [] => rev res
  | seg :: rest =>
      if (seg =? "")%string || (seg =? ".")%string then
        normalizeSegments allowAboveRoot res rest
      else if (seg =? "..")%string then
        match res with
        | last :: res' =>
            if (last =? "..")%string then
              normalizeSegments allowAboveRoot
                (if allowAboveRoot then ".." :: res else res) rest
            else normalizeSegments allowAboveRoot res' rest
        | [] =>
            normalizeSegments allowAboveRoot
              (if allowAboveRoot then [".."] else []) rest
        end
      else normalizeSegments allowAboveRoot (seg :: res) rest
  end.

Definition normalizeString (p : string) (allowAboveRoot : bool) : string :=
  String.concat "/" (normalizeSegments allowAboveRoot [] (JsString.split_slash p)).

(** [p.charCodeAt(p.length - 1) === 47]: the last character is a slash. *)
Fixpoint endsWithSlash (p : string) : bool :=
  match p with
  | EmptyString => false
  | String c EmptyString => isPosixPathSeparator c
  | String _ p' => endsWithSlash p'
  end.

(** [path.normalize(p)]. *)
Definition normalize (p : string) : string :=
  match p with
  | EmptyString => "."
  | _ =>
      let isAbs := isAbsolute p in
      let trailingSeparator := endsWithSlash p in
      let q := normalizeString p (negb isAbs) in
      match q with
      | EmptyString =>
          if isAbs then "/" else if trailingSeparator then "./" else "."
      | _ =>
          let q' := if trailingSeparator then q ++ "/" else q in
          if isAbs then "/" ++ q' else q'
      end
  end.

(** [path.join(...args)]: the non-empty arguments joined by [/], then
    normalized. *)
Definition join (args : list string) : string :=
  match filter (fun a => negb (a =? "")%string) args with
  | [] => "."
  | a :: rest => normalize (String.concat "/" (a :: rest))
  end.

(** The right-to-left loop of [path.resolve]: arguments are prepended
    until an absolute one has been seen; the current directory is the
    last candidate. *)
Fixpoint resolve_scan (candidates : list string) (resolvedPath : string)
  : string * bool :=
  match candidates with
  | [] => (resolvedPath, false)
  | p :: rest =>
      if (p =? "")%string then resolve_scan rest resolvedPath
      else
        let resolvedPath' := p ++ "/" ++ resolvedPath in
        if isAbsolute p then (resolvedPath', true)
        else resolve_scan rest resolvedPath'
  end.

(** [path.resolve(...args)], with [cwd] standing for [process.cwd()]. *)
Definition resolve (cwd : string) (args : list string) : string :=
  let (resolvedPath, resolvedAbsolute) := resolve_scan (rev args ++ [cwd])%list "" in
  let q := normalizeString resolvedPath (negb resolvedAbsolute) in
  if resolvedAbsolute then "/" ++ q
  else match q with EmptyString => "." | _ => q end.

(** The segments of a resolved path. *)
Definition segments (p : string) : list string :=
  filter (fun a => negb (a =? "")%string) (JsString.split_slash p).

Fixpoint dropCommon (from to : list string) : list string * list string :=
  match from, to with
  | f :: from', t :: to' =>
      if (f =? t)%string then dropCommon from' to' else (from, to)
  | _, _ => (from, to)
  end.

(** [path.relative(from, to)]: both sides are resolved, the common
    leading segments are dropped, and one [..] per remaining segment of
    [from] is put before what remains of [to]. *)
Definition relative (cwd from to : string) : string :=
  if (from =? to)%string then ""
  else
    let from' := resolve cwd [from] in
    let to' := resolve cwd [to] in
    if (from' =? to')%string then ""
    else
      let (up, down) := dropCommon (segments from') (segments to') in
      String.concat "/" (map (fun _ => "..") up ++ down)%list.

End path.

(** ** The host: filesystem provider, working directory, configuration *)

(** What [fs.statSync] returns, as far as the extension looks at it: the
    type of the entry, which [isFile()] and [isDirectory()] test. *)
Inductive Stats : Type :=
| S_IFREG      (* regular file *)
| S_IFDIR      (* directory *)
| S_IFOTHER.   (* socket, device, FIFO, ... *)

Definition isFile (st : Stats) : bool :=
  match st with
  | S_IFREG => true
  | _ => false
  end.

Definition isDirectory (st : Stats) : bool :=
  match st with
  | S_IFDIR => true
  | _ => false
  end.

(** A call that either returns or throws; the error is kept as its text. *)
Inductive result (A : Type) : Type :=
| Ok (a : A)
| Err (e : string).
Arguments Ok {A} a.
Arguments Err {A} e.

Record FileSystem : Type := mkFileSystem {
  existsSync : string -> bool;
  statSync : string -> result Stats;
  readFileSync : string -> result string   (* with the "utf8" encoding *)
}.

Record Host : Type := mkHost {
  fs : FileSystem;
  cwd : string;                        (* process.cwd(), an absolute path *)
  configuredPath : option string;      (* setting history-in-sublime-merge.path *)
  SMERGE_BINARY_PATH : string          (* the module-wide variable *)
}.

(** ** Effects *)

Inductive event : Type :=
| ExistsSync (p : string)
| StatSync (p : string)
| ReadFileSync (p : string)
| ConsoleLog (msg : string)
| ConsoleWarn (args : list string)
| ShowWarningMessage (msg : string)
| ExecFile (binary : string) (args : list string) (cwd : string).

Inductive completion (A : Type) : Type :=
| Normal (a : A)
| Thrown (e : string)
| OutOfFuel.
Arguments Normal {A} a.
Arguments Thrown {A} e.
Arguments OutOfFuel {A}.

Definition M (A : Type) : Type := completion A * list event.

Definition ret {A} (a : A) : M A := (Normal a, []).

Definition bind {A B} (m : M A) (k : A -> M B) : M B :=
  match m with
  | (Normal a, t) => let (r, t') := k a in (r, (t ++ t')%list)
  | (Thrown e, t) => (Thrown e, t)
  | (OutOfFuel, t) => (OutOfFuel, t)
  end.

Definition emit (ev : event) : M unit := (Normal tt, [ev]).

(** [try { body } catch (error) { handler }] *)
Definition try_catch {A} (body : M A) (handler : string -> M A) : M A :=
  match body with
  | (Thrown e, t) => let (r, t') := handler e in (r, (t ++ t')%list)
  | other => other
  end.

Notation "x <- m ;; k" := (bind m (fun x => k))
  (at level 61, m at next level, right associativity).
Notation "m ;;; k" := (bind m (fun _ => k))
  (at level 61, right associativity).

Definition value {A} (m : M A) : completion A := fst m.
Definition trace {A} (m : M A) : list event := snd m.

Section Calls.

Variable h : Host.

Definition fs_existsSync (p : string) : M bool :=
  (Normal (existsSync (fs h) p), [ExistsSync p]).

Definition fs_statSync (p : string) : M Stats :=
  match statSync (fs h) p with
  | Ok st => (Normal st, [StatSync p])
  | Err e => (Thrown e, [StatSync p])
  end.

Definition fs_readFileSync (p : string) : M string :=
  match readFileSync (fs h) p with
  | Ok text => (Normal text, [ReadFileSync p])
  | Err e => (Thrown e, [ReadFileSync p])
  end.

Definition console_log (msg : string) : M unit := emit (ConsoleLog msg).
Definition console_warn (args : list string) : M unit := emit (ConsoleWarn args).
Definition showWarningMessage (msg : string) : M unit :=
  emit (ShowWarningMessage msg).

End Calls.

(** ** The upward loops

    [getRepository], [getFileDetails] and [openFile] each contain the loop
    [[
      while (currentDir !== rootPath) {
        BODY                              // may return or break with a value
        const parentDir = path.dirname(currentDir);
        if (parentDir === currentDir) break;
        currentDir = parentDir;
      }
    ]]
    [upward body] is that loop: [body currentDir] answers [Some a] when the
    loop is left with [a] and [None] when it goes on.  [fuel] bounds the
    number of iterations; [upward_fuel] is enough for every start. *)
Fixpoint upward {A} (body : string -> M (option A)) (rootPath : string)
         (fuel : nat) (currentDir : string) : M (option A) :=
  if (currentDir =? rootPath) then ret None
  else
    match fuel with
    | 0 => (OutOfFuel, [])
    | S fuel' =>
        r <- body currentDir ;;
        match r with
        | Some a => ret (Some a)
        | None =>
            let parentDir := path.dirname currentDir in
            if (parentDir =? currentDir) then ret None
            else upward body rootPath fuel' parentDir
        end
    end.

Definition upward_fuel (startDir : string) : nat := S (S (String.length startDir)).

(** ** [getRepository] *)

Inductive ElementType : Type := file | directory.

Section GetRepository.

Variable h : Host.

(** Lines 43-48: the path written in a [.git] file, [gitFileContent]
    being its trimmed content. *)
Definition parsedGitDirPath (gitFileContent : string) : string :=
  if JsString.startsWith gitFileContent "gitdir: "
  then JsString.trim (JsString.substring_from 8 gitFileContent)
  else gitFileContent.

(** Lines 50-53: a relative path is taken from the directory of the
    [.git] file. *)
Definition gitDirPath_of (currentGitFile gitFileContent : string) : string :=
  let gitDirPath := parsedGitDirPath gitFileContent in
  if negb (path.isAbsolute gitDirPath)
  then path.resolve (cwd h) [path.dirname currentGitFile; gitDirPath]
  else gitDirPath.

(** Lines 34-68: the [try] block entered for a [.git] that is a file.
    [Some repoPath] is the [return repoPath] of line 64. *)
Definition submoduleRepository (currentGitFile : string) : M (option string) :=
  try_catch
    (raw <- fs_readFileSync h currentGitFile ;;
     let gitFileContent := JsString.trim raw in
     console_log ("Found .git file at " ++ currentGitFile
                  ++ ", content: " ++ gitFileContent) ;;;
     let gitDirPath := gitDirPath_of currentGitFile gitFileContent in
     console_log ("Resolved git directory path: " ++ gitDirPath) ;;;
     found <- fs_existsSync h gitDirPath ;;
     if found then
       st <- fs_statSync h gitDirPath ;;
       if isDirectory st then
         let repoPath := path.dirname gitDirPath in
         console_log ("Using submodule repository: " ++ repoPath) ;;;
         ret (Some repoPath)
       else ret None
     else ret None)
    (fun error =>
       console_warn ["Failed to parse .git file:"; error] ;;;
       ret None).

(** Lines 27-75: one level of the walk. *)
Definition repositoryAt (currentDir : string) : M (option string) :=
  let currentGitFile := path.join [currentDir; ".git"] in
  found <- fs_existsSync h currentGitFile ;;
  if found then
    st <- fs_statSync h currentGitFile ;;
    if isFile st then submoduleRepository currentGitFile
    else if isDirectory st then
      let repoPath := path.dirname currentGitFile in
      console_log ("Using regular repository: " ++ repoPath) ;;;
      ret (Some repoPath)
    else ret None
  else ret None.

Definition startDir_of (element : string) (elementType : ElementType) : string :=
  match elementType with
  | file => path.dirname element
  | directory => element
  end.

Definition getRepository (element : string) (elementType : ElementType)
  : M (option string) :=
  let startDir := startDir_of element elementType in
  let rootPath := path.parse_root element in
  found <- upward repositoryAt rootPath (upward_fuel startDir) startDir ;;
  match found with
  | Some repoPath => ret (Some repoPath)
  | None =>
      showWarningMessage "Unable to resolve the repository to open." ;;;
      ret None
  end.

End GetRepository.

(** ** [openSublimeMerge] *)

Module JSON.

Definition hexDigit (n : nat) : ascii :=
  nth n (list_ascii_of_string "0123456789abcdef") "0"%char.

(** The escapes [JSON.stringify] applies inside a string. *)
Definition escapeChar (c : ascii) : string :=
  let n := nat_of_ascii c in
  if (n =? 34)%nat then "\" ++ JsString.dquote
  else if (n =? 92)%nat then "\\"
  else if (n =? 8)%nat then "\b"
  else if (n =? 12)%nat then "\f"
  else if (n =? 10)%nat then "\n"
  else if (n =? 13)%nat then "\r"
  else if (n =? 9)%nat then "\t"
  else if (n <? 32)%nat then
    "\u00" ++ String (hexDigit (n / 16)) (String (hexDigit (n mod 16)) "")
  else String c "".

Fixpoint escape (s : string) : string :=
  match s with
  | EmptyString => EmptyString
  | String c s' => escapeChar c ++ escape s'
  end.

Definition quote (s : string) : string :=
  JsString.dquote ++ escape s ++ JsString.dquote.

(** [JSON.stringify] of an array of strings. *)
Definition stringify (args : list string) : string :=
  "[" ++ String.concat "," (map quote args) ++ "]".

End JSON.

(** Truthiness of a possibly undefined string, as tested by [!x], [if (x)]
    and [x || y]: [undefined], [null] and the empty string are falsy.
    [truthy x] is [Some s] for a truthy [x] holding [s]. *)
Definition truthy (x : option string) : option string :=
  match x with
  | Some s => if (s =? "") then None else Some s
  | None => None
  end.

(** Line 97: [customPath || SMERGE_BINARY_PATH]. *)
Definition binaryPath_of (h : Host) : string :=
  let customPath := configuredPath h in
  match truthy customPath with
  | Some p => p
  | None => SMERGE_BINARY_PATH h
  end.

Definition openSublimeMerge (h : Host) (args : list string) (repository : string)
  : M unit :=
  let binaryPath := binaryPath_of h in
  console_log "=== Sublime Merge Command ===" ;;;
  console_log ("Binary path: " ++ binaryPath) ;;;
  console_log ("Arguments: " ++ JSON.stringify args) ;;;
  console_log ("Working directory: " ++ repository) ;;;
  console_log ("Full command: " ++ binaryPath ++ " " ++ String.concat " " args) ;;;
  console_log "=============================" ;;;
  emit (ExecFile binaryPath args repository).

(** ** [getFileDetails] and [openFile] *)

Record FileDetails : Type := mkFileDetails {
  path : string;
  selectionStart : nat;
  selectionEnd : nat;
  repository : string
}.

(** The parts of a [vscode.TextEditor] that [getFileDetails] reads. *)
Record TextEditor : Type := mkTextEditor {
  document_uri_path : string;
  selection_start_line : nat;
  selection_end_line : nat
}.

Inductive Action : Type := search | blame.

Definition Action_text (a : Action) : string :=
  match a with
  | search => "search"
  | blame => "blame"
  end.

Section FileLocation.

Variable h : Host.

(** Lines 129-133 and 212-216: the body of the second loop. *)
Definition submoduleRootAt (currentDir : string) : M (option string) :=
  let currentGitFile := path.join [currentDir; ".git"] in
  found <- fs_existsSync h currentGitFile ;;
  if found then
    st <- fs_statSync h currentGitFile ;;
    if isFile st then ret (Some currentDir) else ret None
  else ret None.

(** Lines 125-139 and 208-222. *)
Definition findSubmoduleRoot (filePath : string) : M (option string) :=
  let currentDir := path.dirname filePath in
  upward submoduleRootAt (path.parse_root filePath)
         (upward_fuel currentDir) currentDir.

Definition getFileDetails (editor : TextEditor) : M (option FileDetails) :=
  let uri_path := document_uri_path editor in
  found <- getRepository h uri_path file ;;
  match truthy found with
  | None => ret None
  | Some repository_ =>
      let relativePath := JsString.replace uri_path (repository_ ++ "/") "" in
      submoduleRoot <- findSubmoduleRoot uri_path ;;
      match truthy submoduleRoot with
      | Some root =>
          ret (Some {| path := path.relative (cwd h) root uri_path;
                       selectionStart := selection_start_line editor + 1;
                       selectionEnd := selection_end_line editor + 1;
                       repository := root |})
      | None =>
          ret (Some {| path := relativePath;
                       selectionStart := selection_start_line editor + 1;
                       selectionEnd := selection_end_line editor + 1;
                       repository := repository_ |})
      end
  end.

(** Lines 204 and 224-230: the working directory and the relative path that
    [openFile] settles on. *)
Definition located (filePath repository_ : string) (submoduleRoot : option string)
  : string * string :=
  match truthy submoduleRoot with
  | Some root => (root, path.relative (cwd h) root filePath)
  | None => (repository_, JsString.replace filePath (repository_ ++ "/") "")
  end.

(** Lines 232-233. *)
Definition searchPattern_of (action : Action) (relativePath : string) : string :=
  match action with
  | search => "file:" ++ JsString.dquote ++ relativePath ++ JsString.dquote
  | blame => relativePath
  end.

Definition openFile (filePath : string) (action : Action) : M unit :=
  match truthy (Some filePath) with
  | None => showWarningMessage "Unable to resolve the file's path."
  | Some _ =>
      found <- getRepository h filePath file ;;
      match truthy found with
      | None => ret tt
      | Some repository_ =>
          submoduleRoot <- findSubmoduleRoot filePath ;;
          let (workingDir, relativePath) :=
            located filePath repository_ submoduleRoot in
          let searchPattern := searchPattern_of action relativePath in
          console_log "=== openFile Debug ===" ;;;
          console_log ("File path: " ++ filePath) ;;;
          console_log ("Repository: " ++ repository_) ;;;
          console_log ("Working directory: " ++ workingDir) ;;;
          console_log ("Relative path: " ++ relativePath) ;;;
          console_log ("Search pattern: " ++ searchPattern) ;;;
          console_log "=====================" ;;;
          openSublimeMerge h [Action_text action; searchPattern] workingDir
      end
  end.

End FileLocation.

(** ** A concrete filesystem provider

    A disk is a finite table from paths to nodes, looked up by the exact
    path text; reading a directory and probing a missing entry throw. *)

Inductive Node : Type :=
| DirNode
| FileNode (content : string)
| OtherNode.   (* socket, device, ... *)

Definition Disk : Type := list (string * Node).

Fixpoint lookup (d : Disk) (p : string) : option Node :=
  match d with
  | [] => None
  | (q, n) :: d' => if (q =? p) then Some n else lookup d' p
  end.

Definition Node_stats (n : Node) : Stats :=
  match n with
  | DirNode => S_IFDIR
  | FileNode _ => S_IFREG
  | OtherNode => S_IFOTHER
  end.

Definition diskFS (d : Disk) : FileSystem :=
  {| existsSync p := match lookup d p with Some _ => true | None => false end;
     statSync p :=
       match lookup d p with
       | Some n => Ok (Node_stats n)
       | None => Err "ENOENT"
       end;
     readFileSync p :=
       match lookup d p with
       | Some (FileNode text) => Ok text
       | Some _ => Err "EISDIR"
       | None => Err "ENOENT"
       end |}.

Definition diskHost (d : Disk) : Host :=
  {| fs := diskFS d; cwd := "/";
     configuredPath := None;
     SMERGE_BINARY_PATH := "/opt/sublime_merge/sublime_merge" |}.

(** ** Vocabulary of the statements *)

(** A segment is a non-empty text without a slash; a name is a segment
    other than [.] and [..].  [absolute segs] is the absolute path with
    the segments [segs]: [absolute []] is the filesystem root. *)
Fixpoint hasSlash (s : string) : bool :=
  match s with
  | EmptyString => false
  | String c s' => path.isPosixPathSeparator c || hasSlash s'
  end.

Definition segment (s : string) : bool :=
  negb (s =? "") && negb (hasSlash s).

Definition name (s : string) : bool :=
  segment s && negb (s =? ".") && negb (s =? "..").

Definition nonEmpty (s : string) : bool := negb (s =? "").

Definition absolute (segs : list string) : string :=
  "/" ++ String.concat "/" segs.

(** Texts made of white space, and texts that start or end with it. *)
Fixpoint allWhite (s : string) : bool :=
  match s with
  | EmptyString => true
  | String c s' => JsString.isWhiteSpace c && allWhite s'
  end.

Definition startsWhite (s : string) : bool :=
  match s with
  | EmptyString => false
  | String c _ => JsString.isWhiteSpace c
  end.

Fixpoint endsWhite (s : string) : bool :=
  match s with
  | EmptyString => false
  | String c EmptyString => JsString.isWhiteSpace c
  | String _ s' => endsWhite s'
  end.

(** The redirect target in the words of the specification: after the
    prefix [gitdir: ] the remainder of the content, as it stands. *)
Definition redirectTarget_as_specified (gitFileContent : string) : string :=
  if JsString.startsWith gitFileContent "gitdir: "
  then JsString.substring_from 8 gitFileContent
  else gitFileContent.

(** [p] names an existing directory: the test of lines 58-61. *)
Definition isExistingDirectory (h : Host) (p : string) : bool :=
  existsSync (fs h) p &&
  match statSync (fs h) p with
  | Ok st => isDirectory st
  | Err _ => false
  end.

(** [p] names an existing regular file: the test of lines 130 and 213. *)
Definition isExistingFile (h : Host) (p : string) : bool :=
  existsSync (fs h) p &&
  match statSync (fs h) p with
  | Ok st => isFile st
  | Err _ => false
  end.


(** The parent of whatever exists is an existing directory. *)
Definition hierarchical (h : Host) : Prop :=
  forall p, existsSync (fs h) p = true ->
            isExistingDirectory h (path.dirname p) = true.

(** The same, as a check on a disk. *)
Definition closedUnderParent (d : Disk) : bool :=
  forallb (fun entry =>
             match lookup d (path.dirname (fst entry)) with
             | Some DirNode => true
             | _ => false
             end) d.

(** The user-facing part of a trace. *)
Definition isUserWarning (ev : event) : bool :=
  match ev with
  | ShowWarningMessage _ => true
  | _ => false
  end.

Definition userWarnings (t : list event) : list event := filter isUserWarning t.

(** The existence probes of the entry [m] in a trace. *)
Definition probesOf (m : string) (t : list event) : list event :=
  filter (fun ev => match ev with
                    | ExistsSync p => (p =? m)
                    | _ => false
                    end) t.

(** The probes of a [.git] entry, the only events of the second loop. *)
Definition isMarkerProbe (ev : event) : Prop :=
  exists d, ev = ExistsSync (path.join [d; ".git"])
            \/ ev = StatSync (path.join [d; ".git"]).

(** The loop of [getRepository], with the fuel that its start needs. *)
Definition climb {A} (body : string -> M (option A)) (rootPath startDir : string)
  : M (option A) :=
  upward body rootPath (upward_fuel startDir) startDir.

(** [fuel] is enough for the loop started at [p]: the loop runs at most
    once per character of [p] and twice more, and once when [p] is its
    own parent. *)
Definition enough (fuel : nat) (p : string) : Prop :=
  String.length p + 2 <= fuel \/ (1 <= fuel /\ path.dirname p = p).

(** The directories strictly below [d] on the way down to [d ++ rest],
    nearest to [d] first. *)
Fixpoint levelsBetween (d rest : list string) : list (list string) :=
  match rest with
  | [] => []
  | x :: rest' => (d ++ [x])%list :: levelsBetween (d ++ [x])%list rest'
  end.

(** None of these directories has a [.git] entry. *)
Definition noMarkerBetween (h : Host) (d rest : list string) : bool :=
  forallb (fun lvl => negb (existsSync (fs h) (path.join [absolute lvl; ".git"])))
          (levelsBetween d rest).

(** None of these directories has a [.git] entry that is a regular file,
    and no type probe of an entry fails there. *)
Definition noFileMarkerBetween (h : Host) (d rest : list string) : bool :=
  forallb (fun lvl =>
             let m := path.join [absolute lvl; ".git"] in
             negb (existsSync (fs h) m) ||
             match statSync (fs h) m with
             | Ok st => negb (isFile st)
             | Err _ => false
             end)
          (levelsBetween d rest).

(** ** Sample disks *)

Definition LF : string := String (ascii_of_nat 10) EmptyString.

(** A superproject [/repo] with the submodule [libs/sub] in the layout
    that [git submodule add] produces. *)
Definition submoduleDisk : Disk :=
  [ ("/", DirNode);
    ("/repo", DirNode);
    ("/repo/.git", DirNode);
    ("/repo/.git/modules", DirNode);
    ("/repo/.git/modules/sub", DirNode);
    ("/repo/src", DirNode);
    ("/repo/src/a.ts", FileNode "export {};");
    ("/repo/libs", DirNode);
    ("/repo/libs/sub", DirNode);
    ("/repo/libs/sub/.git", FileNode ("gitdir: ../../.git/modules/sub" ++ LF));
    ("/repo/libs/sub/x.ts", FileNode "export {};") ].

(** A linked working tree whose git directory sits beside its files. *)
Definition besideDisk : Disk :=
  [ ("/", DirNode);
    ("/repo", DirNode);
    ("/repo/.git", DirNode);
    ("/repo/libs", DirNode);
    ("/repo/libs/sub", DirNode);
    ("/repo/libs/sub/.gitdata", DirNode);
    ("/repo/libs/sub/.git", FileNode ("gitdir: .gitdata" ++ LF));
    ("/repo/libs/sub/x.ts", FileNode "export {};") ].

(** The submodule's git directory has been deleted. *)
Definition danglingDisk : Disk :=
  [ ("/", DirNode);
    ("/repo", DirNode);
    ("/repo/.git", DirNode);
    ("/repo/sub", DirNode);
    ("/repo/sub/.git", FileNode ("gitdir: ../.git/modules/sub" ++ LF));
    ("/repo/sub/x.ts", FileNode "export {};") ].

(** A repository whose working tree is the filesystem root. *)
Definition rootRepositoryDisk : Disk :=
  [ ("/", DirNode);
    ("/.git", DirNode);
    ("/a.ts", FileNode "export {};") ].

(** No repository anywhere. *)
Definition bareDisk : Disk :=
  [ ("/", DirNode);
    ("/home", DirNode);
    ("/home/a.ts", FileNode "export {};") ].

(** A [.git] file with two spaces after the colon. *)
Definition paddedDisk : Disk :=
  [ ("/", DirNode);
    ("/srv", DirNode);
    ("/srv/meta", DirNode);
    ("/repo", DirNode);
    ("/repo/sub", DirNode);
    ("/repo/sub/.git", FileNode ("gitdir:  /srv/meta" ++ LF));
    ("/repo/sub/x.ts", FileNode "export {};") ].



(** ** The commands of the extension *)

From Stdlib Require Import DecimalString.

(** [getSmergeBinaryPath], with [process.platform] as its argument. *)
Definition getSmergeBinaryPath (platform : string) : string :=
  if (platform =? "win32") then "smerge"
  else if (platform =? "darwin") then
    "/Applications/Sublime Merge.app/Contents/SharedSupport/bin/smerge"
  else "/opt/sublime_merge/sublime_merge".

(** What the commands read of the workbench: the [uri.path] of each
    workspace folder ([None] when [vscode.workspace.workspaceFolders] is
    undefined) and the active text editor, if any. *)
Record Workbench : Type := mkWorkbench {
  workspaceFolders : option (list string);
  activeTextEditor : option TextEditor
}.

(** A line number inside a template literal: its decimal digits. *)
Definition Number_toString (n : nat) : string :=
  NilEmpty.string_of_uint (Nat.to_uint n).

Section Commands.

Variable h : Host.

(** Lines 165-177: the repository that [openRepository] settles on. *)
Definition repositoryToOpen (w : Workbench) : M (option string) :=
match workspaceFolders w with
| Some [folder] => getRepository h folder directory
| _ =>
    match activeTextEditor w with
    | Some editor =>
        details <- getFileDetails h editor ;;
        ret (option_map repository details)
    | None =>
        showWarningMessage "Unable to resolve the repository to open." ;;;
        ret None
    end
end.

Definition openRepository (w : Workbench) : M unit :=
found <- repositoryToOpen w ;;
match truthy found with
| None => ret tt
| Some repository_ => openSublimeMerge h ["."] repository_
end.

(** Lines 256-257: the search text of [viewLineHistory]. *)
Definition lineHistoryPattern (fileDetails : FileDetails) : string :=
"file:" ++ JsString.dquote ++ path fileDetails ++ JsString.dquote
++ " line:" ++ Number_toString (selectionStart fileDetails)
++ "-" ++ Number_toString (selectionEnd fileDetails).

Definition viewLineHistory (w : Workbench) : M unit :=
match activeTextEditor w with
| Some editor =>
    found <- getFileDetails h editor ;;
    match found with
    | None => ret tt
    | Some fileDetails =>
        openSublimeMerge h ["search"; lineHistoryPattern fileDetails]
                         (repository fileDetails)
    end
| None => ret tt
end.

(** [openFile] as the commands call it, with the [vscode.Uri] they were
  given: [Some p] is a [Uri] whose [path] is [p], [None] is [undefined],
  of which line 190 cannot read the [path]. *)
Definition openFile_of (file : option string) (action : Action) : M unit :=
match file with
| Some filePath => openFile h filePath action
| None =>
    (Thrown "TypeError: Cannot read properties of undefined (reading 'path')",
     [])
end.

End Commands.

(** A registered command: run with the host and the workbench of the
    moment, and with the argument the command was invoked with. *)
Definition Handler : Type := Host -> Workbench -> option string -> M unit.

(** [activate]: the module-wide binary path is set for the platform, and
    four commands are registered, in this order. *)
Definition activate (platform : string) (h : Host)
  : Host * list (string * Handler) :=
  let extensionName := "history-in-sublime-merge" in
  ({| fs := fs h; cwd := cwd h; configuredPath := configuredPath h;
      SMERGE_BINARY_PATH := getSmergeBinaryPath platform |},
   [ (extensionName ++ ".openRepository",
      fun h' w _ => openRepository h' w);
     (extensionName ++ ".viewFileHistory",
      fun h' _ file => openFile_of h' file search);
     (extensionName ++ ".viewLineHistory",
      fun h' w _ => viewLineHistory h' w);
     (extensionName ++ ".blameFile",
      fun h' _ file => openFile_of h' file blame) ]).

(** ** Vocabulary of the further statements *)

(** The process launches of a trace. *)
Definition isLaunch (ev : event) : bool :=
  match ev with
  | ExecFile _ _ _ => true
  | _ => false
  end.

Definition launches (t : list event) : list event := filter isLaunch t.

(** The filesystem calls of a trace. *)
Definition isFsCall (ev : event) : bool :=
  match ev with
  | ExistsSync _ | StatSync _ | ReadFileSync _ => true
  | _ => false
  end.

Definition fsCalls (t : list event) : list event := filter isFsCall t.

(** The events of a resolution: probes, console lines, reads of [.git]
    entries that are regular files, and the one warning. *)
Definition resolutionEvent (h : Host) (ev : event) : Prop :=
  match ev with
  | ExistsSync _ | StatSync _ | ConsoleLog _ | ConsoleWarn _ => True
  | ReadFileSync p =>
      exists d, p = path.join [d; ".git"] /\ isExistingFile h p = true
  | ShowWarningMessage msg =>
      msg = "Unable to resolve the repository to open."
  | ExecFile _ _ _ => False
  end.

(** Existence and type probes. *)
Definition probeEvent (ev : event) : Prop :=
  match ev with
  | ExistsSync _ | StatSync _ => True
  | _ => False
  end.

(** A provider on which [/repo/sub/.git] is a regular file that cannot be
    read (permission denied), inside the ordinary repository [/repo]. *)
Definition unreadableFS : FileSystem :=
  {| existsSync p := existsSync (diskFS danglingDisk) p;
     statSync p := statSync (diskFS danglingDisk) p;
     readFileSync p :=
       if (p =? "/repo/sub/.git") then Err "EACCES"
       else readFileSync (diskFS danglingDisk) p |}.

Definition unreadableHost : Host :=
  {| fs := unreadableFS; cwd := "/";
     configuredPath := None;
     SMERGE_BINARY_PATH := "/opt/sublime_merge/sublime_merge" |}.

(** A [.git] file that holds nothing but a line break. *)
Definition blankDisk : Disk :=
  [ ("/", DirNode);
    ("/home", DirNode);
    ("/home/work", DirNode);
    ("/home/work/.git", FileNode LF);
    ("/home/work/a.ts", FileNode "export {};") ].

(** An ordinary repository [/outer/inner] inside a linked working tree
    [/outer], whose [.git] is a file. *)
Definition nestedDisk : Disk :=
  [ ("/", DirNode);
    ("/meta", DirNode);
    ("/meta/outer", DirNode);
    ("/outer", DirNode);
    ("/outer/.git", FileNode ("gitdir: /meta/outer" ++ LF));
    ("/outer/inner", DirNode);
    ("/outer/inner/.git", DirNode);
    ("/outer/inner/a.ts", FileNode "export {};") ].

(** A type probe of an existing [.git] entry that throws [e]: the one way
    a resolution fails. *)
Definition failingProbe (h : Host) (e : string) : Prop :=
  exists d,
    existsSync (fs h) (path.join [d; ".git"]) = true
    /\ statSync (fs h) (path.join [d; ".git"]) = Err e.

Definition isConsoleLog (ev : event) : Prop := exists msg, ev = ConsoleLog msg.

(** A run that launches nothing, or that launches the resolved binary
    once, in a working directory that is not the empty string, and then
    returns without having warned. *)
Definition launchesAtMostOnce (h : Host) (m : M unit) : Prop :=
  launches (trace m) = []
  \/ exists args workingDir,
       workingDir <> ""
       /\ launches (trace m) = [ExecFile (binaryPath_of h) args workingDir]
       /\ value m = Normal tt
       /\ userWarnings (trace m) = [].

(** Lines 235-241 and 99-104: the console lines that [openFile] writes
    between the second loop and the launch. *)
Definition openFile_logs (h : Host) (action : Action)
           (filePath repository_ workingDir relativePath : string) : list event :=
  let searchPattern := searchPattern_of action relativePath in
  let binaryPath := binaryPath_of h in
  let args := [Action_text action; searchPattern] in
  [ ConsoleLog "=== openFile Debug ===";
    ConsoleLog ("File path: " ++ filePath);
    ConsoleLog ("Repository: " ++ repository_);
    ConsoleLog ("Working directory: " ++ workingDir);
    ConsoleLog ("Relative path: " ++ relativePath);
    ConsoleLog ("Search pattern: " ++ searchPattern);
    ConsoleLog "=====================";
    ConsoleLog "=== Sublime Merge Command ===";
    ConsoleLog ("Binary path: " ++ binaryPath);
    ConsoleLog ("Arguments: " ++ JSON.stringify args);
    ConsoleLog ("Working directory: " ++ workingDir);
    ConsoleLog ("Full command: " ++ binaryPath ++ " " ++ String.concat " " args);
    ConsoleLog "=============================" ].

(** A dangling redirect two levels below an ordinary repository, with the
    file one level below the redirect. *)
Definition deepDanglingDisk : Disk :=
  [ ("/", DirNode);
    ("/repo", DirNode);
    ("/repo/.git", DirNode);
    ("/repo/libs", DirNode);
    ("/repo/libs/sub", DirNode);
    ("/repo/libs/sub/.git", FileNode ("gitdir: ../../.git/modules/sub" ++ LF));
    ("/repo/libs/sub/src", DirNode);
    ("/repo/libs/sub/src/x.ts", FileNode "export {};") ].

(** A dangling redirect in a child of the filesystem root, where the
    root itself is an ordinary repository. *)
Definition rootFallbackDisk : Disk :=
  [ ("/", DirNode);
    ("/.git", DirNode);
    ("/x", DirNode);
    ("/x/.git", FileNode ("gitdir: /nowhere" ++ LF));
    ("/x/a.ts", FileNode "export {};") ].

(** * Properties *)

(** ** Strings *)

Lemma append_nil_r (s : string) : s ++ "" = s.
Proof. induction s as [|c s IH]; simpl; [reflexivity | now rewrite IH]. Qed.

Lemma append_assoc (a b c : string) : (a ++ b) ++ c = a ++ (b ++ c).
Proof. induction a as [|x a IH]; simpl; [reflexivity | now rewrite IH]. Qed.

Lemma length_append (a b : string) :
  String.length (a ++ b) = String.length a + String.length b.
Proof. induction a as [|x a IH]; simpl; [reflexivity | now rewrite IH]. Qed.

Lemma prefix_append (a b : string) : String.prefix a (a ++ b) = true.
Proof.
  induction a as [|x a IH]; simpl.
  - now destruct b.
  - destruct (ascii_dec x x) as [_|N]; [exact IH | now elim N].
Qed.

Lemma substring_from_append (a b : string) :
  JsString.substring_from (String.length a) (a ++ b) = b.
Proof. induction a as [|x a IH]; simpl; [now destruct b | exact IH]. Qed.

Lemma substring_0_append (a b : string) :
  String.substring 0 (String.length a) (a ++ b) = a.
Proof.
  induction a as [|x a IH]; simpl.
  - now destruct b.
  - now rewrite IH.
Qed.

Lemma length_substring_0_le (n : nat) (s : string) :
  String.length (String.substring 0 n s) <= n.
Proof.
  revert s; induction n as [|n IH]; intros [|c s]; simpl; try lia.
  specialize (IH s); lia.
Qed.

Lemma get_append_right (a b : string) (k : nat) :
  String.get (String.length a + k) (a ++ b) = String.get k b.
Proof. induction a as [|x a IH]; simpl; [reflexivity | exact IH]. Qed.

(** ** [path.dirname] on a path that ends in a segment *)

Lemma hasSlash_get (s : string) :
  hasSlash s = false ->
  forall k c, String.get k s = Some c -> path.isPosixPathSeparator c = false.
Proof.
  induction s as [|x s IH]; simpl; intros Hs k c Hget; [discriminate|].
  apply orb_false_iff in Hs as [Hx Hs].
  destruct k as [|k]; [now inversion Hget; subst | eapply IH; eauto].
Qed.

Lemma get_in_range (s : string) (k : nat) :
  k < String.length s -> exists c, String.get k s = Some c.
Proof.
  revert k; induction s as [|x s IH]; simpl; intros k Hk; [lia|].
  destruct k as [|k]; [now exists x | apply IH; lia].
Qed.

Lemma dirname_scan_segment (pre s : string) :
  hasSlash s = false -> 1 <= String.length pre ->
  forall k b, k <= String.length s -> (k = 0 -> b = false) ->
  path.dirname_scan (pre ++ String "/" s) (String.length pre + k) b
  = Some (String.length pre).
Proof.
  intros Hs Hpre k; induction k as [|k IH]; intros b Hk Hb.
  - rewrite Nat.add_0_r.
    destruct (String.length pre) as [|n] eqn:E; [lia|].
    simpl. rewrite <- E, <- (Nat.add_0_r (String.length pre)), get_append_right.
    simpl. now rewrite (Hb eq_refl).
  - rewrite Nat.add_succ_r. simpl.
    rewrite <- Nat.add_succ_r, get_append_right. simpl.
    destruct (get_in_range s k) as [c Hc]; [lia|].
    rewrite Hc, (hasSlash_get s Hs k c Hc).
    apply IH; [lia | reflexivity].
Qed.

Lemma dirname_scan_first_segment (c0 : ascii) (s : string) :
  hasSlash s = false ->
  forall k b, k <= String.length s ->
  path.dirname_scan (String c0 s) k b = None.
Proof.
  intros Hs k; induction k as [|k IH]; intros b Hk; [reflexivity|].
  simpl. destruct (get_in_range s k) as [c Hc]; [lia|].
  rewrite Hc, (hasSlash_get s Hs k c Hc). apply IH; lia.
Qed.

Lemma segment_inv (s : string) :
  segment s = true -> s <> "" /\ hasSlash s = false.
Proof.
  unfold segment; intros H; apply andb_true_iff in H as [H1 H2].
  apply negb_true_iff in H1, H2. now apply String.eqb_neq in H1.
Qed.

Lemma name_segment (s : string) : name s = true -> segment s = true.
Proof.
  unfold name; intros H.
  apply andb_true_iff in H as [H _]. now apply andb_true_iff in H as [H _].
Qed.

Lemma names_segments (l : list string) :
  forallb name l = true -> forallb segment l = true.
Proof.
  induction l as [|a l IH]; simpl; [easy|].
  intros H; apply andb_true_iff in H as [Ha Hl].
  now rewrite (name_segment a Ha), IH.
Qed.

Lemma segment_length (s : string) : segment s = true -> 1 <= String.length s.
Proof.
  intros H; apply segment_inv in H as [H _].
  destruct s; [now elim H | simpl; lia].
Qed.

(** The parent of [pre/s]. *)
Lemma dirname_child (pre s : string) :
  segment s = true -> pre <> "" ->
  path.dirname (pre ++ "/" ++ s)
  = if path.isAbsolute pre && (String.length pre =? 1)%nat then "//" else pre.
Proof.
  intros Hs Hpre.
  pose proof (segment_length s Hs) as Hlen.
  apply segment_inv in Hs as [_ Hs].
  destruct pre as [|c0 pre']; [now elim Hpre|].
  change (String c0 pre' ++ "/" ++ s) with (String c0 pre' ++ String "/" s).
  unfold path.dirname.
  change (String c0 pre' ++ String "/" s) with (String c0 (pre' ++ String "/" s)) at 1.
  cbv iota beta.
  replace (String.length (String c0 pre' ++ String "/" s) - 1)
    with (String.length (String c0 pre') + String.length s)
    by (rewrite length_append; simpl; lia).
  rewrite dirname_scan_segment; [| assumption | simpl; lia | lia | lia].
  unfold path.isAbsolute.
  destruct (path.isPosixPathSeparator c0 && (String.length (String c0 pre') =? 1)%nat);
    [reflexivity|].
  apply substring_0_append.
Qed.

(** The parent of [/s] is the root. *)
Lemma dirname_root_child (s : string) :
  segment s = true -> path.dirname ("/" ++ s) = "/".
Proof.
  intros Hs. apply segment_inv in Hs as [_ Hs].
  unfold path.dirname. simpl String.append. cbv iota beta.
  rewrite dirname_scan_first_segment; [reflexivity | assumption | simpl; lia].
Qed.

(** ** Absolute paths made of segments *)

Lemma concat_snoc (l : list string) (s : string) :
  String.concat "/" (l ++ [s])
  = match l with
    | [] => s
    | _ => String.concat "/" l ++ "/" ++ s
    end.
Proof.
  induction l as [|a l IH]; [reflexivity|].
  destruct l as [|b l]; [reflexivity|].
  change (String.concat "/" ((a :: b :: l) ++ [s]))
    with (a ++ "/" ++ String.concat "/" ((b :: l) ++ [s])).
  rewrite IH.
  change (String.concat "/" (a :: b :: l))
    with (a ++ "/" ++ String.concat "/" (b :: l)).
  now rewrite !append_assoc.
Qed.

Lemma concat_app (l1 l2 : list string) :
  l1 <> [] -> l2 <> [] ->
  String.concat "/" (l1 ++ l2) = String.concat "/" l1 ++ "/" ++ String.concat "/" l2.
Proof.
  intros H1 H2. induction l1 as [|a l1 IH]; [now elim H1|].
  destruct l1 as [|b l1].
  - simpl. destruct l2; [now elim H2 | reflexivity].
  - change (String.concat "/" ((a :: b :: l1) ++ l2))
      with (a ++ "/" ++ String.concat "/" ((b :: l1) ++ l2)).
    rewrite IH by discriminate.
    change (String.concat "/" (a :: b :: l1))
      with (a ++ "/" ++ String.concat "/" (b :: l1)).
    now rewrite !append_assoc.
Qed.

Lemma absolute_snoc (l : list string) (s : string) :
  absolute (l ++ [s])
  = match l with
    | [] => "/" ++ s
    | _ => absolute l ++ "/" ++ s
    end.
Proof.
  unfold absolute. rewrite concat_snoc.
  destruct l; [reflexivity | now rewrite append_assoc].
Qed.

Lemma absolute_length (l : list string) :
  forallb segment l = true -> l <> [] -> 2 <= String.length (absolute l).
Proof.
  intros Hl Hne. destruct l as [|a l]; [now elim Hne|].
  simpl in Hl. apply andb_true_iff in Hl as [Ha _].
  apply segment_length in Ha.
  unfold absolute. destruct l; simpl; rewrite ?length_append; lia.
Qed.

Lemma absolute_isAbsolute (l : list string) : path.isAbsolute (absolute l) = true.
Proof. reflexivity. Qed.

Lemma absolute_parse_root (l : list string) : path.parse_root (absolute l) = "/".
Proof. reflexivity. Qed.

Theorem dirname_absolute_snoc (l : list string) (s : string) :
  forallb segment l = true -> segment s = true ->
  path.dirname (absolute (l ++ [s])) = absolute l.
Proof.
  intros Hl Hs. rewrite absolute_snoc.
  destruct l as [|a l]; [now apply dirname_root_child|].
  rewrite dirname_child; [| assumption | discriminate].
  pose proof (absolute_length (a :: l) Hl ltac:(discriminate)) as Hlen.
  destruct (String.length (absolute (a :: l))) as [|[|n]] eqn:E; try lia.
  now rewrite andb_false_r.
Qed.

Lemma absolute_neq_root (l : list string) :
  forallb segment l = true -> l <> [] -> absolute l <> "/".
Proof.
  intros Hl Hne E. pose proof (absolute_length l Hl Hne) as H.
  rewrite E in H. simpl in H; lia.
Qed.

Lemma absolute_snoc_longer (l : list string) (s : string) :
  segment s = true ->
  String.length (absolute l) < String.length (absolute (l ++ [s])).
Proof.
  intros Hs. apply segment_length in Hs.
  rewrite absolute_snoc. destruct l as [|a l].
  - rewrite length_append. simpl. lia.
  - rewrite length_append. simpl. lia.
Qed.

(** ** Splitting at slashes *)

Lemma split_slash_nonempty (s : string) : JsString.split_slash s <> [].
Proof.
  destruct s as [|c s]; simpl; [discriminate|].
  destruct (Ascii.eqb c "/"); [discriminate|].
  destruct (JsString.split_slash s); discriminate.
Qed.

Lemma split_slash_no_slash (s : string) :
  hasSlash s = false -> JsString.split_slash s = [s].
Proof.
  induction s as [|c s IH]; simpl; [reflexivity|].
  intros H; apply orb_false_iff in H as [Hc Hs].
  unfold path.isPosixPathSeparator in Hc. now rewrite Hc, IH.
Qed.

Lemma split_slash_append (a b : string) :
  JsString.split_slash (a ++ String "/" b)
  = (JsString.split_slash a ++ JsString.split_slash b)%list.
Proof.
  induction a as [|c a IH]; [reflexivity|].
  simpl. rewrite IH.
  destruct (Ascii.eqb c "/"); [reflexivity|].
  pose proof (split_slash_nonempty a) as Hne.
  destruct (JsString.split_slash a); [now elim Hne | reflexivity].
Qed.

Lemma split_slash_concat (l : list string) :
  forallb segment l = true -> l <> [] ->
  JsString.split_slash (String.concat "/" l) = l.
Proof.
  induction l as [|a l IH]; intros Hl Hne; [now elim Hne|].
  simpl in Hl. apply andb_true_iff in Hl as [Ha Hl].
  apply segment_inv in Ha as [_ Ha].
  destruct l as [|b l]; [now apply split_slash_no_slash|].
  change (String.concat "/" (a :: b :: l))
    with (a ++ String "/" (String.concat "/" (b :: l))).
  rewrite split_slash_append, split_slash_no_slash by assumption.
  now rewrite IH.
Qed.

Lemma split_slash_segments (s : string) :
  forallb (fun seg => negb (hasSlash seg)) (JsString.split_slash s) = true.
Proof.
  induction s as [|c s IH]; [reflexivity|].
  simpl. destruct (Ascii.eqb c "/") eqn:E; [exact IH|].
  destruct (JsString.split_slash s) as [|seg segs]; simpl in *.
  - unfold path.isPosixPathSeparator. now rewrite E.
  - unfold path.isPosixPathSeparator. now rewrite E.
Qed.

(** ** [normalizeString] on names *)

Lemma name_inv (s : string) :
  name s = true -> (s =? "") = false /\ (s =? ".") = false /\ (s =? "..") = false.
Proof.
  unfold name, segment; intros H.
  repeat (apply andb_true_iff in H as [H ?]).
  repeat match goal with X : negb _ = true |- _ => apply negb_true_iff in X end.
  auto.
Qed.

Lemma filter_nonEmpty_names (l : list string) :
  forallb name l = true -> filter nonEmpty l = l.
Proof.
  induction l as [|a l IH]; simpl; [reflexivity|].
  intros H; apply andb_true_iff in H as [Ha Hl].
  apply name_inv in Ha as [Ha _]. unfold nonEmpty at 1. rewrite Ha. simpl.
  now rewrite IH.
Qed.

Lemma normalizeSegments_names (allow : bool) (l : list string) :
  forallb (fun s => (s =? "") || name s) l = true ->
  forall res,
    path.normalizeSegments allow res l = (rev res ++ filter nonEmpty l)%list.
Proof.
  induction l as [|a l IH]; simpl; intros Hl res; [now rewrite app_nil_r|].
  apply andb_true_iff in Hl as [Ha Hl].
  destruct (a =? "") eqn:Ea; simpl.
  - unfold nonEmpty at 1. rewrite Ea. simpl. now apply IH.
  - simpl in Ha. apply name_inv in Ha as (_ & Hdot & Hdots).
    rewrite Hdot, Hdots. unfold nonEmpty at 1. rewrite Ea. simpl.
    rewrite IH by assumption. simpl. now rewrite <- app_assoc.
Qed.

Lemma names_raw (l : list string) :
  forallb name l = true -> forallb (fun s => (s =? "") || name s) l = true.
Proof.
  induction l as [|a l IH]; simpl; [easy|].
  intros H; apply andb_true_iff in H as [Ha Hl].
  now rewrite Ha, orb_true_r, IH.
Qed.

(** ** The last character *)

Lemma endsWithSlash_append (a b : string) :
  b <> "" -> path.endsWithSlash (a ++ b) = path.endsWithSlash b.
Proof.
  intros Hb. induction a as [|c a IH]; [reflexivity|].
  simpl. destruct (a ++ b) eqn:E; [|exact IH].
  destruct a; simpl in E; [now elim Hb | discriminate].
Qed.

Lemma endsWithSlash_no_slash (s : string) :
  hasSlash s = false -> path.endsWithSlash s = false.
Proof.
  induction s as [|c s IH]; simpl; [reflexivity|].
  intros H; apply orb_false_iff in H as [Hc Hs].
  destruct s; [exact Hc | now apply IH].
Qed.

Lemma endsWithSlash_concat (l : list string) :
  forallb segment l = true -> path.endsWithSlash (String.concat "/" l) = false.
Proof.
  induction l as [|a l IH]; [reflexivity|].
  intros H; simpl in H; apply andb_true_iff in H as [Ha Hl].
  destruct l as [|b l].
  - apply endsWithSlash_no_slash. now apply segment_inv in Ha.
  - change (String.concat "/" (a :: b :: l))
      with (a ++ String "/" (String.concat "/" (b :: l))).
    rewrite endsWithSlash_append by discriminate.
    change (String "/" (String.concat "/" (b :: l)))
      with ("/" ++ String.concat "/" (b :: l)).
    rewrite endsWithSlash_append; [now apply IH|].
    simpl in Hl. apply andb_true_iff in Hl as [Hb _].
    apply segment_inv in Hb as [Hb _].
    destruct b; [now elim Hb|]. destruct l; discriminate.
Qed.

Lemma concat_names_nonempty (l : list string) :
  forallb segment l = true -> l <> [] -> String.concat "/" l <> "".
Proof.
  intros Hl Hne. destruct l as [|a l]; [now elim Hne|].
  simpl in Hl. apply andb_true_iff in Hl as [Ha _].
  apply segment_inv in Ha as [Ha _].
  destruct a; [now elim Ha|]. destruct l; simpl; discriminate.
Qed.

(** ** [path.join] of an absolute path and a relative one *)

Lemma normalize_absolute (p : string) (l : list string) :
  path.isAbsolute p = true -> path.endsWithSlash p = false ->
  path.normalizeSegments false [] (JsString.split_slash p) = l ->
  String.concat "/" l <> "" ->
  path.normalize p = "/" ++ String.concat "/" l.
Proof.
  intros Habs Hends Hsplit Hne.
  destruct p as [|c p]; [discriminate|].
  unfold path.normalize, path.normalizeString.
  rewrite Habs, Hends. simpl negb. rewrite Hsplit.
  destruct (String.concat "/" l); [now elim Hne | reflexivity].
Qed.

Theorem join_absolute (d q : list string) :
  forallb name d = true -> forallb name q = true -> q <> [] ->
  path.join [absolute d; String.concat "/" q] = absolute (d ++ q).
Proof.
  intros Hd Hq Hne.
  pose proof (names_segments q Hq) as Hqs.
  pose proof (names_segments d Hd) as Hds.
  pose proof (concat_names_nonempty q Hqs Hne) as Hqne.
  assert (Hdq : forallb name (d ++ q) = true)
    by now rewrite forallb_app, Hd, Hq.
  unfold path.join. simpl filter.
  destruct (String.concat "/" q =? "") eqn:E;
    [now apply String.eqb_eq in E|].
  simpl negb. cbv iota.
  change (String.concat "/" [absolute d; String.concat "/" q])
    with (absolute d ++ "/" ++ String.concat "/" q).
  apply normalize_absolute.
  - reflexivity.
  - rewrite endsWithSlash_append.
    + rewrite endsWithSlash_append by assumption.
      now apply endsWithSlash_concat.
    + destruct (String.concat "/" q); discriminate.
  - change (absolute d ++ "/" ++ String.concat "/" q)
      with (absolute d ++ String "/" (String.concat "/" q)).
    rewrite split_slash_append, (split_slash_concat q Hqs Hne).
    unfold absolute. change ("/" ++ String.concat "/" d)
      with ("" ++ String "/" (String.concat "/" d)).
    rewrite split_slash_append. simpl JsString.split_slash at 1.
    destruct d as [|a d].
    + simpl. rewrite normalizeSegments_names by now apply names_raw.
      simpl. now apply filter_nonEmpty_names.
    + rewrite (split_slash_concat (a :: d) Hds) by discriminate.
      change (path.normalizeSegments false [] ("" :: (a :: d) ++ q)%list
              = ((a :: d) ++ q)%list).
      rewrite normalizeSegments_names;
        [exact (filter_nonEmpty_names _ Hdq) | exact (names_raw _ Hdq)].
  - apply concat_names_nonempty.
    + now apply names_segments.
    + destruct d; [assumption | discriminate].
Qed.

(** The [.git] entry of a directory. *)
Corollary join_git (d : list string) :
  forallb name d = true ->
  path.join [absolute d; ".git"] = absolute (d ++ [".git"]).
Proof. intros Hd. now apply (join_absolute d [".git"]). Qed.

(** ** The loop terminates *)

Lemma dirname_scan_bound (p : string) (i : nat) :
  forall b e, path.dirname_scan p i b = Some e ->
              1 <= e /\ e <= i /\ (b = true -> e < i).
Proof.
  induction i as [|i IH]; intros b e H; simpl in H; [discriminate|].
  destruct (String.get (S i) p) as [c|].
  - destruct (path.isPosixPathSeparator c).
    + destruct b.
      * apply IH in H. lia.
      * inversion H; subst. repeat split; try lia; try discriminate.
    + apply IH in H. lia.
  - apply IH in H. lia.
Qed.

Lemma dirname_shrinks (p : string) :
  String.length (path.dirname p) < String.length p
  \/ path.dirname p = "/" \/ path.dirname p = ".".
Proof.
  destruct p as [|c0 p]; [now right; right|].
  unfold path.dirname.
  destruct (path.dirname_scan (String c0 p) (String.length (String c0 p) - 1) true)
    as [e|] eqn:E.
  - left. apply dirname_scan_bound in E as (H1 & H2 & H3).
    specialize (H3 eq_refl).
    destruct (path.isPosixPathSeparator c0 && (e =? 1)%nat) eqn:Er.
    + apply andb_true_iff in Er as [_ Er]. apply Nat.eqb_eq in Er. subst e.
      simpl String.length in *. lia.
    + pose proof (length_substring_0_le e (String c0 p)). lia.
  - destruct (path.isPosixPathSeparator c0); auto.
Qed.

Lemma dirname_nonempty (p : string) : path.dirname p <> "".
Proof.
  destruct p as [|c0 p]; [discriminate|].
  unfold path.dirname.
  destruct (path.dirname_scan (String c0 p) (String.length (String c0 p) - 1) true)
    as [e|] eqn:E.
  - apply dirname_scan_bound in E as (H1 & _).
    destruct (path.isPosixPathSeparator c0 && (e =? 1)%nat); [discriminate|].
    destruct e; [lia | discriminate].
  - destruct (path.isPosixPathSeparator c0); discriminate.
Qed.

(** The parent of an absolute path is absolute, that of a relative path
    is relative. *)
Lemma isAbsolute_dirname (p : string) :
  path.isAbsolute (path.dirname p) = path.isAbsolute p.
Proof.
  destruct p as [|c0 p]; [reflexivity|].
  unfold path.dirname.
  destruct (path.dirname_scan (String c0 p) (String.length (String c0 p) - 1) true)
    as [e|] eqn:E.
  - apply dirname_scan_bound in E as (H1 & _).
    destruct (path.isPosixPathSeparator c0 && (e =? 1)%nat) eqn:Er.
    + apply andb_true_iff in Er as [Er _]. simpl. now rewrite Er.
    + destruct e; [lia | reflexivity].
  - simpl. destruct (path.isPosixPathSeparator c0); reflexivity.
Qed.

Lemma parse_root_dirname (p : string) :
  path.parse_root (path.dirname p) = path.parse_root p.
Proof. unfold path.parse_root. now rewrite isAbsolute_dirname. Qed.

Lemma enough_upward_fuel (p : string) : enough (upward_fuel p) p.
Proof. left. unfold upward_fuel. lia. Qed.

Lemma enough_positive (fuel : nat) (p : string) : enough fuel p -> 1 <= fuel.
Proof. intros [H|[H _]]; lia. Qed.

Lemma enough_parent (fuel : nat) (p : string) :
  enough (S fuel) p -> path.dirname p <> p -> enough fuel (path.dirname p).
Proof.
  intros [H|[_ H]] Hne; [|now elim Hne].
  destruct (dirname_shrinks p) as [Hs|[Hs|Hs]].
  - left. lia.
  - right. rewrite Hs. split; [lia | reflexivity].
  - right. rewrite Hs. split; [lia | reflexivity].
Qed.

(** ** Computations *)

Lemma value_bind {A B} (m : M A) (k : A -> M B) :
  value (bind m k)
  = match value m with
    | Normal a => value (k a)
    | Thrown e => Thrown e
    | OutOfFuel => OutOfFuel
    end.
Proof.
  destruct m as [[a|e|] t]; simpl; try reflexivity.
  now destruct (k a).
Qed.

Lemma trace_bind {A B} (m : M A) (k : A -> M B) :
  trace (bind m k)
  = (trace m ++ match value m with
                | Normal a => trace (k a)
                | _ => []
                end)%list.
Proof.
  destruct m as [[a|e|] t]; simpl; try (now rewrite app_nil_r).
  now destruct (k a).
Qed.

Lemma M_eta {A} (m : M A) : m = (value m, trace m).
Proof. now destruct m. Qed.

(** ** The loop, one iteration at a time *)

Section Upward.

Context {A : Type}.
Variable body : string -> M (option A).
Variable rootPath : string.

Lemma upward_fuel_irrelevant (f1 : nat) :
  forall f2 p, enough f1 p -> enough f2 p ->
               upward body rootPath f1 p = upward body rootPath f2 p.
Proof.
  induction f1 as [|f1 IH]; intros f2 p H1 H2.
  - apply enough_positive in H1. lia.
  - destruct f2 as [|f2]; [apply enough_positive in H2; lia|].
    simpl. destruct (p =? rootPath); [reflexivity|].
    destruct (body p) as [[[a|]|e|] t]; try reflexivity.
    simpl. destruct (path.dirname p =? p) eqn:E; [reflexivity|].
    apply String.eqb_neq in E.
    now rewrite (IH f2 (path.dirname p)) by now apply enough_parent.
Qed.

Lemma upward_S (fuel : nat) (p : string) :
  upward body rootPath (S fuel) p
  = if (p =? rootPath) then ret None
    else
      r <- body p ;;
      match r with
      | Some a => ret (Some a)
      | None =>
          if (path.dirname p =? p) then ret None
          else upward body rootPath fuel (path.dirname p)
      end.
Proof. reflexivity. Qed.

(** The equation of the loop. *)
Lemma climb_unfold (p : string) :
  climb body rootPath p
  = if (p =? rootPath) then ret None
    else
      r <- body p ;;
      match r with
      | Some a => ret (Some a)
      | None =>
          if (path.dirname p =? p) then ret None
          else climb body rootPath (path.dirname p)
      end.
Proof.
  unfold climb at 1. unfold upward_fuel at 1. rewrite upward_S.
  destruct (p =? rootPath); [reflexivity|].
  destruct (body p) as [[[a|]|e|] t]; try reflexivity.
  cbn [bind]. destruct (path.dirname p =? p) eqn:E; [reflexivity|].
  apply String.eqb_neq in E. unfold climb.
  rewrite (upward_fuel_irrelevant (S (String.length p))
             (upward_fuel (path.dirname p)) (path.dirname p)); [reflexivity| |].
  - apply enough_parent; [left; lia | assumption].
  - apply enough_upward_fuel.
Qed.

Lemma climb_at_root : climb body rootPath rootPath = ret None.
Proof. rewrite climb_unfold. now rewrite String.eqb_refl. Qed.

Lemma climb_value_found (p : string) (a : A) :
  p <> rootPath -> value (body p) = Normal (Some a) ->
  value (climb body rootPath p) = Normal (Some a).
Proof.
  intros Hp Hb. rewrite climb_unfold.
  apply String.eqb_neq in Hp. rewrite Hp.
  now rewrite value_bind, Hb.
Qed.

Lemma climb_value_thrown (p : string) (e : string) :
  p <> rootPath -> value (body p) = Thrown e ->
  value (climb body rootPath p) = Thrown e.
Proof.
  intros Hp Hb. rewrite climb_unfold.
  apply String.eqb_neq in Hp. rewrite Hp.
  now rewrite value_bind, Hb.
Qed.

Lemma climb_value_skip (p : string) :
  p <> rootPath -> value (body p) = Normal None -> path.dirname p <> p ->
  value (climb body rootPath p) = value (climb body rootPath (path.dirname p)).
Proof.
  intros Hp Hb Hd. rewrite climb_unfold.
  apply String.eqb_neq in Hp. rewrite Hp.
  apply String.eqb_neq in Hd.
  now rewrite value_bind, Hb, Hd.
Qed.

Lemma climb_trace_skip (p : string) :
  p <> rootPath -> value (body p) = Normal None -> path.dirname p <> p ->
  trace (climb body rootPath p)
  = (trace (body p) ++ trace (climb body rootPath (path.dirname p)))%list.
Proof.
  intros Hp Hb Hd. rewrite climb_unfold.
  apply String.eqb_neq in Hp. rewrite Hp.
  apply String.eqb_neq in Hd.
  now rewrite trace_bind, Hb, Hd.
Qed.

Lemma climb_value_stop (p : string) :
  p <> rootPath -> value (body p) = Normal None -> path.dirname p = p ->
  value (climb body rootPath p) = Normal None.
Proof.
  intros Hp Hb Hd. rewrite climb_unfold.
  apply String.eqb_neq in Hp. rewrite Hp.
  apply String.eqb_eq in Hd.
  now rewrite value_bind, Hb, Hd.
Qed.

(** The loop ends whenever its body does. *)
Lemma upward_terminates :
  (forall d, value (body d) <> OutOfFuel) ->
  forall fuel p, enough fuel p ->
                 value (upward body rootPath fuel p) <> OutOfFuel.
Proof.
  intros Hbody fuel; induction fuel as [|fuel IH]; intros p Hp.
  - apply enough_positive in Hp. lia.
  - simpl. destruct (p =? rootPath); [discriminate|].
    rewrite value_bind. specialize (Hbody p).
    destruct (value (body p)) as [[a|]|e|]; try discriminate; [|now elim Hbody].
    destruct (path.dirname p =? p) eqn:E; [discriminate|].
    apply String.eqb_neq in E. apply IH. now apply enough_parent.
Qed.

(** What the loop returns, its body returned at some level other than
    the root. *)
Lemma upward_value_found (fuel : nat) :
  forall p a, value (upward body rootPath fuel p) = Normal (Some a) ->
              exists d, d <> rootPath /\ value (body d) = Normal (Some a).
Proof.
  induction fuel as [|fuel IH]; intros p a H; simpl in H.
  - destruct (p =? rootPath); discriminate.
  - destruct (p =? rootPath) eqn:Ep; [discriminate|].
    apply String.eqb_neq in Ep.
    rewrite value_bind in H.
    destruct (value (body p)) as [[b|]|e|] eqn:Eb; try discriminate.
    + exists p. split; [assumption|]. now rewrite Eb.
    + destruct (path.dirname p =? p); [discriminate|].
      now apply IH in H.
Qed.

Lemma upward_value_thrown (fuel : nat) :
  forall p e, value (upward body rootPath fuel p) = Thrown e ->
              exists d, d <> rootPath /\ value (body d) = Thrown e.
Proof.
  induction fuel as [|fuel IH]; intros p e H; simpl in H.
  - destruct (p =? rootPath); discriminate.
  - destruct (p =? rootPath) eqn:Ep; [discriminate|].
    apply String.eqb_neq in Ep.
    rewrite value_bind in H.
    destruct (value (body p)) as [[b|]|e'|] eqn:Eb; try discriminate.
    + destruct (path.dirname p =? p); [discriminate|].
      now apply IH in H.
    + exists p. split; [assumption|]. now rewrite Eb.
Qed.

(** Every event of the loop is an event of its body. *)
Lemma upward_trace (P : event -> Prop) :
  (forall d ev, In ev (trace (body d)) -> P ev) ->
  forall fuel p ev, In ev (trace (upward body rootPath fuel p)) -> P ev.
Proof.
  intros Hbody fuel; induction fuel as [|fuel IH]; intros p ev H; simpl in H.
  - destruct (p =? rootPath); now simpl in H.
  - destruct (p =? rootPath); [now simpl in H|].
    rewrite trace_bind in H. apply in_app_or in H as [H|H].
    + now apply (Hbody p).
    + destruct (value (body p)) as [[b|]|e|]; try now simpl in H.
      destruct (path.dirname p =? p); [now simpl in H|].
      now apply (IH (path.dirname p)).
Qed.

(** The body never runs at the root. *)
Lemma upward_skips_root (body' : string -> M (option A)) :
  (forall d, d <> rootPath -> body' d = body d) ->
  forall fuel p, upward body' rootPath fuel p = upward body rootPath fuel p.
Proof.
  intros Hsame fuel; induction fuel as [|fuel IH]; intros p; simpl.
  - reflexivity.
  - destruct (p =? rootPath) eqn:Ep; [reflexivity|].
    apply String.eqb_neq in Ep. rewrite (Hsame p Ep).
    destruct (body p) as [[[a|]|e|] t]; try reflexivity.
    simpl. destruct (path.dirname p =? p); [reflexivity|].
    now rewrite IH.
Qed.

End Upward.

(** ** One level of [getRepository] *)

Section Levels.

Variable h : Host.

Lemma repositoryAt_absent (d : string) :
  existsSync (fs h) (path.join [d; ".git"]) = false ->
  repositoryAt h d = (Normal None, [ExistsSync (path.join [d; ".git"])]).
Proof.
  intros H. unfold repositoryAt, fs_existsSync. cbn [bind]. now rewrite H.
Qed.

Lemma repositoryAt_stat_fails (d e : string) :
  existsSync (fs h) (path.join [d; ".git"]) = true ->
  statSync (fs h) (path.join [d; ".git"]) = Err e ->
  repositoryAt h d
  = (Thrown e, [ExistsSync (path.join [d; ".git"]);
                StatSync (path.join [d; ".git"])]).
Proof.
  intros H1 H2. unfold repositoryAt, fs_existsSync, fs_statSync.
  cbn [bind]. rewrite H1. cbn [bind]. now rewrite H2.
Qed.

Lemma repositoryAt_directory (d : string) :
  existsSync (fs h) (path.join [d; ".git"]) = true ->
  statSync (fs h) (path.join [d; ".git"]) = Ok S_IFDIR ->
  repositoryAt h d
  = (Normal (Some (path.dirname (path.join [d; ".git"]))),
     [ExistsSync (path.join [d; ".git"]);
      StatSync (path.join [d; ".git"]);
      ConsoleLog ("Using regular repository: "
                  ++ path.dirname (path.join [d; ".git"]))]).
Proof.
  intros H1 H2. unfold repositoryAt, fs_existsSync, fs_statSync.
  cbn [bind]. rewrite H1. cbn [bind]. now rewrite H2.
Qed.

Lemma repositoryAt_other (d : string) :
  existsSync (fs h) (path.join [d; ".git"]) = true ->
  statSync (fs h) (path.join [d; ".git"]) = Ok S_IFOTHER ->
  repositoryAt h d
  = (Normal None, [ExistsSync (path.join [d; ".git"]);
                   StatSync (path.join [d; ".git"])]).
Proof.
  intros H1 H2. unfold repositoryAt, fs_existsSync, fs_statSync.
  cbn [bind]. rewrite H1. cbn [bind]. now rewrite H2.
Qed.

Lemma repositoryAt_file (d : string) :
  existsSync (fs h) (path.join [d; ".git"]) = true ->
  statSync (fs h) (path.join [d; ".git"]) = Ok S_IFREG ->
  repositoryAt h d
  = (value (submoduleRepository h (path.join [d; ".git"])),
     [ExistsSync (path.join [d; ".git"]); StatSync (path.join [d; ".git"])]
       ++ trace (submoduleRepository h (path.join [d; ".git"])))%list.
Proof.
  intros H1 H2. unfold repositoryAt, fs_existsSync, fs_statSync.
  cbn [bind]. rewrite H1. cbn [bind]. rewrite H2. cbn [isFile].
  now destruct (submoduleRepository h (path.join [d; ".git"])).
Qed.

(** The [try] block never throws. *)
Lemma submoduleRepository_normal (m : string) :
  exists r, value (submoduleRepository h m) = Normal r.
Proof.
  unfold submoduleRepository, fs_readFileSync, fs_existsSync, fs_statSync.
  destruct (readFileSync (fs h) m) as [raw|e]; cbn; [|eauto].
  destruct (existsSync (fs h) _); cbn; [|eauto].
  destruct (statSync (fs h) _) as [[| |]|e]; cbn; eauto.
Qed.

Lemma submoduleRepository_unreadable (m e : string) :
  readFileSync (fs h) m = Err e ->
  submoduleRepository h m
  = (Normal None,
     [ReadFileSync m; ConsoleWarn ["Failed to parse .git file:"; e]]).
Proof.
  intros H. unfold submoduleRepository, fs_readFileSync. now rewrite H.
Qed.

Lemma submoduleRepository_value (m raw : string) :
  readFileSync (fs h) m = Ok raw ->
  value (submoduleRepository h m)
  = Normal (if isExistingDirectory h (gitDirPath_of h m (JsString.trim raw))
            then Some (path.dirname (gitDirPath_of h m (JsString.trim raw)))
            else None).
Proof.
  intros H.
  unfold submoduleRepository, fs_readFileSync, fs_existsSync, fs_statSync,
    isExistingDirectory.
  rewrite H. cbn [bind console_log emit].
  destruct (existsSync (fs h) _); [|reflexivity].
  cbn [andb].
  destruct (statSync (fs h) _) as [[| |]|e]; reflexivity.
Qed.

(** What a level answers when it answers. *)
Lemma repositoryAt_found (d r : string) :
  value (repositoryAt h d) = Normal (Some r) ->
  (isExistingDirectory h (path.join [d; ".git"]) = true
   /\ r = path.dirname (path.join [d; ".git"]))
  \/ (exists raw,
        isExistingFile h (path.join [d; ".git"]) = true
        /\ readFileSync (fs h) (path.join [d; ".git"]) = Ok raw
        /\ isExistingDirectory h
             (gitDirPath_of h (path.join [d; ".git"]) (JsString.trim raw)) = true
        /\ r = path.dirname
                 (gitDirPath_of h (path.join [d; ".git"]) (JsString.trim raw))).
Proof.
  intros H.
  destruct (existsSync (fs h) (path.join [d; ".git"])) eqn:E1.
  2:{ rewrite repositoryAt_absent in H by assumption. discriminate. }
  destruct (statSync (fs h) (path.join [d; ".git"])) as [[| |]|e] eqn:E2.
  - right. rewrite repositoryAt_file in H by assumption. cbn [value fst] in H.
    destruct (readFileSync (fs h) (path.join [d; ".git"])) as [raw|e] eqn:E3.
    + exists raw. rewrite (submoduleRepository_value _ raw E3) in H.
      unfold isExistingFile. rewrite E1, E2.
      destruct (isExistingDirectory h _) eqn:E4; [|discriminate].
      inversion H. auto.
    + rewrite (submoduleRepository_unreadable _ e E3) in H. discriminate.
  - left. rewrite repositoryAt_directory in H by assumption.
    inversion H. unfold isExistingDirectory. now rewrite E1, E2.
  - rewrite repositoryAt_other in H by assumption. discriminate.
  - rewrite (repositoryAt_stat_fails _ e) in H by assumption. discriminate.
Qed.

(** A level throws only when the type probe of its [.git] entry does. *)
Lemma repositoryAt_thrown (d e : string) :
  value (repositoryAt h d) = Thrown e ->
  existsSync (fs h) (path.join [d; ".git"]) = true
  /\ statSync (fs h) (path.join [d; ".git"]) = Err e.
Proof.
  intros H.
  destruct (existsSync (fs h) (path.join [d; ".git"])) eqn:E1.
  2:{ rewrite repositoryAt_absent in H by assumption. discriminate. }
  destruct (statSync (fs h) (path.join [d; ".git"])) as [[| |]|e'] eqn:E2.
  - rewrite repositoryAt_file in H by assumption. cbn [value fst] in H.
    destruct (submoduleRepository_normal (path.join [d; ".git"])) as [r Hr].
    rewrite Hr in H. discriminate.
  - rewrite repositoryAt_directory in H by assumption. discriminate.
  - rewrite repositoryAt_other in H by assumption. discriminate.
  - rewrite (repositoryAt_stat_fails _ e') in H by assumption.
    inversion H. auto.
Qed.

Lemma repositoryAt_finishes (d : string) : value (repositoryAt h d) <> OutOfFuel.
Proof.
  destruct (value (repositoryAt h d)) as [r|e|] eqn:E; try discriminate.
  exfalso.
  destruct (existsSync (fs h) (path.join [d; ".git"])) eqn:E1.
  2:{ rewrite repositoryAt_absent in E by assumption. discriminate. }
  destruct (statSync (fs h) (path.join [d; ".git"])) as [[| |]|e'] eqn:E2.
  - rewrite repositoryAt_file in E by assumption. cbn [value fst] in E.
    destruct (submoduleRepository_normal (path.join [d; ".git"])) as [r Hr].
    rewrite Hr in E. discriminate.
  - rewrite repositoryAt_directory in E by assumption. discriminate.
  - rewrite repositoryAt_other in E by assumption. discriminate.
  - rewrite (repositoryAt_stat_fails _ e') in E by assumption. discriminate.
Qed.

(** ** [getRepository] in terms of its loop *)

Lemma getRepository_value (element : string) (elementType : ElementType) :
  value (getRepository h element elementType)
  = value (climb (repositoryAt h) (path.parse_root element)
                 (startDir_of element elementType)).
Proof.
  unfold getRepository. fold (climb (repositoryAt h) (path.parse_root element)
                                    (startDir_of element elementType)).
  rewrite value_bind.
  now destruct (value (climb _ _ _)) as [[r|]|e|].
Qed.

Lemma getRepository_trace (element : string) (elementType : ElementType) :
  trace (getRepository h element elementType)
  = (trace (climb (repositoryAt h) (path.parse_root element)
                  (startDir_of element elementType))
     ++ match value (climb (repositoryAt h) (path.parse_root element)
                           (startDir_of element elementType)) with
        | Normal None =>
            [ShowWarningMessage "Unable to resolve the repository to open."]
        | _ => []
        end)%list.
Proof.
  unfold getRepository. fold (climb (repositoryAt h) (path.parse_root element)
                                    (startDir_of element elementType)).
  rewrite trace_bind.
  now destruct (value (climb _ _ _)) as [[r|]|e|].
Qed.

(** ** Climbing through levels that answer nothing *)

Lemma climb_through {A} (body : string -> M (option A)) (rest : list string) :
  forall d,
    forallb name (d ++ rest) = true ->
    (forall lvl, In lvl (levelsBetween d rest) ->
                 value (body (absolute lvl)) = Normal None) ->
    value (climb body "/" (absolute (d ++ rest)))
    = value (climb body "/" (absolute d)).
Proof.
  induction rest as [|x rest IH]; intros d Hn Hskip.
  - now rewrite app_nil_r.
  - replace (d ++ x :: rest)%list with ((d ++ [x]) ++ rest)%list in *
      by now rewrite <- app_assoc.
    rewrite IH; [| assumption | intros lvl Hl; apply Hskip; now right].
    rewrite forallb_app in Hn. apply andb_true_iff in Hn as [Hn _].
    pose proof (names_segments _ Hn) as Hs.
    rewrite forallb_app in Hs. apply andb_true_iff in Hs as [Hd Hx].
    simpl in Hx. rewrite andb_true_r in Hx.
    rewrite climb_value_skip.
    + now rewrite dirname_absolute_snoc.
    + apply absolute_neq_root; [now apply names_segments | now destruct d].
    + apply Hskip. now left.
    + rewrite dirname_absolute_snoc by assumption.
      intros E. pose proof (absolute_snoc_longer d x Hx) as Hl.
      rewrite <- E in Hl. lia.
Qed.

End Levels.

(** * The claims *)

(** ** Ordinary repositories *)

(** C2, as amended.  For a directory [d] other than the filesystem root
    whose [.git] entry is a directory, and a file path [p = d/rest/f] such
    that no directory strictly below [d] on the way to [p] has a [.git]
    entry, [getRepository(p, "file")] returns [d]; the value returned is
    the parent of the marker, [path.dirname(path.join(d, ".git"))], and
    in general a level whose [.git] entry is a directory answers the
    parent of that entry. *)
Theorem getRepository_regular_repository
        (h : Host) (d rest : list string) (f : string) :
  forallb name d = true -> forallb name rest = true -> segment f = true ->
  d <> [] ->
  isExistingDirectory h (path.join [absolute d; ".git"]) = true ->
  noMarkerBetween h d rest = true ->
  value (getRepository h (absolute (d ++ rest ++ [f])) file)
  = Normal (Some (absolute d))
  /\ path.dirname (path.join [absolute d; ".git"]) = absolute d
  /\ (forall level,
        isExistingDirectory h (path.join [level; ".git"]) = true ->
        value (repositoryAt h level)
        = Normal (Some (path.dirname (path.join [level; ".git"])))).
Proof.
  intros Hd Hrest Hf Hne Hdir Hnone.
  assert (Hparent : path.dirname (path.join [absolute d; ".git"]) = absolute d).
  { rewrite join_git by assumption.
    apply dirname_absolute_snoc; [now apply names_segments | reflexivity]. }
  assert (Hlevel : forall level,
             isExistingDirectory h (path.join [level; ".git"]) = true ->
             value (repositoryAt h level)
             = Normal (Some (path.dirname (path.join [level; ".git"])))).
  { intros level Hl. unfold isExistingDirectory in Hl.
    apply andb_true_iff in Hl as [He Hs].
    destruct (statSync (fs h) (path.join [level; ".git"]))
      as [[| |]|e] eqn:Est; try discriminate.
    now rewrite repositoryAt_directory. }
  split; [|split; [exact Hparent | exact Hlevel]].
  assert (Hdr : forallb name (d ++ rest) = true)
    by now rewrite forallb_app, Hd, Hrest.
  rewrite getRepository_value. cbn [startDir_of].
  rewrite app_assoc, absolute_parse_root.
  rewrite dirname_absolute_snoc by (now apply names_segments || assumption).
  rewrite climb_through; [| assumption |].
  - apply climb_value_found.
    + apply absolute_neq_root; [now apply names_segments | assumption].
    + rewrite (Hlevel _ Hdir). now rewrite Hparent.
  - intros lvl Hl. unfold noMarkerBetween in Hnone.
    rewrite forallb_forall in Hnone. specialize (Hnone lvl Hl).
    apply negb_true_iff in Hnone.
    now rewrite repositoryAt_absent.
Qed.

Lemma getRepository_regular_repository_witness :
  forallb name ["repo"] = true /\ forallb name ["src"] = true
  /\ segment "a.ts" = true /\ ["repo"] <> []
  /\ isExistingDirectory (diskHost submoduleDisk)
       (path.join [absolute ["repo"]; ".git"]) = true
  /\ noMarkerBetween (diskHost submoduleDisk) ["repo"] ["src"] = true
  /\ value (getRepository (diskHost submoduleDisk) "/repo/src/a.ts" file)
     = Normal (Some "/repo").
Proof.
  repeat (split; [first [reflexivity | discriminate]|]).
  apply (getRepository_regular_repository
           (diskHost submoduleDisk) ["repo"] ["src"] "a.ts");
    first [reflexivity | discriminate].
Defined.

(** C2, as stated, fails for the filesystem root: the directory [/] holds
    a [.git] directory and the file [/a.ts] lies directly in it, yet
    nothing is found. *)
Lemma getRepository_misses_repository_at_root :
  forallb name [] = true /\ segment "a.ts" = true
  /\ isExistingDirectory (diskHost rootRepositoryDisk)
       (path.join [absolute []; ".git"]) = true
  /\ noMarkerBetween (diskHost rootRepositoryDisk) [] [] = true
  /\ value (getRepository (diskHost rootRepositoryDisk)
              (absolute ([] ++ [] ++ ["a.ts"])) file) = Normal None
  /\ value (getRepository (diskHost rootRepositoryDisk)
              (absolute ([] ++ [] ++ ["a.ts"])) file)
     <> Normal (Some (absolute [])).
Proof. repeat split; try reflexivity. vm_compute. discriminate. Qed.

(** ** Submodules *)

(** What the walk returns at a redirecting marker.  For a directory [s]
    other than the filesystem root whose [.git] entry is a regular file
    with a valid redirect (its content resolves to an existing directory
    [g]), and a file path [p = s/rest/f] such that no directory strictly
    below [s] on the way to [p] has a [.git] entry, the value of
    [getRepository(p, "file")] is [path.dirname(g)] (line 62). *)
Theorem getRepository_submodule
        (h : Host) (s rest : list string) (f raw : string) :
  forallb name s = true -> forallb name rest = true -> segment f = true ->
  s <> [] ->
  isExistingFile h (path.join [absolute s; ".git"]) = true ->
  readFileSync (fs h) (path.join [absolute s; ".git"]) = Ok raw ->
  isExistingDirectory h
    (gitDirPath_of h (path.join [absolute s; ".git"]) (JsString.trim raw)) = true ->
  noMarkerBetween h s rest = true ->
  value (getRepository h (absolute (s ++ rest ++ [f])) file)
  = Normal (Some (path.dirname
                    (gitDirPath_of h (path.join [absolute s; ".git"])
                                   (JsString.trim raw)))).
Proof.
  intros Hs Hrest Hf Hne Hfile Hread Hdir Hnone.
  assert (Hsr : forallb name (s ++ rest) = true)
    by now rewrite forallb_app, Hs, Hrest.
  rewrite getRepository_value. cbn [startDir_of].
  rewrite app_assoc, absolute_parse_root.
  rewrite dirname_absolute_snoc by (now apply names_segments || assumption).
  rewrite climb_through; [| assumption |].
  - apply climb_value_found.
    + apply absolute_neq_root; [now apply names_segments | assumption].
    + unfold isExistingFile in Hfile.
      apply andb_true_iff in Hfile as [He Hst].
      destruct (statSync (fs h) (path.join [absolute s; ".git"]))
        as [[| |]|e] eqn:Est; try discriminate.
      rewrite repositoryAt_file by assumption. cbn [value fst].
      now rewrite (submoduleRepository_value h _ raw Hread), Hdir.
  - intros lvl Hl. unfold noMarkerBetween in Hnone.
    rewrite forallb_forall in Hnone. specialize (Hnone lvl Hl).
    apply negb_true_iff in Hnone.
    now rewrite repositoryAt_absent.
Qed.

(** The redirect of [besideDisk] points to a child of the submodule, and
    there the value is the submodule's own directory. *)
Lemma getRepository_submodule_witness :
  forallb name ["repo"; "libs"; "sub"] = true /\ forallb name [] = true
  /\ segment "x.ts" = true /\ ["repo"; "libs"; "sub"] <> []
  /\ isExistingFile (diskHost besideDisk)
       (path.join [absolute ["repo"; "libs"; "sub"]; ".git"]) = true
  /\ readFileSync (fs (diskHost besideDisk))
       (path.join [absolute ["repo"; "libs"; "sub"]; ".git"])
     = Ok ("gitdir: .gitdata" ++ LF)
  /\ isExistingDirectory (diskHost besideDisk)
       (gitDirPath_of (diskHost besideDisk)
          (path.join [absolute ["repo"; "libs"; "sub"]; ".git"])
          (JsString.trim ("gitdir: .gitdata" ++ LF))) = true
  /\ noMarkerBetween (diskHost besideDisk) ["repo"; "libs"; "sub"] [] = true
  /\ value (getRepository (diskHost besideDisk) "/repo/libs/sub/x.ts" file)
     = Normal (Some "/repo/libs/sub").
Proof.
  repeat (split; [first [reflexivity | discriminate]|]).
  apply (getRepository_submodule
           (diskHost besideDisk) ["repo"; "libs"; "sub"] [] "x.ts"
           ("gitdir: .gitdata" ++ LF));
    first [reflexivity | discriminate].
Defined.

(** C1.  In the layout that [git submodule add] creates, the redirect of
    [/repo/libs/sub/.git] resolves to the existing directory
    [/repo/.git/modules/sub].  For a file of the submodule
    [getRepository] returns [/repo/.git/modules], the parent of that
    directory, which is neither the submodule [/repo/libs/sub] nor the
    superproject [/repo], and line 63 logs it as the submodule
    repository; the second loop of [getFileDetails] and [openFile] finds
    [/repo/libs/sub] for the same file; and [openRepository] on the
    workspace folder [/repo/libs/sub] launches the binary in
    [/repo/.git/modules]. *)
Theorem standard_submodule_layout_resolves_elsewhere :
  isExistingFile (diskHost submoduleDisk) "/repo/libs/sub/.git" = true
  /\ readFileSync (fs (diskHost submoduleDisk)) "/repo/libs/sub/.git"
     = Ok ("gitdir: ../../.git/modules/sub" ++ LF)
  /\ gitDirPath_of (diskHost submoduleDisk) "/repo/libs/sub/.git"
       (JsString.trim ("gitdir: ../../.git/modules/sub" ++ LF))
     = "/repo/.git/modules/sub"
  /\ isExistingDirectory (diskHost submoduleDisk) "/repo/.git/modules/sub" = true
  /\ isExistingDirectory (diskHost submoduleDisk) "/repo/.git" = true
  /\ value (getRepository (diskHost submoduleDisk) "/repo/libs/sub/x.ts" file)
     = Normal (Some "/repo/.git/modules")
  /\ value (getRepository (diskHost submoduleDisk) "/repo/libs/sub/x.ts" file)
     <> Normal (Some "/repo/libs/sub")
  /\ In (ConsoleLog "Using submodule repository: /repo/.git/modules")
        (trace (getRepository (diskHost submoduleDisk)
                  "/repo/libs/sub/x.ts" file))
  /\ value (findSubmoduleRoot (diskHost submoduleDisk) "/repo/libs/sub/x.ts")
     = Normal (Some "/repo/libs/sub")
  /\ value (getRepository (diskHost submoduleDisk) "/repo/libs/sub" directory)
     = Normal (Some "/repo/.git/modules")
  /\ launches (trace (openRepository (diskHost submoduleDisk)
                        (mkWorkbench (Some ["/repo/libs/sub"]) None)))
     = [ExecFile "/opt/sublime_merge/sublime_merge" ["."] "/repo/.git/modules"].
Proof.
  repeat split; try (vm_compute; reflexivity).
  - vm_compute. discriminate.
  - vm_compute. repeat (try (left; reflexivity); right).
Qed.

(** ** Dangling redirects *)

Example dangling_redirect_falls_back :
  value (getRepository (diskHost danglingDisk) "/repo/sub/x.ts" file)
  = Normal (Some "/repo").
Proof. reflexivity. Qed.

(** ** The filesystem root *)

Lemma dirname_root_absolute (p : string) :
  path.dirname p = "/" -> path.parse_root p = "/".
Proof.
  intros H. rewrite <- parse_root_dirname, H. reflexivity.
Qed.

Lemma getRepository_finishes (h : Host) (element : string) (ty : ElementType) :
  value (getRepository h element ty) <> OutOfFuel.
Proof.
  rewrite getRepository_value. unfold climb.
  apply upward_terminates.
  - apply repositoryAt_finishes.
  - apply enough_upward_fuel.
Qed.

(** C4, as amended.  When the walk starts at the filesystem root,
    [getRepository] does not loop, makes no filesystem probe at all (the
    loop condition excludes the root, whose [.git] entry is therefore
    probed zero times), shows the warning and returns [undefined], whether
    or not the root holds a marker.  More generally [getRepository] ends
    on every input, and the body of its loop is never run at the root:
    [getRepository] is the same computation when what the body does at
    the root is replaced by anything else. *)
Theorem getRepository_at_root (h : Host) (element : string) (ty : ElementType) :
  (startDir_of element ty = "/" ->
   getRepository h element ty
   = (Normal None,
      [ShowWarningMessage "Unable to resolve the repository to open."]))
  /\ value (getRepository h element ty) <> OutOfFuel
  /\ (forall other : string -> M (option string),
        getRepository h element ty
        = (found <- climb (fun d => if (d =? path.parse_root element)
                                    then other d
                                    else repositoryAt h d)
                          (path.parse_root element) (startDir_of element ty) ;;
           match found with
           | Some repoPath => ret (Some repoPath)
           | None =>
               showWarningMessage "Unable to resolve the repository to open." ;;;
               ret None
           end)).
Proof.
  split; [|split].
  - intros Hstart.
    assert (Hroot : path.parse_root element = "/").
    { destruct ty; cbn [startDir_of] in Hstart.
      - now apply dirname_root_absolute.
      - now subst element. }
    unfold getRepository. rewrite Hstart, Hroot. reflexivity.
  - apply getRepository_finishes.
  - intros other. unfold getRepository, climb.
    rewrite (upward_skips_root (repositoryAt h) (path.parse_root element)
               (fun d => if (d =? path.parse_root element) then other d
                         else repositoryAt h d)); [reflexivity|].
    intros d Hd. apply String.eqb_neq in Hd. now rewrite Hd.
Qed.

Lemma getRepository_at_root_witness :
  startDir_of "/a.ts" file = "/"
  /\ getRepository (diskHost rootRepositoryDisk) "/a.ts" file
     = (Normal None,
        [ShowWarningMessage "Unable to resolve the repository to open."]).
Proof.
  split; [reflexivity|].
  apply (proj1 (getRepository_at_root (diskHost rootRepositoryDisk) "/a.ts" file)).
  reflexivity.
Defined.

(** C4, as stated, fails: started at the root, on a disk whose root holds
    a [.git] directory, the walk ends without having probed the root's
    marker once. *)
Lemma getRepository_never_probes_root :
  startDir_of "/" directory = "/"
  /\ existsSync (fs (diskHost rootRepositoryDisk)) (path.join ["/"; ".git"]) = true
  /\ value (getRepository (diskHost rootRepositoryDisk) "/" directory) = Normal None
  /\ List.length (probesOf (path.join ["/"; ".git"])
                    (trace (getRepository (diskHost rootRepositoryDisk)
                              "/" directory))) = 0
  /\ List.length (probesOf (path.join ["/"; ".git"])
                    (trace (getRepository (diskHost rootRepositoryDisk)
                              "/" directory))) <> 1.
Proof. repeat split; try reflexivity. vm_compute. discriminate. Qed.

(** ** User-facing warnings *)

Lemma repositoryAt_quiet (h : Host) (d : string) (ev : event) :
  In ev (trace (repositoryAt h d)) -> isUserWarning ev = false.
Proof.
  unfold repositoryAt, submoduleRepository,
    fs_existsSync, fs_statSync, fs_readFileSync.
  destruct (existsSync (fs h) (path.join [d; ".git"])); cbn [bind].
  2:{ cbn. intros [H|[]]. now subst. }
  destruct (statSync (fs h) (path.join [d; ".git"])) as [[| |]|e]; cbn [bind].
  - cbn [isFile].
    destruct (readFileSync (fs h) (path.join [d; ".git"])) as [raw|e];
      cbn [bind try_catch console_log console_warn emit ret].
    + destruct (existsSync (fs h) _);
        cbn [bind try_catch console_log console_warn emit ret].
      * destruct (statSync (fs h) _) as [[| |]|e];
          cbn [bind try_catch console_log console_warn emit ret isDirectory];
          cbn [trace snd app In]; intuition (subst; reflexivity).
      * cbn [trace snd app In]; intuition (subst; reflexivity).
    + cbn [trace snd app In]; intuition (subst; reflexivity).
  - cbn. intuition (subst; reflexivity).
  - cbn. intuition (subst; reflexivity).
  - cbn. intuition (subst; reflexivity).
Qed.

Lemma userWarnings_none (t : list event) :
  (forall ev, In ev t -> isUserWarning ev = false) -> userWarnings t = [].
Proof.
  induction t as [|ev t IH]; intros H; [reflexivity|].
  unfold userWarnings in *. simpl.
  rewrite (H ev) by now left.
  apply IH. intros ev' Hev'. apply H. now right.
Qed.

(** C9, as amended.  When the walk exhausts, [getRepository] returns
    [undefined] and shows, itself, the one warning "Unable to resolve the
    repository to open."; in every other run it shows none. *)
Theorem getRepository_user_warnings (h : Host) (element : string) (ty : ElementType) :
  userWarnings (trace (getRepository h element ty))
  = match value (getRepository h element ty) with
    | Normal None =>
        [ShowWarningMessage "Unable to resolve the repository to open."]
    | _ => []
    end.
Proof.
  rewrite getRepository_trace, getRepository_value.
  unfold userWarnings. rewrite filter_app.
  fold (userWarnings (trace (climb (repositoryAt h) (path.parse_root element)
                                   (startDir_of element ty)))).
  rewrite userWarnings_none.
  - now destruct (value (climb _ _ _)) as [[r|]|e|].
  - unfold climb. apply upward_trace. apply repositoryAt_quiet.
Qed.

(** C9, as stated, fails: with no repository on the way up, the locator
    itself shows a warning. *)
Lemma getRepository_warns_the_user :
  value (getRepository (diskHost bareDisk) "/home/a.ts" file) = Normal None
  /\ userWarnings (trace (getRepository (diskHost bareDisk) "/home/a.ts" file))
     = [ShowWarningMessage "Unable to resolve the repository to open."]
  /\ userWarnings (trace (getRepository (diskHost bareDisk) "/home/a.ts" file))
     <> [].
Proof. repeat split; try reflexivity. vm_compute. discriminate. Qed.

(** ** The invariant of a resolved repository *)

Lemma lookup_In (d : Disk) (p : string) (n : Node) :
  lookup d p = Some n -> In (p, n) d.
Proof.
  induction d as [|[q m] d IH]; simpl; [discriminate|].
  destruct (q =? p) eqn:E.
  - apply String.eqb_eq in E. intros H. inversion H. subst. now left.
  - intros H. right. now apply IH.
Qed.

Lemma disk_hierarchical (d : Disk) :
  closedUnderParent d = true -> hierarchical (diskHost d).
Proof.
  intros Hclosed p Hp. cbn in Hp.
  destruct (lookup d p) as [n|] eqn:E; [|discriminate].
  apply lookup_In in E.
  unfold closedUnderParent in Hclosed. rewrite forallb_forall in Hclosed.
  specialize (Hclosed _ E). cbn [fst] in Hclosed.
  unfold isExistingDirectory. cbn.
  destruct (lookup d (path.dirname p)) as [[| |]|]; try discriminate.
  reflexivity.
Qed.

(** C7.  On a filesystem where the parent of whatever exists is an
    existing directory, every root that [getRepository] returns is an
    existing directory, and it either is the parent of an existing [.git]
    directory (it directly contains the repository metadata) or is the
    parent of the existing directory that the redirect of a [.git] file
    resolves to. *)
Theorem getRepository_result_invariant
        (h : Host) (element : string) (ty : ElementType) (r : string) :
  hierarchical h ->
  value (getRepository h element ty) = Normal (Some r) ->
  isExistingDirectory h r = true
  /\ ((exists d,
         isExistingDirectory h (path.join [d; ".git"]) = true
         /\ r = path.dirname (path.join [d; ".git"]))
      \/ (exists d raw,
            isExistingFile h (path.join [d; ".git"]) = true
            /\ readFileSync (fs h) (path.join [d; ".git"]) = Ok raw
            /\ isExistingDirectory h
                 (gitDirPath_of h (path.join [d; ".git"]) (JsString.trim raw)) = true
            /\ r = path.dirname
                     (gitDirPath_of h (path.join [d; ".git"]) (JsString.trim raw)))).
Proof.
  intros Hh H. rewrite getRepository_value in H. unfold climb in H.
  apply upward_value_found in H as (d & _ & Hd).
  apply repositoryAt_found in Hd as [[Hdir Hr]|(raw & Hfile & Hread & Hdir & Hr)].
  - split.
    + subst r. apply Hh. unfold isExistingDirectory in Hdir.
      now apply andb_true_iff in Hdir as [He _].
    + left. now exists d.
  - split.
    + subst r. apply Hh. unfold isExistingDirectory in Hdir.
      now apply andb_true_iff in Hdir as [He _].
    + right. now exists d, raw.
Qed.

Lemma getRepository_result_invariant_witness :
  hierarchical (diskHost submoduleDisk)
  /\ value (getRepository (diskHost submoduleDisk) "/repo/libs/sub/x.ts" file)
     = Normal (Some "/repo/.git/modules")
  /\ isExistingDirectory (diskHost submoduleDisk) "/repo/.git/modules" = true.
Proof.
  split; [apply disk_hierarchical; reflexivity|].
  split; [reflexivity|].
  apply (getRepository_result_invariant
           (diskHost submoduleDisk) "/repo/libs/sub/x.ts" file "/repo/.git/modules");
    [apply disk_hierarchical; reflexivity | reflexivity].
Defined.

(** ** Relative paths *)

Lemma split_slash_absolute (d : list string) :
  forallb name d = true ->
  exists l, JsString.split_slash (absolute d) = l
            /\ forallb (fun s => (s =? "") || name s) l = true
            /\ filter nonEmpty l = d.
Proof.
  intros Hd. unfold absolute.
  change ("/" ++ String.concat "/" d) with ("" ++ String "/" (String.concat "/" d)).
  rewrite split_slash_append.
  destruct d as [|a d].
  - exists [""; ""]. repeat split; reflexivity.
  - rewrite (split_slash_concat (a :: d)) by (now apply names_segments || discriminate).
    exists ("" :: a :: d). split; [reflexivity|]. split.
    + exact (names_raw _ Hd).
    + exact (filter_nonEmpty_names _ Hd).
Qed.

Lemma segments_absolute (d : list string) :
  forallb name d = true -> path.segments (absolute d) = d.
Proof.
  intros Hd. destruct (split_slash_absolute d Hd) as (l & Hl & _ & Hf).
  unfold path.segments. now rewrite Hl.
Qed.

Lemma resolve_absolute (cwd : string) (d : list string) :
  forallb name d = true -> path.resolve cwd [absolute d] = absolute d.
Proof.
  intros Hd. unfold path.resolve. cbn [rev app path.resolve_scan].
  change (absolute d =? "") with false. cbn iota.
  rewrite absolute_isAbsolute. cbn [negb].
  unfold path.normalizeString.
  change (absolute d ++ "/" ++ "") with (absolute d ++ String "/" "").
  rewrite split_slash_append.
  destruct (split_slash_absolute d Hd) as (l & Hl & Hraw & Hf).
  rewrite Hl. cbn [JsString.split_slash].
  rewrite normalizeSegments_names.
  - rewrite filter_app, Hf. cbn. now rewrite app_nil_r.
  - rewrite forallb_app, Hraw. reflexivity.
Qed.

Lemma dropCommon_append (d q : list string) :
  path.dropCommon d (d ++ q) = ([], q).
Proof.
  induction d as [|a d IH]; cbn.
  - now destruct q.
  - now rewrite String.eqb_refl.
Qed.

Lemma absolute_injective (d1 d2 : list string) :
  forallb name d1 = true -> forallb name d2 = true ->
  absolute d1 = absolute d2 -> d1 = d2.
Proof.
  intros H1 H2 E.
  now rewrite <- (segments_absolute d1 H1), <- (segments_absolute d2 H2), E.
Qed.

(** [path.relative] undoes the appending of names. *)
Theorem relative_absolute (cwd : string) (d q : list string) :
  forallb name d = true -> forallb name q = true ->
  path.relative cwd (absolute d) (absolute (d ++ q)) = String.concat "/" q.
Proof.
  intros Hd Hq.
  assert (Hdq : forallb name (d ++ q) = true)
    by now rewrite forallb_app, Hd, Hq.
  unfold path.relative.
  destruct (absolute d =? absolute (d ++ q)) eqn:E.
  - apply String.eqb_eq in E. apply absolute_injective in E; try assumption.
    rewrite <- (app_nil_r d) in E at 1. apply app_inv_head in E. now subst q.
  - rewrite !resolve_absolute by assumption. rewrite E.
    rewrite !segments_absolute by assumption.
    now rewrite dropCommon_append.
Qed.

(** What [path.relative] returns never starts with a slash. *)
Lemma concat_not_absolute (l : list string) :
  forallb (fun s => nonEmpty s && negb (hasSlash s)) l = true ->
  path.isAbsolute (String.concat "/" l) = false.
Proof.
  destruct l as [|a l]; [reflexivity|].
  cbn [forallb]. intros H. apply andb_true_iff in H as [Ha _].
  apply andb_true_iff in Ha as [Hne Hs]. apply negb_true_iff in Hs.
  destruct a as [|c a]; [discriminate|].
  cbn in Hs. apply orb_false_iff in Hs as [Hc _].
  destruct l; cbn; exact Hc.
Qed.

Lemma segments_wellformed (p : string) :
  forallb (fun s => nonEmpty s && negb (hasSlash s)) (path.segments p) = true.
Proof.
  unfold path.segments.
  pose proof (split_slash_segments p) as H.
  induction (JsString.split_slash p) as [|a l IH]; [reflexivity|].
  cbn [forallb] in H. apply andb_true_iff in H as [Ha Hl].
  cbn [filter]. fold (nonEmpty a).
  destruct (nonEmpty a) eqn:E; [|now apply IH].
  cbn [forallb]. now rewrite E, Ha, IH.
Qed.

Lemma dropCommon_wellformed (P : string -> bool) (from to : list string) :
  forallb P from = true -> forallb P to = true ->
  forallb P (fst (path.dropCommon from to)) = true
  /\ forallb P (snd (path.dropCommon from to)) = true.
Proof.
  revert to; induction from as [|f from IH]; intros to Hf Ht.
  - cbn. now destruct to.
  - destruct to as [|t to]; [now cbn|].
    cbn [path.dropCommon]. destruct (f =? t); [|now cbn].
    cbn [forallb] in Hf, Ht.
    apply andb_true_iff in Hf as [_ Hf]. apply andb_true_iff in Ht as [_ Ht].
    now apply IH.
Qed.

Theorem relative_not_absolute (cwd from to : string) :
  path.isAbsolute (path.relative cwd from to) = false.
Proof.
  unfold path.relative.
  destruct (from =? to); [reflexivity|].
  destruct (path.resolve cwd [from] =? path.resolve cwd [to]); [reflexivity|].
  pose proof (dropCommon_wellformed
                (fun s => nonEmpty s && negb (hasSlash s))
                (path.segments (path.resolve cwd [from]))
                (path.segments (path.resolve cwd [to]))
                (segments_wellformed _) (segments_wellformed _)) as [Hup Hdown].
  destruct (path.dropCommon _ _) as [up down]. cbn [fst snd] in *.
  apply concat_not_absolute.
  rewrite forallb_app, Hdown, andb_true_r.
  clear. induction up as [|u up IH]; [reflexivity|].
  cbn. exact IH.
Qed.

(** ** The relative path of a file *)

Lemma absolute_append (r q : list string) :
  r <> [] -> q <> [] ->
  absolute (r ++ q) = (absolute r ++ "/") ++ String.concat "/" q.
Proof.
  intros Hr Hq. unfold absolute.
  rewrite concat_app by assumption. now rewrite !append_assoc.
Qed.

Lemma replace_prefix (a b : string) : JsString.replace (a ++ b) a "" = b.
Proof.
  destruct (a ++ b) as [|c s] eqn:E.
  - destruct a; [|discriminate]. cbn in E. subst b. reflexivity.
  - cbn [JsString.replace]. rewrite <- E, prefix_append.
    now rewrite substring_from_append.
Qed.

(** Joining and relativizing on names.  For a root [r] and a relative
    path [q], both given by names, [path.join(r, q)] is [r] followed by
    [q]; [path.relative] recovers [q] from it, and so does the removal of
    the text [r/] when [r] is not the filesystem root. *)
Theorem relativize_join (cwd : string) (r q : list string) :
  forallb name r = true -> forallb name q = true -> q <> [] ->
  path.join [absolute r; String.concat "/" q] = absolute (r ++ q)
  /\ path.relative cwd (absolute r) (path.join [absolute r; String.concat "/" q])
     = String.concat "/" q
  /\ (r <> [] ->
      JsString.replace (path.join [absolute r; String.concat "/" q])
                       (absolute r ++ "/") ""
      = String.concat "/" q)
  /\ path.isAbsolute (String.concat "/" q) = false
  /\ (forall from to, path.isAbsolute (path.relative cwd from to) = false).
Proof.
  intros Hr Hq Hne.
  rewrite join_absolute by assumption.
  split; [reflexivity|].
  split; [now apply relative_absolute|].
  split; [|split].
  - intros Hrne. rewrite absolute_append by assumption. apply replace_prefix.
  - rewrite <- (relative_absolute cwd r q Hr Hq). apply relative_not_absolute.
  - intros from to. apply relative_not_absolute.
Qed.

(** C6.  The textual replacement of line 121 leaves a leading separator
    on a file path with a doubled separator.  In the ordinary repository
    [/repo], for the file path [/repo//src/a.ts], [getRepository] returns
    [/repo], the second loop finds nothing, and [getFileDetails] reports
    the path [/src/a.ts], which starts with a separator; [openFile]
    searches for that text.  [path.relative], the computation of line
    144, gives [src/a.ts] for the same two paths. *)
Theorem getFileDetails_leading_separator :
  value (getRepository (diskHost submoduleDisk) "/repo//src/a.ts" file)
  = Normal (Some "/repo")
  /\ value (findSubmoduleRoot (diskHost submoduleDisk) "/repo//src/a.ts")
     = Normal None
  /\ value (getFileDetails (diskHost submoduleDisk)
              (mkTextEditor "/repo//src/a.ts" 0 0))
     = Normal (Some {| path := "/src/a.ts"; selectionStart := 1;
                       selectionEnd := 1; repository := "/repo" |})
  /\ path.isAbsolute "/src/a.ts" = true
  /\ path.relative (cwd (diskHost submoduleDisk)) "/repo" "/repo//src/a.ts"
     = "src/a.ts"
  /\ launches (trace (openFile (diskHost submoduleDisk)
                        "/repo//src/a.ts" search))
     = [ExecFile "/opt/sublime_merge/sublime_merge"
          ["search";
           "file:" ++ JsString.dquote ++ "/src/a.ts" ++ JsString.dquote]
          "/repo"].
Proof. repeat split; reflexivity. Qed.

(** ** The second loop *)

Section SecondLoop.

Variable h : Host.

Lemma submoduleRootAt_absent (d : string) :
  existsSync (fs h) (path.join [d; ".git"]) = false ->
  submoduleRootAt h d = (Normal None, [ExistsSync (path.join [d; ".git"])]).
Proof.
  intros H. unfold submoduleRootAt, fs_existsSync. cbn [bind]. now rewrite H.
Qed.

Lemma submoduleRootAt_stat (d : string) (st : Stats) :
  existsSync (fs h) (path.join [d; ".git"]) = true ->
  statSync (fs h) (path.join [d; ".git"]) = Ok st ->
  submoduleRootAt h d
  = (Normal (if isFile st then Some d else None),
     [ExistsSync (path.join [d; ".git"]); StatSync (path.join [d; ".git"])]).
Proof.
  intros H1 H2. unfold submoduleRootAt, fs_existsSync, fs_statSync.
  cbn [bind]. rewrite H1. cbn [bind]. rewrite H2. now destruct st.
Qed.

Lemma submoduleRootAt_stat_fails (d e : string) :
  existsSync (fs h) (path.join [d; ".git"]) = true ->
  statSync (fs h) (path.join [d; ".git"]) = Err e ->
  submoduleRootAt h d
  = (Thrown e,
     [ExistsSync (path.join [d; ".git"]); StatSync (path.join [d; ".git"])]).
Proof.
  intros H1 H2. unfold submoduleRootAt, fs_existsSync, fs_statSync.
  cbn [bind]. rewrite H1. cbn [bind]. now rewrite H2.
Qed.

(** The second loop only probes [.git] entries: it reads no file and
    looks at no redirect target. *)
Lemma submoduleRootAt_probes (d : string) (ev : event) :
  In ev (trace (submoduleRootAt h d)) -> isMarkerProbe ev.
Proof.
  destruct (existsSync (fs h) (path.join [d; ".git"])) eqn:E1.
  - destruct (statSync (fs h) (path.join [d; ".git"])) as [st|e] eqn:E2.
    + rewrite (submoduleRootAt_stat d st E1 E2). cbn.
      intros [H|[H|[]]]; subst; exists d; auto.
    + rewrite (submoduleRootAt_stat_fails d e E1 E2). cbn.
      intros [H|[H|[]]]; subst; exists d; auto.
  - rewrite (submoduleRootAt_absent d E1). cbn.
    intros [H|[]]; subst; exists d; auto.
Qed.

Lemma submoduleRootAt_thrown (d e : string) :
  value (submoduleRootAt h d) = Thrown e ->
  existsSync (fs h) (path.join [d; ".git"]) = true
  /\ statSync (fs h) (path.join [d; ".git"]) = Err e.
Proof.
  destruct (existsSync (fs h) (path.join [d; ".git"])) eqn:E1.
  - destruct (statSync (fs h) (path.join [d; ".git"])) as [st|e'] eqn:E2.
    + rewrite (submoduleRootAt_stat d st E1 E2). discriminate.
    + rewrite (submoduleRootAt_stat_fails d e' E1 E2). cbn.
      intros H. inversion H. auto.
  - rewrite (submoduleRootAt_absent d E1). discriminate.
Qed.

Lemma submoduleRootAt_finishes (d : string) :
  value (submoduleRootAt h d) <> OutOfFuel.
Proof.
  destruct (existsSync (fs h) (path.join [d; ".git"])) eqn:E1.
  - destruct (statSync (fs h) (path.join [d; ".git"])) as [st|e'] eqn:E2.
    + rewrite (submoduleRootAt_stat d st E1 E2). discriminate.
    + rewrite (submoduleRootAt_stat_fails d e' E1 E2). discriminate.
  - rewrite (submoduleRootAt_absent d E1). discriminate.
Qed.

Lemma findSubmoduleRoot_climb (filePath : string) :
  findSubmoduleRoot h filePath
  = climb (submoduleRootAt h) (path.parse_root filePath) (path.dirname filePath).
Proof. reflexivity. Qed.

Lemma findSubmoduleRoot_finishes (filePath : string) :
  value (findSubmoduleRoot h filePath) <> OutOfFuel.
Proof.
  rewrite findSubmoduleRoot_climb. unfold climb.
  apply upward_terminates.
  - apply submoduleRootAt_finishes.
  - apply enough_upward_fuel.
Qed.

(** What [getRepository] returns is never the empty string. *)
Lemma getRepository_nonempty (element : string) (ty : ElementType) (r : string) :
  value (getRepository h element ty) = Normal (Some r) -> r <> "".
Proof.
  intros H. rewrite getRepository_value in H. unfold climb in H.
  apply upward_value_found in H as (d & _ & Hd).
  apply repositoryAt_found in Hd as [[_ Hr]|(raw & _ & _ & _ & Hr)];
    subst r; apply dirname_nonempty.
Qed.

Lemma truthy_nonempty (s : string) : s <> "" -> truthy (Some s) = Some s.
Proof.
  intros H. cbn. apply String.eqb_neq in H. now rewrite H.
Qed.

End SecondLoop.

(** ** The file location *)

(** C10.  In [getFileDetails] and [openFile], once [getRepository] has
    returned a repository for the file [p = s/rest/f], the second loop
    finds the nearest directory [s] (other than the filesystem root) whose
    [.git] entry is a regular file, making only existence and type probes
    of [.git] entries on its way, and its answer replaces the repository:
    the working root reported is [s] itself and the relative path is
    [path.relative(s, p)], whatever the redirect says. *)
Theorem getFileDetails_submodule_override
        (h : Host) (editor : TextEditor) (s rest : list string) (f repo : string) :
  document_uri_path editor = absolute (s ++ rest ++ [f]) ->
  forallb name s = true -> forallb name rest = true -> name f = true ->
  s <> [] ->
  isExistingFile h (path.join [absolute s; ".git"]) = true ->
  noFileMarkerBetween h s rest = true ->
  value (getRepository h (absolute (s ++ rest ++ [f])) file) = Normal (Some repo) ->
  value (findSubmoduleRoot h (absolute (s ++ rest ++ [f])))
  = Normal (Some (absolute s))
  /\ (forall ev, In ev (trace (findSubmoduleRoot h (absolute (s ++ rest ++ [f])))) ->
                 isMarkerProbe ev)
  /\ path.relative (cwd h) (absolute s) (absolute (s ++ rest ++ [f]))
     = String.concat "/" (rest ++ [f])
  /\ value (getFileDetails h editor)
     = Normal (Some {| path := String.concat "/" (rest ++ [f]);
                       selectionStart := selection_start_line editor + 1;
                       selectionEnd := selection_end_line editor + 1;
                       repository := absolute s |})
  /\ (forall action,
        value (openFile h (absolute (s ++ rest ++ [f])) action) = Normal tt
        /\ In (ExecFile (binaryPath_of h)
                        [Action_text action;
                         searchPattern_of action (String.concat "/" (rest ++ [f]))]
                        (absolute s))
              (trace (openFile h (absolute (s ++ rest ++ [f])) action))).
Proof.
  intros Hpath Hs Hrest Hf Hne Hfile Hnone Hrepo.
  assert (Hsr : forallb name (s ++ rest) = true)
    by now rewrite forallb_app, Hs, Hrest.
  assert (Hrf : forallb name (rest ++ [f]) = true)
    by (rewrite forallb_app, Hrest; cbn; now rewrite Hf).
  assert (Hfind : value (findSubmoduleRoot h (absolute (s ++ rest ++ [f])))
                  = Normal (Some (absolute s))).
  { rewrite findSubmoduleRoot_climb.
    rewrite app_assoc, absolute_parse_root.
    rewrite dirname_absolute_snoc
      by (now apply names_segments || now apply name_segment).
    rewrite climb_through; [| assumption |].
    - apply climb_value_found.
      + apply absolute_neq_root; [now apply names_segments | assumption].
      + unfold isExistingFile in Hfile.
        apply andb_true_iff in Hfile as [He Hst].
        destruct (statSync (fs h) (path.join [absolute s; ".git"]))
          as [st|e] eqn:Est; [|discriminate].
        rewrite (submoduleRootAt_stat h _ st He Est). cbn [value fst].
        now rewrite Hst.
    - intros lvl Hl. unfold noFileMarkerBetween in Hnone.
      rewrite forallb_forall in Hnone. specialize (Hnone lvl Hl).
      cbv beta zeta in Hnone.
      destruct (existsSync (fs h) (path.join [absolute lvl; ".git"])) eqn:He.
      + cbn [negb orb] in Hnone.
        destruct (statSync (fs h) (path.join [absolute lvl; ".git"]))
          as [st|e] eqn:Est; [|discriminate].
        rewrite (submoduleRootAt_stat h _ st He Est). cbn [value fst].
        apply negb_true_iff in Hnone. now rewrite Hnone.
      + now rewrite submoduleRootAt_absent. }
  assert (Hrel : path.relative (cwd h) (absolute s) (absolute (s ++ rest ++ [f]))
                 = String.concat "/" (rest ++ [f]))
    by now apply relative_absolute.
  assert (Hroot : truthy (Some (absolute s)) = Some (absolute s))
    by now apply truthy_nonempty.
  assert (Hrepo' : truthy (Some repo) = Some repo).
  { apply truthy_nonempty. eapply getRepository_nonempty. exact Hrepo. }
  split; [exact Hfind|].
  split.
  { intros ev. rewrite findSubmoduleRoot_climb. unfold climb.
    apply upward_trace. apply submoduleRootAt_probes. }
  split; [exact Hrel|].
  split.
  - unfold getFileDetails. rewrite Hpath.
    rewrite value_bind, Hrepo, Hrepo'.
    rewrite value_bind, Hfind, Hroot. cbn [value fst ret].
    now rewrite Hrel.
  - intros action. unfold openFile.
    assert (Hp : truthy (Some (absolute (s ++ rest ++ [f])))
                 = Some (absolute (s ++ rest ++ [f])))
      by now apply truthy_nonempty.
    rewrite Hp. split.
    + rewrite value_bind, Hrepo, Hrepo'.
      rewrite value_bind, Hfind.
      unfold located. rewrite Hroot. reflexivity.
    + rewrite trace_bind, Hrepo, Hrepo'. apply in_or_app. right.
      rewrite trace_bind, Hfind. apply in_or_app. right.
      unfold located. rewrite Hroot, Hrel.
      cbn. repeat (try (left; reflexivity); right).
Qed.

(** The redirect of [/repo/sub/.git] dangles: [getRepository] skips it and
    answers [/repo], and [getFileDetails] nevertheless reports
    [/repo/sub]. *)
Lemma getFileDetails_submodule_override_witness :
  document_uri_path (mkTextEditor "/repo/sub/x.ts" 4 6)
  = absolute (["repo"; "sub"] ++ [] ++ ["x.ts"])
  /\ forallb name ["repo"; "sub"] = true /\ forallb name [] = true
  /\ name "x.ts" = true /\ ["repo"; "sub"] <> []
  /\ isExistingFile (diskHost danglingDisk)
       (path.join [absolute ["repo"; "sub"]; ".git"]) = true
  /\ noFileMarkerBetween (diskHost danglingDisk) ["repo"; "sub"] [] = true
  /\ value (getRepository (diskHost danglingDisk)
              (absolute (["repo"; "sub"] ++ [] ++ ["x.ts"])) file)
     = Normal (Some "/repo")
  /\ value (getFileDetails (diskHost danglingDisk)
              (mkTextEditor "/repo/sub/x.ts" 4 6))
     = Normal (Some {| path := "x.ts"; selectionStart := 5; selectionEnd := 7;
                       repository := "/repo/sub" |}).
Proof.
  repeat (split; [first [reflexivity | discriminate]|]).
  pose proof (getFileDetails_submodule_override
                (diskHost danglingDisk) (mkTextEditor "/repo/sub/x.ts" 4 6)
                ["repo"; "sub"] [] "x.ts" "/repo"
                eq_refl eq_refl eq_refl eq_refl ltac:(discriminate)
                eq_refl eq_refl eq_refl) as (_ & _ & _ & H & _).
  exact H.
Defined.

(** ** Reading a [.git] file *)

Lemma trimStart_spec (s : string) :
  exists l, s = l ++ JsString.trimStart s
            /\ allWhite l = true
            /\ startsWhite (JsString.trimStart s) = false.
Proof.
  induction s as [|c s (l & Hl & Hw & Hs)].
  - now exists "".
  - cbn [JsString.trimStart]. destruct (JsString.isWhiteSpace c) eqn:E.
    + exists (String c l). cbn. rewrite E, Hw. now rewrite <- Hl.
    + exists "". cbn. now rewrite E.
Qed.

Lemma trimEnd_spec (s : string) :
  exists r, s = JsString.trimEnd s ++ r
            /\ allWhite r = true
            /\ endsWhite (JsString.trimEnd s) = false.
Proof.
  induction s as [|c s (r & Hr & Hw & He)].
  - now exists "".
  - cbn [JsString.trimEnd]. destruct (JsString.trimEnd s) as [|a t] eqn:Et.
    + cbn in Hr. subst r. destruct (JsString.isWhiteSpace c) eqn:E.
      * exists (String c s). cbn. now rewrite E, Hw.
      * exists s. cbn. now rewrite E.
    + exists r. repeat split; [| assumption | exact He].
      cbn. now rewrite Hr at 1.
Qed.

Lemma trimEnd_keeps_start (s : string) :
  startsWhite s = false -> startsWhite (JsString.trimEnd s) = false.
Proof.
  destruct s as [|c s]; [reflexivity|].
  cbn [startsWhite JsString.trimEnd]. intros H.
  destruct (JsString.trimEnd s); [rewrite H|]; exact H.
Qed.

(** [trim] removes the white space around a text, and nothing else. *)
Lemma trim_spec (s : string) :
  exists l r, s = l ++ JsString.trim s ++ r
              /\ allWhite l = true /\ allWhite r = true
              /\ startsWhite (JsString.trim s) = false
              /\ endsWhite (JsString.trim s) = false.
Proof.
  destruct (trimStart_spec s) as (l & Hl & Hlw & Hs).
  destruct (trimEnd_spec (JsString.trimStart s)) as (r & Hr & Hrw & He).
  exists l, r. unfold JsString.trim. repeat split; try assumption.
  - now rewrite <- Hr.
  - now apply trimEnd_keeps_start.
Qed.

Lemma parsedGitDirPath_prefixed (rest : string) :
  parsedGitDirPath ("gitdir: " ++ rest) = JsString.trim rest.
Proof.
  unfold parsedGitDirPath, JsString.startsWith.
  rewrite prefix_append. reflexivity.
Qed.

Lemma submoduleRepository_trace (h : Host) (m raw : string) :
  readFileSync (fs h) m = Ok raw ->
  exists t,
    trace (submoduleRepository h m)
    = ([ReadFileSync m;
       ConsoleLog ("Found .git file at " ++ m ++ ", content: " ++ JsString.trim raw);
       ConsoleLog ("Resolved git directory path: "
                   ++ gitDirPath_of h m (JsString.trim raw));
       ExistsSync (gitDirPath_of h m (JsString.trim raw))] ++ t)%list.
Proof.
  intros H.
  unfold submoduleRepository, fs_readFileSync, fs_existsSync, fs_statSync.
  rewrite H. cbn [bind console_log emit].
  destruct (existsSync (fs h) _).
  - destruct (statSync (fs h) _) as [[| |]|e];
      cbn [bind try_catch ret console_log console_warn emit isDirectory trace snd app];
      eexists; reflexivity.
  - cbn [bind try_catch ret trace snd app]. eexists; reflexivity.
Qed.

(** C5, as amended.  For a [.git] entry that is a regular file, the level
    reads it, trims the white space around its content and takes the
    redirect target from the trimmed content: when that starts with the
    literal [gitdir: ], the target is the remainder with the white space
    around it trimmed again; otherwise it is the whole trimmed content.
    A target that is not absolute is resolved against the directory of
    the [.git] file.  The path so obtained is the one whose existence is
    probed next, and it decides what the level answers. *)
Theorem gitfile_redirect_target (h : Host) (d raw : string) :
  isExistingFile h (path.join [d; ".git"]) = true ->
  readFileSync (fs h) (path.join [d; ".git"]) = Ok raw ->
  (exists l r, raw = l ++ JsString.trim raw ++ r
               /\ allWhite l = true /\ allWhite r = true
               /\ startsWhite (JsString.trim raw) = false
               /\ endsWhite (JsString.trim raw) = false)
  /\ (forall rest, JsString.trim raw = "gitdir: " ++ rest ->
                   parsedGitDirPath (JsString.trim raw) = JsString.trim rest)
  /\ (JsString.startsWith (JsString.trim raw) "gitdir: " = false ->
      parsedGitDirPath (JsString.trim raw) = JsString.trim raw)
  /\ gitDirPath_of h (path.join [d; ".git"]) (JsString.trim raw)
     = (if path.isAbsolute (parsedGitDirPath (JsString.trim raw))
        then parsedGitDirPath (JsString.trim raw)
        else path.resolve (cwd h)
               [path.dirname (path.join [d; ".git"]);
                parsedGitDirPath (JsString.trim raw)])
  /\ (exists t,
        trace (repositoryAt h d)
        = ([ExistsSync (path.join [d; ".git"]);
           StatSync (path.join [d; ".git"]);
           ReadFileSync (path.join [d; ".git"]);
           ConsoleLog ("Found .git file at " ++ path.join [d; ".git"]
                       ++ ", content: " ++ JsString.trim raw);
           ConsoleLog ("Resolved git directory path: "
                       ++ gitDirPath_of h (path.join [d; ".git"]) (JsString.trim raw));
           ExistsSync (gitDirPath_of h (path.join [d; ".git"]) (JsString.trim raw))]
          ++ t)%list)
  /\ value (repositoryAt h d)
     = Normal (if isExistingDirectory h
                    (gitDirPath_of h (path.join [d; ".git"]) (JsString.trim raw))
               then Some (path.dirname
                            (gitDirPath_of h (path.join [d; ".git"])
                                           (JsString.trim raw)))
               else None).
Proof.
  intros Hfile Hread.
  unfold isExistingFile in Hfile. apply andb_true_iff in Hfile as [He Hst].
  destruct (statSync (fs h) (path.join [d; ".git"])) as [[| |]|e] eqn:Est;
    try discriminate.
  split; [apply trim_spec|].
  split; [intros rest E; rewrite E; apply parsedGitDirPath_prefixed|].
  split; [intros E; unfold parsedGitDirPath; now rewrite E|].
  split.
  { unfold gitDirPath_of.
    now destruct (path.isAbsolute (parsedGitDirPath (JsString.trim raw))). }
  rewrite repositoryAt_file by assumption. cbn [value trace fst snd].
  split.
  - destruct (submoduleRepository_trace h _ raw Hread) as [t Ht].
    exists t. now rewrite Ht.
  - now apply submoduleRepository_value.
Qed.

Lemma gitfile_redirect_target_witness :
  isExistingFile (diskHost paddedDisk) (path.join ["/repo/sub"; ".git"]) = true
  /\ readFileSync (fs (diskHost paddedDisk)) (path.join ["/repo/sub"; ".git"])
     = Ok ("gitdir:  /srv/meta" ++ LF)
  /\ value (repositoryAt (diskHost paddedDisk) "/repo/sub") = Normal (Some "/srv").
Proof.
  repeat (split; [first [reflexivity | discriminate]|]).
  apply (gitfile_redirect_target
           (diskHost paddedDisk) "/repo/sub" ("gitdir:  /srv/meta" ++ LF));
    reflexivity.
Defined.

(** C5, as stated, fails when white space follows the prefix: of the
    content [gitdir:  /srv/meta] the remainder is [ /srv/meta], a relative
    path, while the target that the code extracts and probes is the
    absolute path [/srv/meta]. *)
Lemma gitfile_remainder_is_trimmed_again :
  JsString.trim ("gitdir:  /srv/meta" ++ LF) = "gitdir:  /srv/meta"
  /\ JsString.startsWith "gitdir:  /srv/meta" "gitdir: " = true
  /\ redirectTarget_as_specified "gitdir:  /srv/meta" = " /srv/meta"
  /\ parsedGitDirPath "gitdir:  /srv/meta" = "/srv/meta"
  /\ parsedGitDirPath "gitdir:  /srv/meta"
     <> redirectTarget_as_specified "gitdir:  /srv/meta"
  /\ In (ExistsSync "/srv/meta")
        (trace (getRepository (diskHost paddedDisk) "/repo/sub/x.ts" file))
  /\ value (getRepository (diskHost paddedDisk) "/repo/sub/x.ts" file)
     = Normal (Some "/srv").
Proof.
  repeat split; try reflexivity.
  - discriminate.
  - vm_compute. repeat (try (left; reflexivity); right).
Qed.

(** The prefix is matched with its case. *)
Example gitdir_prefix_case_sensitive :
  parsedGitDirPath "GitDir: /srv/meta" = "GitDir: /srv/meta".
Proof. reflexivity. Qed.

(** ** Errors *)

Lemma getFileDetails_value (h : Host) (editor : TextEditor) :
  value (getFileDetails h editor)
  = match value (getRepository h (document_uri_path editor) file) with
    | Normal found =>
        match truthy found with
        | None => Normal None
        | Some repository_ =>
            match value (findSubmoduleRoot h (document_uri_path editor)) with
            | Normal submoduleRoot =>
                match truthy submoduleRoot with
                | Some root =>
                    Normal (Some {| path := path.relative (cwd h) root
                                              (document_uri_path editor);
                                    selectionStart := selection_start_line editor + 1;
                                    selectionEnd := selection_end_line editor + 1;
                                    repository := root |})
                | None =>
                    Normal (Some {| path := JsString.replace
                                              (document_uri_path editor)
                                              (repository_ ++ "/") "";
                                    selectionStart := selection_start_line editor + 1;
                                    selectionEnd := selection_end_line editor + 1;
                                    repository := repository_ |})
                end
            | Thrown e => Thrown e
            | OutOfFuel => OutOfFuel
            end
        end
    | Thrown e => Thrown e
    | OutOfFuel => OutOfFuel
    end.
Proof.
  unfold getFileDetails. rewrite value_bind.
  destruct (value (getRepository h (document_uri_path editor) file))
    as [found|e|]; try reflexivity.
  destruct (truthy found) as [repository_|]; [|reflexivity].
  rewrite value_bind.
  destruct (value (findSubmoduleRoot h (document_uri_path editor)))
    as [submoduleRoot|e|]; try reflexivity.
  now destruct (truthy submoduleRoot).
Qed.





(** ** The scenarios of the specification, run on the sample disks *)

Example ordinary_repository_file :
  value (getFileDetails (diskHost submoduleDisk) (mkTextEditor "/repo/src/a.ts" 0 0))
  = Normal (Some {| path := "src/a.ts"; selectionStart := 1; selectionEnd := 1;
                    repository := "/repo" |}).
Proof. vm_compute. reflexivity. Qed.

Example submodule_file :
  value (getFileDetails (diskHost submoduleDisk)
           (mkTextEditor "/repo/libs/sub/x.ts" 0 0))
  = Normal (Some {| path := "x.ts"; selectionStart := 1; selectionEnd := 1;
                    repository := "/repo/libs/sub" |}).
Proof. vm_compute. reflexivity. Qed.

Example no_repository :
  getRepository (diskHost bareDisk) "/home/a.ts" file
  = (Normal None,
     [ExistsSync "/home/.git";
      ShowWarningMessage "Unable to resolve the repository to open."]).
Proof. vm_compute. reflexivity. Qed.

Example workspace_directory :
  value (getRepository (diskHost submoduleDisk) "/repo" directory)
  = Normal (Some "/repo").
Proof. vm_compute. reflexivity. Qed.

Example submodule_workspace_directory :
  value (getRepository (diskHost submoduleDisk) "/repo/libs/sub" directory)
  = Normal (Some "/repo/.git/modules").
Proof. vm_compute. reflexivity. Qed.

Example blame_in_submodule :
  In (ExecFile "/opt/sublime_merge/sublime_merge" ["blame"; "x.ts"] "/repo/libs/sub")
     (trace (openFile (diskHost submoduleDisk) "/repo/libs/sub/x.ts" blame)).
Proof. vm_compute. repeat (try (left; reflexivity); right). Qed.

(** * Further properties of the extension *)

(** ** What a level of [getRepository] does *)

Lemma repositoryAt_event (h : Host) (d : string) (ev : event) :
  In ev (trace (repositoryAt h d)) ->
  match ev with
  | ExistsSync _ | StatSync _ | ConsoleLog _ | ConsoleWarn _ => True
  | ReadFileSync p =>
      p = path.join [d; ".git"] /\ isExistingFile h p = true
  | ShowWarningMessage _ | ExecFile _ _ _ => False
  end.
Proof.
  unfold repositoryAt, submoduleRepository, isExistingFile,
    fs_existsSync, fs_statSync, fs_readFileSync.
  destruct (existsSync (fs h) (path.join [d; ".git"])) eqn:E1; cbn [bind].
  2:{ cbn. intros [H|[]]. now subst. }
  destruct (statSync (fs h) (path.join [d; ".git"])) as [[| |]|e] eqn:E2;
    cbn [bind].
  - cbn [isFile].
    destruct (readFileSync (fs h) (path.join [d; ".git"])) as [raw|e];
      cbn [bind try_catch console_log console_warn emit ret].
    + destruct (existsSync (fs h)
                  (gitDirPath_of h (path.join [d; ".git"]) (JsString.trim raw)));
        cbn [bind try_catch console_log console_warn emit ret].
      * destruct (statSync (fs h)
                    (gitDirPath_of h (path.join [d; ".git"]) (JsString.trim raw)))
          as [[| |]|e];
          cbn [bind try_catch console_log console_warn emit ret isDirectory];
          cbn [trace snd app In]; intuition (subst; cbn; rewrite ?E1, ?E2; auto).
      * cbn [trace snd app In]; intuition (subst; cbn; rewrite ?E1, ?E2; auto).
    + cbn [trace snd app In]; intuition (subst; cbn; rewrite ?E1, ?E2; auto).
  - cbn. intuition (subst; cbn; rewrite ?E1, ?E2; auto).
  - cbn. intuition (subst; cbn; rewrite ?E1, ?E2; auto).
  - cbn. intuition (subst; cbn; rewrite ?E1, ?E2; auto).
Qed.

(** X1.  Resolving a file is resolving its directory: the call
    [getRepository(p, "file")] is, probe for probe and message for
    message, the call [getRepository(path.dirname(p), "directory")]. *)
Theorem getRepository_file_as_directory (h : Host) (p : string) :
  getRepository h p file = getRepository h (path.dirname p) directory.
Proof.
  unfold getRepository. cbn [startDir_of].
  now rewrite parse_root_dirname.
Qed.

(** X2.  [getRepository] never returns the empty string, so the test
    [!repository] of its callers fails on [undefined] only:
    [getFileDetails] returns [undefined] exactly when [getRepository]
    does, and then the one warning of [getRepository] has been shown. *)
Theorem getFileDetails_undefined_iff (h : Host) (editor : TextEditor) :
  (forall element ty r,
      value (getRepository h element ty) = Normal (Some r) -> r <> "")
  /\ (value (getFileDetails h editor) = Normal None
      <-> value (getRepository h (document_uri_path editor) file) = Normal None)
  /\ (value (getFileDetails h editor) = Normal None ->
      userWarnings (trace (getFileDetails h editor))
      = [ShowWarningMessage "Unable to resolve the repository to open."]).
Proof.
  split; [intros element ty r; apply getRepository_nonempty|].
  assert (Hiff : value (getFileDetails h editor) = Normal None
                 <-> value (getRepository h (document_uri_path editor) file)
                     = Normal None).
  { rewrite getFileDetails_value.
    destruct (value (getRepository h (document_uri_path editor) file))
      as [[r|]|e|] eqn:E.
    - rewrite (truthy_nonempty r (getRepository_nonempty h _ _ r E)).
      destruct (value (findSubmoduleRoot h (document_uri_path editor)))
        as [sr|e|]; [destruct (truthy sr)| |]; split; discriminate.
    - cbn. tauto.
    - split; discriminate.
    - split; discriminate. }
  split; [exact Hiff|].
  intros Hnone. apply Hiff in Hnone.
  unfold getFileDetails. rewrite trace_bind, Hnone. cbn [truthy ret trace snd].
  rewrite app_nil_r.
  rewrite getRepository_trace.
  rewrite getRepository_value in Hnone. rewrite Hnone.
  unfold userWarnings. rewrite filter_app.
  fold (userWarnings (trace (climb (repositoryAt h)
                               (path.parse_root (document_uri_path editor))
                               (startDir_of (document_uri_path editor) file)))).
  rewrite userWarnings_none; [reflexivity|].
  unfold climb. apply upward_trace. apply repositoryAt_quiet.
Qed.

Lemma getFileDetails_undefined_iff_witness :
  value (getFileDetails (diskHost bareDisk) (mkTextEditor "/home/a.ts" 0 0))
  = Normal None
  /\ userWarnings (trace (getFileDetails (diskHost bareDisk)
                            (mkTextEditor "/home/a.ts" 0 0)))
     = [ShowWarningMessage "Unable to resolve the repository to open."].
Proof.
  split; [reflexivity|].
  apply (getFileDetails_undefined_iff (diskHost bareDisk)
           (mkTextEditor "/home/a.ts" 0 0)).
  reflexivity.
Defined.

Ltac break_level :=
  repeat split; intros;
  repeat match goal with
         | H : _ \/ _ |- _ => destruct H
         | H : _ /\ _ |- _ => destruct H
         | H : exists _, _ |- _ => destruct H
         end;
  cbn in *; subst;
  repeat match goal with
         | H : Ok _ = Ok _ |- _ => inversion H; clear H; subst
         | H : Normal _ = Normal _ |- _ => inversion H; clear H; subst
         end;
  try discriminate; try congruence; auto.

(** X3.  What one level answers, case by case.  A level answers nothing
    exactly when its [.git] entry is missing, or is neither a regular file
    nor a directory, or is a regular file that cannot be read or whose
    redirect target is not an existing directory; it throws exactly when
    the type probe of an existing [.git] entry throws; and it answers a
    repository exactly when the entry is a directory (the answer is its
    parent) or a readable file with a valid redirect (the answer is the
    parent of the target). *)
Theorem repositoryAt_cases (h : Host) (d : string) :
  (value (repositoryAt h d) = Normal None
   <-> (existsSync (fs h) (path.join [d; ".git"]) = false
        \/ (existsSync (fs h) (path.join [d; ".git"]) = true
            /\ statSync (fs h) (path.join [d; ".git"]) = Ok S_IFOTHER)
        \/ (isExistingFile h (path.join [d; ".git"]) = true
            /\ exists e, readFileSync (fs h) (path.join [d; ".git"]) = Err e)
        \/ (isExistingFile h (path.join [d; ".git"]) = true
            /\ exists raw,
                 readFileSync (fs h) (path.join [d; ".git"]) = Ok raw
                 /\ isExistingDirectory h
                      (gitDirPath_of h (path.join [d; ".git"]) (JsString.trim raw))
                    = false)))
  /\ (forall e,
        value (repositoryAt h d) = Thrown e
        <-> (existsSync (fs h) (path.join [d; ".git"]) = true
             /\ statSync (fs h) (path.join [d; ".git"]) = Err e))
  /\ (forall r,
        value (repositoryAt h d) = Normal (Some r)
        <-> ((isExistingDirectory h (path.join [d; ".git"]) = true
              /\ r = path.dirname (path.join [d; ".git"]))
             \/ (isExistingFile h (path.join [d; ".git"]) = true
                 /\ exists raw,
                      readFileSync (fs h) (path.join [d; ".git"]) = Ok raw
                      /\ isExistingDirectory h
                           (gitDirPath_of h (path.join [d; ".git"])
                                          (JsString.trim raw)) = true
                      /\ r = path.dirname
                               (gitDirPath_of h (path.join [d; ".git"])
                                              (JsString.trim raw))))).
Proof.
  unfold isExistingFile, isExistingDirectory.
  destruct (existsSync (fs h) (path.join [d; ".git"])) eqn:E1.
  2:{ rewrite (repositoryAt_absent h d E1). break_level. }
  destruct (statSync (fs h) (path.join [d; ".git"])) as [[| |]|e'] eqn:E2.
  - rewrite (repositoryAt_file h d E1 E2). cbn [value fst].
    destruct (readFileSync (fs h) (path.join [d; ".git"])) as [raw|e''] eqn:E3.
    + rewrite (submoduleRepository_value h _ raw E3).
      unfold isExistingDirectory.
      destruct (existsSync (fs h) (gitDirPath_of h _ _)
                && match statSync (fs h) (gitDirPath_of h _ _) with
                   | Ok st => isDirectory st
                   | Err _ => false
                   end) eqn:E4; break_level.
      * right. split; [reflexivity|]. exists raw. repeat split; auto.
      * right. right. right. split; [reflexivity|]. exists raw. auto.
    + rewrite (submoduleRepository_unreadable h _ e'' E3). break_level.
      right. right. left. split; [reflexivity|]. now exists e''.
  - rewrite (repositoryAt_directory h d E1 E2). break_level.
  - rewrite (repositoryAt_other h d E1 E2). break_level.
  - rewrite (repositoryAt_stat_fails h d e' E1 E2). break_level.
Qed.

(** ** Levels that cannot be used *)

(** X4.  A [.git] file that cannot be read is not fatal: the level makes
    its two probes and the failed read, writes the error to the console
    with [console.warn], shows nothing to the user and answers nothing;
    the walk goes on from the parent directory. *)
Theorem unreadable_gitfile_is_skipped (h : Host) (d e : string) :
  isExistingFile h (path.join [d; ".git"]) = true ->
  readFileSync (fs h) (path.join [d; ".git"]) = Err e ->
  repositoryAt h d
  = (Normal None,
     [ExistsSync (path.join [d; ".git"]);
      StatSync (path.join [d; ".git"]);
      ReadFileSync (path.join [d; ".git"]);
      ConsoleWarn ["Failed to parse .git file:"; e]])
  /\ (forall rootPath,
        d <> rootPath ->
        value (climb (repositoryAt h) rootPath d)
        = value (climb (repositoryAt h) rootPath (path.dirname d)))
  /\ (forall element ty,
        startDir_of element ty = d -> d <> path.parse_root element ->
        value (getRepository h element ty)
        = value (getRepository h (path.dirname d) directory)).
Proof.
  intros Hfile Hread.
  assert (Hlevel : repositoryAt h d
                   = (Normal None,
                      [ExistsSync (path.join [d; ".git"]);
                       StatSync (path.join [d; ".git"]);
                       ReadFileSync (path.join [d; ".git"]);
                       ConsoleWarn ["Failed to parse .git file:"; e]])).
  { unfold isExistingFile in Hfile.
    apply andb_true_iff in Hfile as [He Hst].
    destruct (statSync (fs h) (path.join [d; ".git"]))
      as [[| |]|e'] eqn:Est; try discriminate.
    rewrite repositoryAt_file by assumption.
    now rewrite (submoduleRepository_unreadable h _ e Hread). }
  assert (Hclimb : forall rootPath,
             d <> rootPath ->
             value (climb (repositoryAt h) rootPath d)
             = value (climb (repositoryAt h) rootPath (path.dirname d))).
  { intros rootPath Hroot.
    destruct (string_dec (path.dirname d) d) as [E|E].
    - now rewrite E.
    - apply climb_value_skip; [assumption | now rewrite Hlevel | assumption]. }
  split; [exact Hlevel|]. split; [exact Hclimb|].
  intros element ty Hstart Hroot.
  rewrite !getRepository_value. cbn [startDir_of]. rewrite Hstart.
  rewrite parse_root_dirname.
  replace (path.parse_root d) with (path.parse_root element).
  - now apply Hclimb.
  - subst d. destruct ty; cbn [startDir_of];
      [now rewrite parse_root_dirname | reflexivity].
Qed.

Lemma unreadable_gitfile_is_skipped_witness :
  isExistingFile unreadableHost (path.join ["/repo/sub"; ".git"]) = true
  /\ readFileSync (fs unreadableHost) (path.join ["/repo/sub"; ".git"])
     = Err "EACCES"
  /\ value (getRepository unreadableHost "/repo/sub/x.ts" file)
     = value (getRepository unreadableHost "/repo" directory).
Proof.
  destruct (unreadable_gitfile_is_skipped unreadableHost "/repo/sub" "EACCES"
              eq_refl eq_refl) as (_ & _ & Hwalk).
  split; [reflexivity|]. split; [reflexivity|].
  apply (Hwalk "/repo/sub/x.ts" file); [reflexivity | discriminate].
Defined.

(** ** A [.git] file without content *)

Lemma trimStart_allWhite (s : string) :
  allWhite s = true -> JsString.trimStart s = "".
Proof.
  induction s as [|c s IH]; [reflexivity|].
  cbn. intros H. apply andb_true_iff in H as [Hc Hs].
  rewrite Hc. now apply IH.
Qed.

Lemma trim_allWhite (s : string) : allWhite s = true -> JsString.trim s = "".
Proof.
  intros H. unfold JsString.trim. now rewrite trimStart_allWhite.
Qed.

Lemma resolve_absolute_empty (cwd : string) (d : list string) :
  forallb name d = true -> path.resolve cwd [absolute d; ""] = absolute d.
Proof.
  intros Hd. rewrite <- (resolve_absolute cwd d Hd) at 2. reflexivity.
Qed.

(** X5.  A [.git] file that holds only white space names the directory it
    lies in as the git directory, and the repository returned is the
    parent of that directory: for a file [l/x/f], with such a [.git] file
    in the existing directory [l/x], [getRepository] returns [l]. *)
Theorem blank_gitfile_resolves_to_parent
        (h : Host) (l : list string) (x f raw : string) :
  forallb name (l ++ [x]) = true -> segment f = true ->
  allWhite raw = true ->
  isExistingFile h (path.join [absolute (l ++ [x]); ".git"]) = true ->
  readFileSync (fs h) (path.join [absolute (l ++ [x]); ".git"]) = Ok raw ->
  isExistingDirectory h (absolute (l ++ [x])) = true ->
  gitDirPath_of h (path.join [absolute (l ++ [x]); ".git"]) (JsString.trim raw)
  = absolute (l ++ [x])
  /\ value (getRepository h (absolute ((l ++ [x]) ++ [f])) file)
     = Normal (Some (absolute l)).
Proof.
  intros Hn Hf Hw Hfile Hread Hdir.
  pose proof (names_segments _ Hn) as Hs.
  assert (Hg : gitDirPath_of h (path.join [absolute (l ++ [x]); ".git"])
                             (JsString.trim raw)
               = absolute (l ++ [x])).
  { rewrite (trim_allWhite raw Hw). unfold gitDirPath_of.
    change (parsedGitDirPath "") with "". cbn [path.isAbsolute negb].
    rewrite join_git by assumption.
    rewrite dirname_absolute_snoc by (assumption || reflexivity).
    now apply resolve_absolute_empty. }
  split; [exact Hg|].
  rewrite getRepository_value. cbn [startDir_of].
  rewrite absolute_parse_root.
  rewrite dirname_absolute_snoc by assumption.
  apply climb_value_found.
  - apply absolute_neq_root; [assumption | now destruct l].
  - unfold isExistingFile in Hfile.
    apply andb_true_iff in Hfile as [He Hst].
    destruct (statSync (fs h) (path.join [absolute (l ++ [x]); ".git"]))
      as [[| |]|e] eqn:Est; try discriminate.
    rewrite repositoryAt_file by assumption. cbn [value fst].
    rewrite (submoduleRepository_value h _ raw Hread), Hg, Hdir.
    rewrite forallb_app in Hs. apply andb_true_iff in Hs as [Hl Hx].
    cbn in Hx. rewrite andb_true_r in Hx.
    now rewrite dirname_absolute_snoc.
Qed.

Lemma blank_gitfile_resolves_to_parent_witness :
  forallb name (["home"] ++ ["work"]) = true /\ segment "a.ts" = true
  /\ allWhite LF = true
  /\ isExistingFile (diskHost blankDisk)
       (path.join [absolute (["home"] ++ ["work"]); ".git"]) = true
  /\ readFileSync (fs (diskHost blankDisk))
       (path.join [absolute (["home"] ++ ["work"]); ".git"]) = Ok LF
  /\ isExistingDirectory (diskHost blankDisk) (absolute (["home"] ++ ["work"]))
     = true
  /\ value (getRepository (diskHost blankDisk) "/home/work/a.ts" file)
     = Normal (Some "/home").
Proof.
  repeat (split; [reflexivity|]).
  exact (proj2 (blank_gitfile_resolves_to_parent
                  (diskHost blankDisk) ["home"] "work" "a.ts" LF
                  eq_refl eq_refl eq_refl eq_refl eq_refl eq_refl)).
Defined.

(** ** What resolution never does *)

Lemma launches_none (t : list event) :
  (forall ev, In ev t -> isLaunch ev = false) -> launches t = [].
Proof.
  induction t as [|ev t IH]; intros H; [reflexivity|].
  unfold launches in *. simpl.
  rewrite (H ev) by now left.
  apply IH. intros ev' Hev'. apply H. now right.
Qed.

Lemma getRepository_event (h : Host) (element : string) (ty : ElementType)
      (ev : event) :
  In ev (trace (getRepository h element ty)) ->
  resolutionEvent h ev.
Proof.
  rewrite getRepository_trace. intros H. apply in_app_or in H as [H|H].
  - revert H. unfold climb.
    apply (upward_trace (repositoryAt h) _ (resolutionEvent h)). clear ev.
    intros d ev Hev. apply repositoryAt_event in Hev.
    destruct ev; cbn in *; try exact Hev; try contradiction. now exists d.
  - destruct (value (climb _ _ _)) as [[r|]|e|]; cbn in H; try contradiction.
    destruct H as [H|[]]. now subst ev.
Qed.

Lemma findSubmoduleRoot_event (h : Host) (filePath : string) (ev : event) :
  In ev (trace (findSubmoduleRoot h filePath)) ->
  probeEvent ev.
Proof.
  rewrite findSubmoduleRoot_climb. unfold climb.
  apply (upward_trace (submoduleRootAt h) _ probeEvent). clear ev.
  intros d ev Hev. apply submoduleRootAt_probes in Hev as [d' [H|H]];
    now subst ev.
Qed.

Lemma getFileDetails_trace (h : Host) (editor : TextEditor) :
  trace (getFileDetails h editor)
  = (trace (getRepository h (document_uri_path editor) file)
     ++ match value (getRepository h (document_uri_path editor) file) with
        | Normal found =>
            match truthy found with
            | Some _ => trace (findSubmoduleRoot h (document_uri_path editor))
            | None => []
            end
        | _ => []
        end)%list.
Proof.
  unfold getFileDetails. rewrite trace_bind.
  destruct (value (getRepository h (document_uri_path editor) file))
    as [found|e|]; try reflexivity.
  destruct (truthy found) as [repository_|]; [|reflexivity].
  rewrite trace_bind.
  destruct (value (findSubmoduleRoot h (document_uri_path editor)))
    as [sr|e|]; [destruct (truthy sr)| |]; cbn; now rewrite ?app_nil_r.
Qed.

Lemma getFileDetails_event (h : Host) (editor : TextEditor) (ev : event) :
  In ev (trace (getFileDetails h editor)) ->
  resolutionEvent h ev.
Proof.
  rewrite getFileDetails_trace. intros H. apply in_app_or in H as [H|H].
  - now apply getRepository_event in H.
  - destruct (value (getRepository h (document_uri_path editor) file))
      as [found|e|]; try contradiction.
    destruct (truthy found); [|contradiction].
    apply findSubmoduleRoot_event in H. now destruct ev.
Qed.

(** X6.  Resolution only looks: [getRepository] and [getFileDetails]
    launch no process, and the only files they read are [.git] entries
    that exist and are regular files. *)
Theorem resolution_only_reads_git_entries
        (h : Host) (element : string) (ty : ElementType) (editor : TextEditor) :
  launches (trace (getRepository h element ty)) = []
  /\ launches (trace (getFileDetails h editor)) = []
  /\ (forall p,
        In (ReadFileSync p) (trace (getRepository h element ty))
        \/ In (ReadFileSync p) (trace (getFileDetails h editor)) ->
        exists d, p = path.join [d; ".git"] /\ isExistingFile h p = true).
Proof.
  split; [|split].
  - apply launches_none. intros ev Hev.
    apply getRepository_event in Hev. now destruct ev.
  - apply launches_none. intros ev Hev.
    apply getFileDetails_event in Hev. now destruct ev.
  - intros p [H|H].
    + now apply getRepository_event in H.
    + now apply getFileDetails_event in H.
Qed.

Lemma resolution_only_reads_git_entries_witness :
  In (ReadFileSync "/repo/libs/sub/.git")
     (trace (getRepository (diskHost submoduleDisk) "/repo/libs/sub/x.ts" file))
  /\ exists d,
       "/repo/libs/sub/.git" = path.join [d; ".git"]
       /\ isExistingFile (diskHost submoduleDisk) "/repo/libs/sub/.git" = true.
Proof.
  assert (H : In (ReadFileSync "/repo/libs/sub/.git")
                 (trace (getRepository (diskHost submoduleDisk)
                           "/repo/libs/sub/x.ts" file))).
  { vm_compute. repeat (try (left; reflexivity); right). }
  split; [exact H|].
  apply (resolution_only_reads_git_entries
           (diskHost submoduleDisk) "/repo/libs/sub/x.ts" file
           (mkTextEditor "/repo/libs/sub/x.ts" 0 0)).
  left. exact H.
Defined.

(** ** The levels of a walk *)

Lemma levelsBetween_app (r1 : list string) :
  forall d r2,
    levelsBetween d (r1 ++ r2)
    = (levelsBetween d r1 ++ levelsBetween (d ++ r1) r2)%list.
Proof.
  induction r1 as [|x r1 IH]; intros d r2.
  - cbn. now rewrite app_nil_r.
  - cbn. rewrite IH. now rewrite <- app_assoc.
Qed.

Lemma levelsBetween_snoc (d rest : list string) (x : string) :
  levelsBetween d (rest ++ [x])
  = (levelsBetween d rest ++ [d ++ rest ++ [x]])%list.
Proof.
  rewrite levelsBetween_app. cbn. now rewrite <- app_assoc.
Qed.

Lemma levelsBetween_last (d : list string) :
  d <> [] -> In d (levelsBetween [] d).
Proof.
  intros Hd. destruct (exists_last Hd) as (d' & x & E). subst d.
  rewrite levelsBetween_snoc. apply in_or_app. right. now left.
Qed.

Section Levels2.

Context {A : Type}.
Variable body : string -> M (option A).

(** When the walk from [l] answers, some directory [d] on the way up
  answered, and every directory below it answered nothing. *)
Lemma climb_found_level (l : list string) (a : A) :
forallb name l = true ->
value (climb body "/" (absolute l)) = Normal (Some a) ->
exists d rest,
  l = (d ++ rest)%list /\ d <> []
  /\ value (body (absolute d)) = Normal (Some a)
  /\ (forall lvl, In lvl (levelsBetween d rest) ->
                  value (body (absolute lvl)) = Normal None).
Proof.
induction l as [|x l IH] using rev_ind; intros Hn H.
- change (absolute []) with "/" in H. rewrite climb_at_root in H. discriminate.
- rewrite forallb_app in Hn. apply andb_true_iff in Hn as [Hl Hx].
  cbn in Hx. rewrite andb_true_r in Hx.
  pose proof (names_segments _ Hl) as Hls.
  pose proof (name_segment _ Hx) as Hxs.
  assert (Hroot : absolute (l ++ [x]) <> "/").
  { apply absolute_neq_root; [|now destruct l].
    rewrite forallb_app, Hls. cbn. now rewrite Hxs. }
  destruct (value (body (absolute (l ++ [x])))) as [[b|]|e|] eqn:Eb.
  + rewrite (climb_value_found body "/" _ b Hroot Eb) in H.
    inversion H; subst b.
    exists (l ++ [x])%list, []. rewrite app_nil_r.
    repeat split; [now destruct l | assumption | intros lvl []].
  + rewrite climb_value_skip in H; [| assumption | assumption |].
    2:{ rewrite dirname_absolute_snoc by assumption.
        intros E. pose proof (absolute_snoc_longer l x Hxs) as Hlen.
        rewrite <- E in Hlen. lia. }
    rewrite dirname_absolute_snoc in H by assumption.
    destruct (IH Hl H) as (d & rest & El & Hd & Hfound & Hskip).
    exists d, (rest ++ [x])%list. subst l.
    repeat split; [now rewrite app_assoc | assumption | assumption |].
    intros lvl Hlvl. rewrite levelsBetween_snoc in Hlvl.
    apply in_app_or in Hlvl as [Hlvl|[Hlvl|[]]]; [now apply Hskip|].
    subst lvl. now rewrite app_assoc.
  + rewrite (climb_value_thrown body "/" _ e Hroot Eb) in H. discriminate.
  + rewrite climb_unfold in H.
    apply String.eqb_neq in Hroot. rewrite Hroot in H.
    rewrite value_bind, Eb in H. discriminate.
Qed.

(** When the walk from [l] answers nothing, every directory from [l] up to
  the child of the root answered nothing. *)
Lemma climb_none_levels (l : list string) :
forallb name l = true ->
value (climb body "/" (absolute l)) = Normal None ->
forall lvl, In lvl (levelsBetween [] l) ->
            value (body (absolute lvl)) = Normal None.
Proof.
induction l as [|x l IH] using rev_ind; intros Hn H lvl Hlvl;
  [now cbn in Hlvl|].
rewrite forallb_app in Hn. apply andb_true_iff in Hn as [Hl Hx].
cbn in Hx. rewrite andb_true_r in Hx.
pose proof (names_segments _ Hl) as Hls.
pose proof (name_segment _ Hx) as Hxs.
assert (Hroot : absolute (l ++ [x]) <> "/").
{ apply absolute_neq_root; [|now destruct l].
  rewrite forallb_app, Hls. cbn. now rewrite Hxs. }
destruct (value (body (absolute (l ++ [x])))) as [[b|]|e|] eqn:Eb.
- rewrite (climb_value_found body "/" _ b Hroot Eb) in H. discriminate.
- rewrite climb_value_skip in H; [| assumption | assumption |].
  2:{ rewrite dirname_absolute_snoc by assumption.
      intros E. pose proof (absolute_snoc_longer l x Hxs) as Hlen.
      rewrite <- E in Hlen. lia. }
  rewrite dirname_absolute_snoc in H by assumption.
  rewrite levelsBetween_snoc in Hlvl.
  apply in_app_or in Hlvl as [Hlvl|[Hlvl|[]]]; [now apply IH|].
  now subst lvl.
- rewrite (climb_value_thrown body "/" _ e Hroot Eb) in H. discriminate.
- rewrite climb_unfold in H.
  apply String.eqb_neq in Hroot. rewrite Hroot in H.
  rewrite value_bind, Eb in H. discriminate.
Qed.

(** When the walk from [l] throws, some directory [d] on the way up
  threw, and every directory below it answered nothing. *)
Lemma climb_thrown_level (l : list string) (e : string) :
forallb name l = true ->
value (climb body "/" (absolute l)) = Thrown e ->
exists d rest,
  l = (d ++ rest)%list /\ d <> []
  /\ value (body (absolute d)) = Thrown e
  /\ (forall lvl, In lvl (levelsBetween d rest) ->
                  value (body (absolute lvl)) = Normal None).
Proof.
induction l as [|x l IH] using rev_ind; intros Hn H.
- change (absolute []) with "/" in H. rewrite climb_at_root in H. discriminate.
- rewrite forallb_app in Hn. apply andb_true_iff in Hn as [Hl Hx].
  cbn in Hx. rewrite andb_true_r in Hx.
  pose proof (names_segments _ Hl) as Hls.
  pose proof (name_segment _ Hx) as Hxs.
  assert (Hroot : absolute (l ++ [x]) <> "/").
  { apply absolute_neq_root; [|now destruct l].
    rewrite forallb_app, Hls. cbn. now rewrite Hxs. }
  destruct (value (body (absolute (l ++ [x])))) as [[b|]|e'|] eqn:Eb.
  + rewrite (climb_value_found body "/" _ b Hroot Eb) in H. discriminate.
  + rewrite climb_value_skip in H; [| assumption | assumption |].
    2:{ rewrite dirname_absolute_snoc by assumption.
        intros E. pose proof (absolute_snoc_longer l x Hxs) as Hlen.
        rewrite <- E in Hlen. lia. }
    rewrite dirname_absolute_snoc in H by assumption.
    destruct (IH Hl H) as (d & rest & El & Hd & Hthrown & Hskip).
    exists d, (rest ++ [x])%list. subst l.
    repeat split; [now rewrite app_assoc | assumption | assumption |].
    intros lvl Hlvl. rewrite levelsBetween_snoc in Hlvl.
    apply in_app_or in Hlvl as [Hlvl|[Hlvl|[]]]; [now apply Hskip|].
    subst lvl. now rewrite app_assoc.
  + rewrite (climb_value_thrown body "/" _ e' Hroot Eb) in H.
    inversion H; subst e'.
    exists (l ++ [x])%list, []. rewrite app_nil_r.
    repeat split; [now destruct l | assumption | intros lvl []].
  + rewrite climb_unfold in H.
    apply String.eqb_neq in Hroot. rewrite Hroot in H.
    rewrite value_bind, Eb in H. discriminate.
Qed.

End Levels2.

Lemma truthy_Some (x : option string) (s : string) :
  truthy x = Some s -> x = Some s /\ s <> "".
Proof.
  destruct x as [t|]; cbn; [|discriminate].
  destruct (t =? "") eqn:E; [discriminate|].
  intros H. inversion H; subst. split; [reflexivity|].
  now apply String.eqb_neq.
Qed.

Lemma submoduleRootAt_found (h : Host) (d r : string) :
  value (submoduleRootAt h d) = Normal (Some r) ->
  r = d /\ isExistingFile h (path.join [d; ".git"]) = true.
Proof.
  unfold isExistingFile.
  destruct (existsSync (fs h) (path.join [d; ".git"])) eqn:E1.
  - destruct (statSync (fs h) (path.join [d; ".git"])) as [st|e] eqn:E2.
    + rewrite (submoduleRootAt_stat h d st E1 E2). cbn.
      destruct (isFile st); [|discriminate].
      intros H. inversion H. auto.
    + rewrite (submoduleRootAt_stat_fails h d e E1 E2). discriminate.
  - rewrite (submoduleRootAt_absent h d E1). discriminate.
Qed.

Lemma submoduleRootAt_file (h : Host) (d : string) :
  isExistingFile h (path.join [d; ".git"]) = true ->
  value (submoduleRootAt h d) = Normal (Some d).
Proof.
  unfold isExistingFile. intros H. apply andb_true_iff in H as [He Hs].
  destruct (statSync (fs h) (path.join [d; ".git"])) as [st|e] eqn:E2;
    [|discriminate].
  rewrite (submoduleRootAt_stat h d st He E2). cbn. now rewrite Hs.
Qed.

Lemma absolute_nonempty (l : list string) : absolute l <> "".
Proof. discriminate. Qed.

(** ** Where a file is located *)

(** X7.  The location that [getFileDetails] reports always names the
    file: for a file path [p] given by its names, whenever a location is
    returned, its [repository] is a directory on the way from [p] up to
    the child of the root, its [path] is the rest of [p] below that
    directory, joined by [/] and without a leading separator, and
    [path.join(repository, path)] is [p] again. *)
Theorem getFileDetails_location_round_trip
        (h : Host) (editor : TextEditor) (segs : list string) (f : string)
        (fd : FileDetails) :
  document_uri_path editor = absolute (segs ++ [f]) ->
  forallb name segs = true -> name f = true ->
  value (getFileDetails h editor) = Normal (Some fd) ->
  exists d rest,
    (segs ++ [f])%list = (d ++ rest)%list /\ d <> [] /\ rest <> []
    /\ repository fd = absolute d
    /\ path fd = String.concat "/" rest
    /\ path.join [repository fd; path fd] = absolute (segs ++ [f])
    /\ path.isAbsolute (path fd) = false.
Proof.
  intros Hpath Hsegs Hf H.
  assert (Hsplit : forall d rest0,
             segs = (d ++ rest0)%list -> d <> [] ->
             repository fd = absolute d ->
             path fd = String.concat "/" (rest0 ++ [f]) ->
             exists d rest,
               (segs ++ [f])%list = (d ++ rest)%list /\ d <> [] /\ rest <> []
               /\ repository fd = absolute d
               /\ path fd = String.concat "/" rest
               /\ path.join [repository fd; path fd] = absolute (segs ++ [f])
               /\ path.isAbsolute (path fd) = false).
  { intros d rest0 E Hd Hr Hp. subst segs.
    rewrite forallb_app in Hsegs. apply andb_true_iff in Hsegs as [Hdn Hrn].
    assert (Hrf : forallb name (rest0 ++ [f]) = true)
      by (rewrite forallb_app, Hrn; cbn; now rewrite Hf).
    exists d, (rest0 ++ [f])%list.
    repeat split; try assumption.
    - now rewrite app_assoc.
    - now destruct rest0.
    - rewrite Hr, Hp, <- app_assoc.
      apply join_absolute; [assumption | assumption | now destruct rest0].
    - rewrite Hp, <- (relative_absolute "/" d _ Hdn Hrf).
      apply relative_not_absolute. }
  rewrite getFileDetails_value, Hpath in H.
  assert (Hstart : path.dirname (absolute (segs ++ [f])) = absolute segs)
    by (apply dirname_absolute_snoc;
        [now apply names_segments | now apply name_segment]).
  destruct (value (getRepository h (absolute (segs ++ [f])) file))
    as [found|e|] eqn:Erepo; try discriminate.
  destruct (truthy found) as [repo|] eqn:Etruthy; [|discriminate].
  apply truthy_Some in Etruthy as [Efound Hrepo]. subst found.
  destruct (value (findSubmoduleRoot h (absolute (segs ++ [f]))))
    as [sr|e|] eqn:Esub; try discriminate.
  rewrite findSubmoduleRoot_climb, absolute_parse_root, Hstart in Esub.
  destruct sr as [root|].
  - destruct (climb_found_level (submoduleRootAt h) segs root Hsegs Esub)
      as (d & rest0 & E & Hd & Hfound & _).
    apply submoduleRootAt_found in Hfound as [Hroot _]. subst root.
    rewrite (truthy_nonempty _ (absolute_nonempty d)) in H.
    assert (Hfd : repository fd = absolute d
                  /\ path fd = path.relative (cwd h) (absolute d)
                                 (absolute (segs ++ [f])))
      by (injection H as <-; split; reflexivity).
    destruct Hfd as [Hfr Hfp].
    apply (Hsplit d rest0 E Hd Hfr). rewrite Hfp.
    subst segs. rewrite <- app_assoc.
    rewrite forallb_app in Hsegs. apply andb_true_iff in Hsegs as [Hdn Hrn].
    apply relative_absolute; [assumption|].
    rewrite forallb_app, Hrn. cbn. now rewrite Hf.
  - assert (Hfd : repository fd = repo
                  /\ path fd = JsString.replace (absolute (segs ++ [f]))
                                 (repo ++ "/") "")
      by (cbn [truthy] in H; injection H as <-; split; reflexivity).
    destruct Hfd as [Hfr Hfp].
    rewrite getRepository_value in Erepo. cbn [startDir_of] in Erepo.
    rewrite absolute_parse_root, Hstart in Erepo.
    destruct (climb_found_level (repositoryAt h) segs repo Hsegs Erepo)
      as (d & rest0 & E & Hd & Hfound & _).
    assert (Hdn : forallb name d = true).
    { subst segs. rewrite forallb_app in Hsegs.
      now apply andb_true_iff in Hsegs as [Hdn _]. }
    apply repositoryAt_found in Hfound as [[_ Hr]|(raw & Hfile & _)].
    + assert (Hrepo' : repo = absolute d).
      { rewrite Hr, join_git by assumption.
        apply dirname_absolute_snoc; [now apply names_segments | reflexivity]. }
      apply (Hsplit d rest0 E Hd (eq_trans Hfr Hrepo')).
      rewrite Hfp, Hrepo'. subst segs. rewrite <- app_assoc.
      rewrite absolute_append; [apply replace_prefix | assumption |].
      now destruct rest0.
    + exfalso.
      pose proof (climb_none_levels (submoduleRootAt h) segs Hsegs Esub d) as Hnone.
      rewrite submoduleRootAt_file in Hnone by assumption.
      assert (Hin : In d (levelsBetween [] segs)).
      { subst segs. rewrite levelsBetween_app. apply in_or_app. left.
        now apply levelsBetween_last. }
      specialize (Hnone Hin). discriminate.
Qed.

Lemma getFileDetails_location_round_trip_witness :
  document_uri_path (mkTextEditor "/outer/inner/a.ts" 0 0)
  = absolute (["outer"; "inner"] ++ ["a.ts"])
  /\ forallb name ["outer"; "inner"] = true /\ name "a.ts" = true
  /\ value (getFileDetails (diskHost nestedDisk)
              (mkTextEditor "/outer/inner/a.ts" 0 0))
     = Normal (Some {| path := "inner/a.ts"; selectionStart := 1;
                       selectionEnd := 1; repository := "/outer" |})
  /\ path.join ["/outer"; "inner/a.ts"] = "/outer/inner/a.ts".
Proof.
  repeat (split; [reflexivity|]).
  destruct (getFileDetails_location_round_trip
              (diskHost nestedDisk) (mkTextEditor "/outer/inner/a.ts" 0 0)
              ["outer"; "inner"] "a.ts"
              {| path := "inner/a.ts"; selectionStart := 1;
                 selectionEnd := 1; repository := "/outer" |}
              eq_refl eq_refl eq_refl eq_refl)
    as (d & rest & _ & _ & _ & _ & _ & Hjoin & _).
  exact Hjoin.
Defined.

(** X8.  In an ordinary repository no [.git] file interferes: for a file
    [d/rest/f] where the [.git] entry of [d] is a directory, no directory
    below [d] on the way to the file has a [.git] entry, and no directory
    from [d] up to the child of the root has a [.git] entry that is a
    regular file, the second loop finds nothing and [getFileDetails]
    reports the repository [d] with the path [rest/f]. *)
Theorem getFileDetails_regular_repository
        (h : Host) (editor : TextEditor) (d rest : list string) (f : string) :
  document_uri_path editor = absolute (d ++ rest ++ [f]) ->
  forallb name d = true -> forallb name rest = true -> name f = true ->
  d <> [] ->
  isExistingDirectory h (path.join [absolute d; ".git"]) = true ->
  noMarkerBetween h d rest = true ->
  noFileMarkerBetween h [] d = true ->
  value (findSubmoduleRoot h (absolute (d ++ rest ++ [f]))) = Normal None
  /\ value (getFileDetails h editor)
     = Normal (Some {| path := String.concat "/" (rest ++ [f]);
                       selectionStart := selection_start_line editor + 1;
                       selectionEnd := selection_end_line editor + 1;
                       repository := absolute d |}).
Proof.
  intros Hpath Hd Hrest Hf Hne Hdir Hnone Hnofile.
  assert (Hdr : forallb name (d ++ rest) = true)
    by now rewrite forallb_app, Hd, Hrest.
  assert (Hstart : path.dirname (absolute ((d ++ rest) ++ [f])) = absolute (d ++ rest))
    by (apply dirname_absolute_snoc;
        [now apply names_segments | now apply name_segment]).
  assert (Habsent : forall lvl, In lvl (levelsBetween d rest) ->
                      existsSync (fs h) (path.join [absolute lvl; ".git"]) = false).
  { intros lvl Hl. unfold noMarkerBetween in Hnone.
    rewrite forallb_forall in Hnone. specialize (Hnone lvl Hl).
    now apply negb_true_iff in Hnone. }
  assert (Hrepo : value (getRepository h (absolute (d ++ rest ++ [f])) file)
                  = Normal (Some (absolute d))).
  { rewrite getRepository_value. cbn [startDir_of].
    rewrite app_assoc, absolute_parse_root, Hstart.
    rewrite climb_through; [| assumption |].
    - apply climb_value_found.
      + apply absolute_neq_root; [now apply names_segments | assumption].
      + unfold isExistingDirectory in Hdir.
        apply andb_true_iff in Hdir as [He Hs].
        destruct (statSync (fs h) (path.join [absolute d; ".git"]))
          as [[| |]|e] eqn:Est; try discriminate.
        rewrite repositoryAt_directory by assumption. cbn [value fst].
        rewrite join_git by assumption.
        rewrite dirname_absolute_snoc;
          [reflexivity | now apply names_segments | reflexivity].
    - intros lvl Hl. now rewrite repositoryAt_absent by now apply Habsent. }
  assert (Hfind : value (findSubmoduleRoot h (absolute (d ++ rest ++ [f])))
                  = Normal None).
  { rewrite findSubmoduleRoot_climb.
    rewrite app_assoc, absolute_parse_root, Hstart.
    rewrite <- (app_nil_l (d ++ rest)).
    rewrite climb_through; [now rewrite climb_at_root | assumption |].
    intros lvl Hl. rewrite levelsBetween_app in Hl.
    apply in_app_or in Hl as [Hl|Hl].
    - unfold noFileMarkerBetween in Hnofile.
      rewrite forallb_forall in Hnofile. specialize (Hnofile lvl Hl).
      cbv beta zeta in Hnofile.
      destruct (existsSync (fs h) (path.join [absolute lvl; ".git"])) eqn:He.
      + cbn [negb orb] in Hnofile.
        destruct (statSync (fs h) (path.join [absolute lvl; ".git"]))
          as [st|e] eqn:Est; [|discriminate].
        rewrite (submoduleRootAt_stat h _ st He Est). cbn [value fst].
        apply negb_true_iff in Hnofile. now rewrite Hnofile.
      + now rewrite submoduleRootAt_absent.
    - rewrite submoduleRootAt_absent; [reflexivity|]. now apply Habsent. }
  split; [exact Hfind|].
  rewrite getFileDetails_value, Hpath, Hrepo, Hfind.
  rewrite (truthy_nonempty _ (absolute_nonempty d)). cbn [truthy].
  rewrite absolute_append; [| assumption | now destruct rest].
  now rewrite replace_prefix.
Qed.

Lemma getFileDetails_regular_repository_witness :
  document_uri_path (mkTextEditor "/repo/src/a.ts" 2 3)
  = absolute (["repo"] ++ ["src"] ++ ["a.ts"])
  /\ forallb name ["repo"] = true /\ forallb name ["src"] = true
  /\ name "a.ts" = true /\ ["repo"] <> []
  /\ isExistingDirectory (diskHost submoduleDisk)
       (path.join [absolute ["repo"]; ".git"]) = true
  /\ noMarkerBetween (diskHost submoduleDisk) ["repo"] ["src"] = true
  /\ noFileMarkerBetween (diskHost submoduleDisk) [] ["repo"] = true
  /\ value (getFileDetails (diskHost submoduleDisk)
              (mkTextEditor "/repo/src/a.ts" 2 3))
     = Normal (Some {| path := "src/a.ts"; selectionStart := 3;
                       selectionEnd := 4; repository := "/repo" |}).
Proof.
  repeat (split; [first [reflexivity | discriminate]|]).
  exact (proj2 (getFileDetails_regular_repository
                  (diskHost submoduleDisk) (mkTextEditor "/repo/src/a.ts" 2 3)
                  ["repo"] ["src"] "a.ts"
                  eq_refl eq_refl eq_refl eq_refl ltac:(discriminate)
                  eq_refl eq_refl eq_refl)).
Defined.

(** ** The second loop *)

Lemma submoduleRootAt_none (h : Host) (d : string) :
  value (submoduleRootAt h d) = Normal None ->
  isExistingFile h (path.join [d; ".git"]) = false.
Proof.
  intros H. destruct (isExistingFile h (path.join [d; ".git"])) eqn:E;
    [|reflexivity].
  rewrite (submoduleRootAt_file h d E) in H. discriminate.
Qed.

Lemma submoduleRootAt_none_iff (h : Host) (d : string) :
  value (submoduleRootAt h d) = Normal None
  <-> negb (existsSync (fs h) (path.join [d; ".git"]))
      || match statSync (fs h) (path.join [d; ".git"]) with
         | Ok st => negb (isFile st)
         | Err _ => false
         end = true.
Proof.
  destruct (existsSync (fs h) (path.join [d; ".git"])) eqn:E1.
  - destruct (statSync (fs h) (path.join [d; ".git"])) as [st|e] eqn:E2.
    + rewrite (submoduleRootAt_stat h d st E1 E2). cbn.
      destruct (isFile st); cbn; split; (discriminate || reflexivity).
    + rewrite (submoduleRootAt_stat_fails h d e E1 E2). cbn.
      split; discriminate.
  - rewrite (submoduleRootAt_absent h d E1). cbn. tauto.
Qed.

Lemma noFileMarkerBetween_iff (h : Host) (d rest : list string) :
  noFileMarkerBetween h d rest = true
  <-> forall lvl, In lvl (levelsBetween d rest) ->
                  value (submoduleRootAt h (absolute lvl)) = Normal None.
Proof.
  unfold noFileMarkerBetween. rewrite forallb_forall.
  split; intros H lvl Hl; apply submoduleRootAt_none_iff; now apply H.
Qed.

(** X9.  What the second loop of [getFileDetails] and [openFile] does,
    case by case.  For a file path given by its names, the loop returns a
    directory [d] exactly when [d] is a directory on the way from the
    directory of the file up to the child of the root whose [.git] entry
    exists and is a regular file, and the [.git] entry of every directory
    below it on that way is missing or is type-probed as something other
    than a regular file; it returns nothing exactly when that holds of
    every directory on the way; and it throws [e] exactly when the type
    probe of an existing [.git] entry throws [e] at some directory on the
    way and the entries below it are missing or probed as no regular
    file. *)
Theorem findSubmoduleRoot_nearest
        (h : Host) (segs : list string) (f : string) :
  forallb name segs = true -> name f = true ->
  (forall r,
      value (findSubmoduleRoot h (absolute (segs ++ [f]))) = Normal (Some r)
      <-> exists d rest,
            segs = (d ++ rest)%list /\ d <> [] /\ r = absolute d
            /\ isExistingFile h (path.join [absolute d; ".git"]) = true
            /\ noFileMarkerBetween h d rest = true)
  /\ (value (findSubmoduleRoot h (absolute (segs ++ [f]))) = Normal None
      <-> noFileMarkerBetween h [] segs = true)
  /\ (forall e,
        value (findSubmoduleRoot h (absolute (segs ++ [f]))) = Thrown e
        <-> exists d rest,
              segs = (d ++ rest)%list /\ d <> []
              /\ existsSync (fs h) (path.join [absolute d; ".git"]) = true
              /\ statSync (fs h) (path.join [absolute d; ".git"]) = Err e
              /\ noFileMarkerBetween h d rest = true).
Proof.
  intros Hsegs Hf.
  assert (Hstart : path.dirname (absolute (segs ++ [f])) = absolute segs)
    by (apply dirname_absolute_snoc;
        [now apply names_segments | now apply name_segment]).
  rewrite findSubmoduleRoot_climb, absolute_parse_root, Hstart.
  assert (Hup : forall d rest,
             segs = (d ++ rest)%list -> d <> [] ->
             noFileMarkerBetween h d rest = true ->
             absolute d <> "/"
             /\ value (climb (submoduleRootAt h) "/" (absolute segs))
                = value (climb (submoduleRootAt h) "/" (absolute d))).
  { intros d rest E Hd Hquiet. subst segs. split.
    - apply absolute_neq_root; [|assumption].
      apply names_segments. rewrite forallb_app in Hsegs.
      now apply andb_true_iff in Hsegs as [Hdn _].
    - apply climb_through; [assumption|].
      now apply noFileMarkerBetween_iff. }
  split; [|split].
  - intros r. split.
    + intros H.
      destruct (climb_found_level (submoduleRootAt h) segs r Hsegs H)
        as (d & rest & E & Hd & Hfound & Hskip).
      apply submoduleRootAt_found in Hfound as [Hr Hfile].
      exists d, rest. repeat split; try assumption.
      now apply noFileMarkerBetween_iff.
    + intros (d & rest & E & Hd & Hr & Hfile & Hquiet).
      destruct (Hup d rest E Hd Hquiet) as [Hroot Hclimb].
      rewrite Hclimb, Hr. apply climb_value_found; [assumption|].
      now apply submoduleRootAt_file.
  - split.
    + intros H. apply noFileMarkerBetween_iff.
      now apply (climb_none_levels (submoduleRootAt h) segs Hsegs H).
    + intros Hquiet. rewrite <- (app_nil_l segs).
      rewrite climb_through;
        [now rewrite climb_at_root | assumption |
         now apply noFileMarkerBetween_iff].
  - intros e. split.
    + intros H.
      destruct (climb_thrown_level (submoduleRootAt h) segs e Hsegs H)
        as (d & rest & E & Hd & Hthrown & Hskip).
      apply submoduleRootAt_thrown in Hthrown as [He Hst].
      exists d, rest. repeat split; try assumption.
      now apply noFileMarkerBetween_iff.
    + intros (d & rest & E & Hd & He & Hst & Hquiet).
      destruct (Hup d rest E Hd Hquiet) as [Hroot Hclimb].
      rewrite Hclimb. apply climb_value_thrown; [assumption|].
      now rewrite (submoduleRootAt_stat_fails h _ e He Hst).
Qed.

Lemma findSubmoduleRoot_nearest_witness :
  forallb name ["outer"; "inner"] = true /\ name "a.ts" = true
  /\ value (findSubmoduleRoot (diskHost nestedDisk)
              (absolute (["outer"; "inner"] ++ ["a.ts"])))
     = Normal (Some "/outer")
  /\ exists d rest,
       ["outer"; "inner"] = (d ++ rest)%list /\ d <> [] /\ "/outer" = absolute d
       /\ isExistingFile (diskHost nestedDisk) (path.join [absolute d; ".git"])
          = true
       /\ noFileMarkerBetween (diskHost nestedDisk) d rest = true.
Proof.
  repeat (split; [reflexivity|]).
  destruct (findSubmoduleRoot_nearest (diskHost nestedDisk)
              ["outer"; "inner"] "a.ts" eq_refl eq_refl) as (Hsome & _ & _).
  exact (proj1 (Hsome "/outer") eq_refl).
Defined.

(** ** The cost of a resolution *)

Lemma fsCalls_app (t1 t2 : list event) :
  fsCalls (t1 ++ t2) = (fsCalls t1 ++ fsCalls t2)%list.
Proof. apply filter_app. Qed.

Lemma repositoryAt_fsCalls (h : Host) (d : string) :
  length (fsCalls (trace (repositoryAt h d))) <= 5.
Proof.
  unfold repositoryAt, submoduleRepository,
    fs_existsSync, fs_statSync, fs_readFileSync.
  destruct (existsSync (fs h) (path.join [d; ".git"])); cbn [bind].
  2:{ cbn. lia. }
  destruct (statSync (fs h) (path.join [d; ".git"])) as [[| |]|e]; cbn [bind].
  - cbn [isFile].
    destruct (readFileSync (fs h) (path.join [d; ".git"])) as [raw|e];
      cbn [bind try_catch console_log console_warn emit ret].
    + destruct (existsSync (fs h) _);
        cbn [bind try_catch console_log console_warn emit ret].
      * destruct (statSync (fs h) _) as [[| |]|e];
          cbn [bind try_catch console_log console_warn emit ret isDirectory];
          cbn [trace snd app fsCalls filter isFsCall length]; lia.
      * cbn [trace snd app fsCalls filter isFsCall length]; lia.
    + cbn [trace snd app fsCalls filter isFsCall length]; lia.
  - cbn. lia.
  - cbn. lia.
  - cbn. lia.
Qed.

Lemma submoduleRootAt_fsCalls (h : Host) (d : string) :
  length (fsCalls (trace (submoduleRootAt h d))) <= 2.
Proof.
  destruct (existsSync (fs h) (path.join [d; ".git"])) eqn:E1.
  - destruct (statSync (fs h) (path.join [d; ".git"])) as [st|e] eqn:E2.
    + rewrite (submoduleRootAt_stat h d st E1 E2). cbn. lia.
    + rewrite (submoduleRootAt_stat_fails h d e E1 E2). cbn. lia.
  - rewrite (submoduleRootAt_absent h d E1). cbn. lia.
Qed.

Lemma climb_fsCalls {A} (body : string -> M (option A)) (k : nat) :
  (forall d, length (fsCalls (trace (body d))) <= k) ->
  forall l, forallb name l = true ->
            length (fsCalls (trace (climb body "/" (absolute l))))
            <= k * length l.
Proof.
  intros Hbody l. induction l as [|x l IH] using rev_ind; intros Hn.
  - change (absolute []) with "/". rewrite climb_at_root. cbn. lia.
  - rewrite forallb_app in Hn. apply andb_true_iff in Hn as [Hl Hx].
    cbn in Hx. rewrite andb_true_r in Hx.
    pose proof (names_segments _ Hl) as Hls.
    pose proof (name_segment _ Hx) as Hxs.
    assert (Hroot : absolute (l ++ [x]) <> "/").
    { apply absolute_neq_root; [|now destruct l].
      rewrite forallb_app, Hls. cbn. now rewrite Hxs. }
    rewrite climb_unfold. apply String.eqb_neq in Hroot. rewrite Hroot.
    rewrite trace_bind, fsCalls_app, length_app, length_app.
    specialize (Hbody (absolute (l ++ [x]))). specialize (IH Hl).
    cbn [length]. rewrite Nat.add_1_r.
    destruct (value (body (absolute (l ++ [x])))) as [[a|]|e|];
      try (cbn [ret trace snd fsCalls filter length]; lia).
    rewrite dirname_absolute_snoc by assumption.
    destruct (absolute l =? absolute (l ++ [x]));
      [cbn [ret trace snd fsCalls filter length]; lia|].
    lia.
Qed.

Lemma climb_absent_fsCalls (h : Host) (l : list string) :
  forallb name l = true ->
  noMarkerBetween h [] l = true ->
  value (climb (repositoryAt h) "/" (absolute l)) = Normal None
  /\ fsCalls (trace (climb (repositoryAt h) "/" (absolute l)))
     = map (fun lvl => ExistsSync (path.join [absolute lvl; ".git"]))
           (rev (levelsBetween [] l)).
Proof.
  induction l as [|x l IH] using rev_ind; intros Hn Hnone.
  - change (absolute []) with "/". now rewrite climb_at_root.
  - unfold noMarkerBetween in Hnone.
    rewrite levelsBetween_snoc, forallb_app in Hnone.
    apply andb_true_iff in Hnone as [Hbelow Hhere].
    cbn [forallb app] in Hhere. rewrite andb_true_r in Hhere.
    apply negb_true_iff in Hhere.
    rewrite forallb_app in Hn. apply andb_true_iff in Hn as [Hl Hx].
    cbn in Hx. rewrite andb_true_r in Hx.
    pose proof (names_segments _ Hl) as Hls.
    pose proof (name_segment _ Hx) as Hxs.
    assert (Hroot : absolute (l ++ [x]) <> "/").
    { apply absolute_neq_root; [|now destruct l].
      rewrite forallb_app, Hls. cbn. now rewrite Hxs. }
    assert (Hup : path.dirname (absolute (l ++ [x])) <> absolute (l ++ [x])).
    { rewrite dirname_absolute_snoc by assumption.
      intros E. pose proof (absolute_snoc_longer l x Hxs) as Hlen.
      rewrite <- E in Hlen. lia. }
    destruct (IH Hl Hbelow) as [IHv IHt].
    pose proof (repositoryAt_absent h _ Hhere) as Hlevel.
    split.
    + rewrite climb_value_skip; try assumption.
      * now rewrite dirname_absolute_snoc.
      * now rewrite Hlevel.
    + rewrite climb_trace_skip; try assumption; [|now rewrite Hlevel].
      rewrite dirname_absolute_snoc by assumption.
      rewrite fsCalls_app, IHt, Hlevel, levelsBetween_snoc, rev_app_distr.
      reflexivity.
Qed.

(** X10.  How often a resolution calls the filesystem.  An iteration of
    the loop of [getRepository] makes at most five calls ([existsSync]
    and [statSync] of the [.git] entry, lines 29 and 30, [readFileSync]
    of it, line 36, [existsSync] and [statSync] of the redirect target,
    lines 58 and 59); an iteration of the second loop makes at most two
    (line 130); and each loop runs at most once for each directory from
    the start up to the child of the root, since line 77 replaces the
    directory by its parent and line 26 stops at the root.  So for a
    directory given by [n] names [getRepository] makes at most [5 * n]
    calls, and for a file in such a directory [getFileDetails] makes at
    most [7 * n].  Where no directory on the way has a [.git] entry,
    [getRepository] makes exactly one [existsSync] call for each of them,
    nearest first, and no other call. *)
Theorem resolution_fs_work
        (h : Host) (l : list string) (f : string) (editor : TextEditor) :
  forallb name l = true -> name f = true ->
  document_uri_path editor = absolute (l ++ [f]) ->
  (forall d,
      length (fsCalls (trace (repositoryAt h d))) <= 5
      /\ length (fsCalls (trace (submoduleRootAt h d))) <= 2)
  /\ length (fsCalls (trace (getRepository h (absolute l) directory)))
     <= 5 * length l
  /\ length (fsCalls (trace (getFileDetails h editor))) <= 7 * length l
  /\ (noMarkerBetween h [] l = true ->
      fsCalls (trace (getRepository h (absolute l) directory))
      = map (fun lvl => ExistsSync (path.join [absolute lvl; ".git"]))
            (rev (levelsBetween [] l))).
Proof.
  intros Hl Hf Hpath.
  assert (Hstart : path.dirname (absolute (l ++ [f])) = absolute l)
    by (apply dirname_absolute_snoc;
        [now apply names_segments | now apply name_segment]).
  assert (Hrepo : forall element ty,
             path.parse_root element = "/" ->
             startDir_of element ty = absolute l ->
             length (fsCalls (trace (getRepository h element ty)))
             <= 5 * length l).
  { intros element ty Hroot Hdir.
    rewrite getRepository_trace, Hroot, Hdir, fsCalls_app, length_app.
    pose proof (climb_fsCalls (repositoryAt h) 5 (repositoryAt_fsCalls h) l Hl).
    destruct (value (climb (repositoryAt h) "/" (absolute l))) as [[r|]|e|];
      cbn [fsCalls filter isFsCall length]; lia. }
  split; [|split; [|split]].
  - intros d. split;
      [apply repositoryAt_fsCalls | apply submoduleRootAt_fsCalls].
  - apply Hrepo; [apply absolute_parse_root | reflexivity].
  - rewrite getFileDetails_trace, Hpath, fsCalls_app, length_app.
    pose proof (Hrepo (absolute (l ++ [f])) file
                  (absolute_parse_root _) Hstart) as H1.
    pose proof (climb_fsCalls (submoduleRootAt h) 2
                  (submoduleRootAt_fsCalls h) l Hl) as H2.
    destruct (value (getRepository h (absolute (l ++ [f])) file))
      as [found|e|]; try (cbn [fsCalls filter length]; lia).
    destruct (truthy found); [|cbn [fsCalls filter length]; lia].
    rewrite findSubmoduleRoot_climb, absolute_parse_root, Hstart. lia.
  - intros Hnone.
    destruct (climb_absent_fsCalls h l Hl Hnone) as [Hv Ht].
    rewrite getRepository_trace, absolute_parse_root. cbn [startDir_of].
    rewrite Hv, fsCalls_app, Ht. cbn [fsCalls filter isFsCall].
    now rewrite app_nil_r.
Qed.

Lemma resolution_fs_work_witness :
  forallb name ["repo"; "sub"] = true /\ name "x.ts" = true
  /\ fsCalls (trace (getFileDetails (diskHost danglingDisk)
                       (mkTextEditor "/repo/sub/x.ts" 0 0)))
     = [ ExistsSync "/repo/sub/.git"; StatSync "/repo/sub/.git";
         ReadFileSync "/repo/sub/.git"; ExistsSync "/repo/.git/modules/sub";
         ExistsSync "/repo/.git"; StatSync "/repo/.git";
         ExistsSync "/repo/sub/.git"; StatSync "/repo/sub/.git" ]
  /\ length (fsCalls (trace (getFileDetails (diskHost danglingDisk)
                               (mkTextEditor "/repo/sub/x.ts" 0 0))))
     <= 7 * length ["repo"; "sub"]
  /\ noMarkerBetween (diskHost bareDisk) [] ["home"; "work"] = true
  /\ fsCalls (trace (getRepository (diskHost bareDisk) "/home/work" directory))
     = [ExistsSync "/home/work/.git"; ExistsSync "/home/.git"].
Proof.
  destruct (resolution_fs_work (diskHost danglingDisk) ["repo"; "sub"] "x.ts"
              (mkTextEditor "/repo/sub/x.ts" 0 0) eq_refl eq_refl eq_refl)
    as (_ & _ & Hbound & _).
  destruct (resolution_fs_work (diskHost bareDisk) ["home"; "work"] "x.ts"
              (mkTextEditor "/home/work/x.ts" 0 0) eq_refl eq_refl eq_refl)
    as (_ & _ & _ & Hcold).
  repeat (split; [reflexivity|]).
  split; [exact Hbound|].
  split; [reflexivity|].
  exact (Hcold eq_refl).
Defined.

(** ** What a resolution leaves behind *)

Lemma launches_app (t1 t2 : list event) :
  launches (t1 ++ t2) = (launches t1 ++ launches t2)%list.
Proof. apply filter_app. Qed.

Lemma userWarnings_app (t1 t2 : list event) :
  userWarnings (t1 ++ t2) = (userWarnings t1 ++ userWarnings t2)%list.
Proof. apply filter_app. Qed.

Lemma resolutionEvent_no_launch (h : Host) (ev : event) :
  resolutionEvent h ev -> isLaunch ev = false.
Proof. destruct ev; cbn; trivial. intros []. Qed.

Lemma getRepository_launches (h : Host) (element : string) (ty : ElementType) :
  launches (trace (getRepository h element ty)) = [].
Proof.
  apply launches_none. intros ev H.
  apply (resolutionEvent_no_launch h). now apply getRepository_event in H.
Qed.

Lemma getFileDetails_launches (h : Host) (editor : TextEditor) :
  launches (trace (getFileDetails h editor)) = [].
Proof.
  apply launches_none. intros ev H.
  apply (resolutionEvent_no_launch h). now apply getFileDetails_event in H.
Qed.

Lemma warnings_of_getRepository (h : Host) (element : string) (ty : ElementType) :
  userWarnings (trace (getRepository h element ty))
  = match value (getRepository h element ty) with
    | Normal None =>
        [ShowWarningMessage "Unable to resolve the repository to open."]
    | _ => []
    end.
Proof.
  rewrite getRepository_trace, getRepository_value, userWarnings_app.
  rewrite userWarnings_none
    by (unfold climb; apply upward_trace; apply repositoryAt_quiet).
  now destruct (value (climb _ _ _)) as [[r|]|e|].
Qed.

Lemma warnings_of_findSubmoduleRoot (h : Host) (filePath : string) :
  userWarnings (trace (findSubmoduleRoot h filePath)) = [].
Proof.
  apply userWarnings_none. intros ev H.
  apply findSubmoduleRoot_event in H. now destruct ev.
Qed.

Lemma getRepository_failingProbe (h : Host) (element : string)
      (ty : ElementType) (e : string) :
  value (getRepository h element ty) = Thrown e -> failingProbe h e.
Proof.
  rewrite getRepository_value. unfold climb. intros H.
  apply upward_value_thrown in H as (d & _ & Hd).
  exists d. now apply repositoryAt_thrown.
Qed.

Lemma findSubmoduleRoot_failingProbe (h : Host) (filePath e : string) :
  value (findSubmoduleRoot h filePath) = Thrown e -> failingProbe h e.
Proof.
  rewrite findSubmoduleRoot_climb. unfold climb. intros H.
  apply upward_value_thrown in H as (d & _ & Hd).
  exists d. now apply submoduleRootAt_thrown.
Qed.

Lemma getRepository_outcome (h : Host) (element : string) (ty : ElementType) :
  match value (getRepository h element ty) with
  | Normal (Some r) =>
      userWarnings (trace (getRepository h element ty)) = [] /\ r <> ""
  | Normal None =>
      userWarnings (trace (getRepository h element ty))
      = [ShowWarningMessage "Unable to resolve the repository to open."]
  | Thrown e =>
      userWarnings (trace (getRepository h element ty)) = []
      /\ failingProbe h e
  | OutOfFuel => False
  end.
Proof.
  rewrite warnings_of_getRepository.
  destruct (value (getRepository h element ty)) as [[r|]|e|] eqn:E.
  - split; [reflexivity|]. now apply getRepository_nonempty in E.
  - reflexivity.
  - split; [reflexivity|]. now apply getRepository_failingProbe in E.
  - now apply getRepository_finishes in E.
Qed.

Lemma getFileDetails_outcome (h : Host) (editor : TextEditor) :
  match value (getFileDetails h editor) with
  | Normal (Some fd) =>
      userWarnings (trace (getFileDetails h editor)) = []
      /\ repository fd <> ""
      /\ selectionStart fd = selection_start_line editor + 1
      /\ selectionEnd fd = selection_end_line editor + 1
  | Normal None =>
      userWarnings (trace (getFileDetails h editor))
      = [ShowWarningMessage "Unable to resolve the repository to open."]
  | Thrown e =>
      userWarnings (trace (getFileDetails h editor)) = []
      /\ failingProbe h e
  | OutOfFuel => False
  end.
Proof.
  rewrite getFileDetails_value, getFileDetails_trace, userWarnings_app.
  rewrite warnings_of_getRepository.
  destruct (value (getRepository h (document_uri_path editor) file))
    as [[r|]|e|] eqn:E.
  - pose proof (getRepository_nonempty h _ _ r E) as Hr.
    rewrite (truthy_nonempty r Hr), warnings_of_findSubmoduleRoot.
    destruct (value (findSubmoduleRoot h (document_uri_path editor)))
      as [sr|e|] eqn:E2.
    + destruct (truthy sr) as [root|] eqn:Et.
      * apply truthy_Some in Et as [_ Hroot]. now repeat split.
      * now repeat split.
    + split; [reflexivity|]. now apply findSubmoduleRoot_failingProbe in E2.
    + now apply findSubmoduleRoot_finishes in E2.
  - reflexivity.
  - split; [reflexivity|]. now apply getRepository_failingProbe in E.
  - now apply getRepository_finishes in E.
Qed.

(** ** [openFile] *)

Ltac run_openFile h editor Hne :=
  unfold openFile, getFileDetails;
  rewrite (truthy_nonempty _ Hne);
  destruct (getRepository h (document_uri_path editor) file)
    as [[found|e|] t1];
  cbn [bind];
  [ destruct (truthy found) as [repository_|];
    [ destruct (findSubmoduleRoot h (document_uri_path editor))
        as [[submoduleRoot|e|] t2];
      cbn [bind];
      [ unfold located; destruct (truthy submoduleRoot) as [root|] | | ]
    | ]
  | | ].

(** X11.  [openFile] locates a file exactly as [getFileDetails] does.
    For a file path that is not the empty string, [openFile] makes the
    calls of [getFileDetails] on an editor showing that file, in the same
    order; where [getFileDetails] returns a location, [openFile] then
    writes console lines and launches the binary once, with the action,
    the search pattern of the located [path], and the located
    [repository] as working directory; where [getFileDetails] returns
    [undefined] or throws, [openFile] does the same and launches
    nothing. *)
Theorem openFile_as_getFileDetails
        (h : Host) (editor : TextEditor) (action : Action) :
  document_uri_path editor <> "" ->
  exists logs,
    (forall ev, In ev logs -> isConsoleLog ev)
    /\ openFile h (document_uri_path editor) action
       = match value (getFileDetails h editor) with
         | Normal (Some fd) =>
             (Normal tt,
              (trace (getFileDetails h editor) ++ logs
               ++ [ExecFile (binaryPath_of h)
                     [Action_text action; searchPattern_of action (path fd)]
                     (repository fd)])%list)
         | Normal None => (Normal tt, trace (getFileDetails h editor))
         | Thrown e => (Thrown e, trace (getFileDetails h editor))
         | OutOfFuel => (OutOfFuel, trace (getFileDetails h editor))
         end.
Proof.
  intros Hne.
  run_openFile h editor Hne.
  - exists (openFile_logs h action (document_uri_path editor) repository_ root
              (path.relative (cwd h) root (document_uri_path editor))).
    split; [intros ev Hev; cbn in Hev;
            repeat (destruct Hev as [Hev|Hev]; [subst ev; eexists; reflexivity|]);
            contradiction|].
    cbn [bind ret emit console_log openSublimeMerge value trace fst snd].
    rewrite app_nil_r, <- app_assoc. reflexivity.
  - exists (openFile_logs h action (document_uri_path editor) repository_
              repository_
              (JsString.replace (document_uri_path editor)
                 (repository_ ++ "/") "")).
    split; [intros ev Hev; cbn in Hev;
            repeat (destruct Hev as [Hev|Hev]; [subst ev; eexists; reflexivity|]);
            contradiction|].
    cbn [bind ret emit console_log openSublimeMerge value trace fst snd].
    rewrite app_nil_r, <- app_assoc. reflexivity.
  - exists []. split; [intros ev []|]. reflexivity.
  - exists []. split; [intros ev []|]. reflexivity.
  - exists []. split; [intros ev []|]. cbn. now rewrite app_nil_r.
  - exists []. split; [intros ev []|]. reflexivity.
  - exists []. split; [intros ev []|]. reflexivity.
Qed.

Lemma openFile_as_getFileDetails_witness :
  document_uri_path (mkTextEditor "/repo/libs/sub/x.ts" 0 0) <> ""
  /\ exists logs,
       (forall ev, In ev logs -> isConsoleLog ev)
       /\ openFile (diskHost submoduleDisk) "/repo/libs/sub/x.ts" blame
          = (Normal tt,
             (trace (getFileDetails (diskHost submoduleDisk)
                       (mkTextEditor "/repo/libs/sub/x.ts" 0 0))
              ++ logs
              ++ [ExecFile "/opt/sublime_merge/sublime_merge"
                    ["blame"; "x.ts"] "/repo/libs/sub"])%list).
Proof.
  split; [discriminate|].
  destruct (openFile_as_getFileDetails (diskHost submoduleDisk)
              (mkTextEditor "/repo/libs/sub/x.ts" 0 0) blame
              ltac:(discriminate)) as (logs & Hlogs & Hrun).
  exists logs. split; [exact Hlogs | exact Hrun].
Defined.

Lemma openSublimeMerge_launch (h : Host) (args : list string) (r : string) :
  value (openSublimeMerge h args r) = Normal tt
  /\ launches (trace (openSublimeMerge h args r))
     = [ExecFile (binaryPath_of h) args r]
  /\ userWarnings (trace (openSublimeMerge h args r)) = [].
Proof. repeat split. Qed.

Lemma openFile_views (h : Host) (editor : TextEditor) (action : Action) :
  document_uri_path editor <> "" ->
  value (openFile h (document_uri_path editor) action)
  = match value (getFileDetails h editor) with
    | Normal _ => Normal tt
    | Thrown e => Thrown e
    | OutOfFuel => OutOfFuel
    end
  /\ launches (trace (openFile h (document_uri_path editor) action))
     = match value (getFileDetails h editor) with
       | Normal (Some fd) =>
           [ExecFile (binaryPath_of h)
              [Action_text action; searchPattern_of action (path fd)]
              (repository fd)]
       | _ => []
       end
  /\ userWarnings (trace (openFile h (document_uri_path editor) action))
     = userWarnings (trace (getFileDetails h editor)).
Proof.
  intros Hne.
  pose proof (getFileDetails_launches h editor) as Hquiet.
  revert Hquiet.
  run_openFile h editor Hne;
    cbn [bind ret emit console_log openSublimeMerge value trace fst snd];
    rewrite ?app_nil_r; intros Hquiet;
    rewrite ?launches_app, ?userWarnings_app in *;
    repeat split; try reflexivity;
    try (apply app_eq_nil in Hquiet; destruct Hquiet as [H1 H2];
         rewrite ?H1, ?H2);
    cbn [launches userWarnings filter isLaunch isUserWarning app];
    rewrite ?app_nil_r; try reflexivity; try assumption.
Qed.

(** ** The commands *)

Lemma repositoryToOpen_launches (h : Host) (w : Workbench) :
  launches (trace (repositoryToOpen h w)) = [].
Proof.
  unfold repositoryToOpen.
  assert (Hfile : forall editor,
             launches (trace (details <- getFileDetails h editor ;;
                              ret (option_map repository details))) = []).
  { intros editor. rewrite trace_bind, launches_app, getFileDetails_launches.
    now destruct (value (getFileDetails h editor)). }
  destruct (workspaceFolders w) as [[|folder [|folder' folders]]|];
    try apply getRepository_launches;
    destruct (activeTextEditor w) as [editor|];
    try apply Hfile; reflexivity.
Qed.

Lemma repositoryToOpen_outcome (h : Host) (w : Workbench) :
  match value (repositoryToOpen h w) with
  | Normal (Some r) =>
      userWarnings (trace (repositoryToOpen h w)) = [] /\ r <> ""
  | Normal None =>
      userWarnings (trace (repositoryToOpen h w))
      = [ShowWarningMessage "Unable to resolve the repository to open."]
  | Thrown e =>
      userWarnings (trace (repositoryToOpen h w)) = [] /\ failingProbe h e
  | OutOfFuel => False
  end.
Proof.
  unfold repositoryToOpen.
  assert (Hfile : forall editor,
             let m := details <- getFileDetails h editor ;;
                      ret (option_map repository details) in
             match value m with
             | Normal (Some r) => userWarnings (trace m) = [] /\ r <> ""
             | Normal None =>
                 userWarnings (trace m)
                 = [ShowWarningMessage "Unable to resolve the repository to open."]
             | Thrown e => userWarnings (trace m) = [] /\ failingProbe h e
             | OutOfFuel => False
             end).
  { intros editor m. subst m.
    rewrite value_bind, trace_bind, userWarnings_app.
    pose proof (getFileDetails_outcome h editor) as H.
    destruct (value (getFileDetails h editor)) as [[fd|]|e|];
      cbn [ret value trace fst snd option_map userWarnings filter];
      rewrite ?app_nil_r; tauto. }
  destruct (workspaceFolders w) as [[|folder [|folder' folders]]|];
    try apply getRepository_outcome;
    destruct (activeTextEditor w) as [editor|];
    try apply Hfile; reflexivity.
Qed.

Lemma openRepository_views (h : Host) (w : Workbench) :
  value (openRepository h w)
  = match value (repositoryToOpen h w) with
    | Normal _ => Normal tt
    | Thrown e => Thrown e
    | OutOfFuel => OutOfFuel
    end
  /\ launches (trace (openRepository h w))
     = match value (repositoryToOpen h w) with
       | Normal (Some r) => [ExecFile (binaryPath_of h) ["."] r]
       | _ => []
       end
  /\ userWarnings (trace (openRepository h w))
     = userWarnings (trace (repositoryToOpen h w)).
Proof.
  unfold openRepository.
  rewrite value_bind, trace_bind, launches_app, userWarnings_app.
  rewrite repositoryToOpen_launches.
  pose proof (repositoryToOpen_outcome h w) as H.
  destruct (value (repositoryToOpen h w)) as [[r|]|e|].
  - destruct H as [_ Hr]. rewrite (truthy_nonempty r Hr).
    destruct (openSublimeMerge_launch h ["."] r) as (Hv & Hl & Hw).
    rewrite Hv, Hl, Hw. now rewrite app_nil_r.
  - cbn. now rewrite app_nil_r.
  - cbn. now rewrite app_nil_r.
  - contradiction.
Qed.

(** X12.  Which repository [openRepository] opens.  With exactly one
    workspace folder the command launches the binary in the repository of
    that folder, whatever the active editor shows; otherwise it launches
    it in the repository that [getFileDetails] locates for the active
    editor; in both cases with the single argument [.], and only when a
    repository was found.  Whenever the command returns without a launch,
    exactly one warning has been shown, "Unable to resolve the repository
    to open."; it launches and warns in no run. *)
Theorem openRepository_launch (h : Host) (w : Workbench) :
  launches (trace (openRepository h w))
  = match workspaceFolders w, activeTextEditor w with
    | Some [folder], _ =>
        match value (getRepository h folder directory) with
        | Normal (Some r) => [ExecFile (binaryPath_of h) ["."] r]
        | _ => []
        end
    | _, Some editor =>
        match value (getFileDetails h editor) with
        | Normal (Some fd) => [ExecFile (binaryPath_of h) ["."] (repository fd)]
        | _ => []
        end
    | _, None => []
    end
  /\ (value (openRepository h w) = Normal tt ->
      (launches (trace (openRepository h w)) = []
       /\ userWarnings (trace (openRepository h w))
          = [ShowWarningMessage "Unable to resolve the repository to open."])
      \/ (launches (trace (openRepository h w)) <> []
          /\ userWarnings (trace (openRepository h w)) = [])).
Proof.
  destruct (openRepository_views h w) as (Hv & Hl & Hw).
  split.
  - rewrite Hl. unfold repositoryToOpen.
    assert (Hfile : forall editor,
               match value (details <- getFileDetails h editor ;;
                            ret (option_map repository details)) with
               | Normal (Some r) => [ExecFile (binaryPath_of h) ["."] r]
               | _ => []
               end
               = match value (getFileDetails h editor) with
                 | Normal (Some fd) =>
                     [ExecFile (binaryPath_of h) ["."] (repository fd)]
                 | _ => []
                 end).
    { intros editor. rewrite value_bind.
      now destruct (value (getFileDetails h editor)) as [[fd|]|e|]. }
    destruct (workspaceFolders w) as [[|folder [|folder' folders]]|];
      try reflexivity;
      destruct (activeTextEditor w) as [editor|];
      try apply Hfile; reflexivity.
  - intros Hval. rewrite Hv in Hval. rewrite Hl, Hw.
    pose proof (repositoryToOpen_outcome h w) as H.
    destruct (value (repositoryToOpen h w)) as [[r|]|e|].
    + right. split; [discriminate | tauto].
    + left. split; [reflexivity | assumption].
    + discriminate.
    + contradiction.
Qed.

Lemma openRepository_launch_witness :
  value (openRepository (diskHost submoduleDisk)
           (mkWorkbench (Some ["/repo"])
              (Some (mkTextEditor "/repo/libs/sub/x.ts" 0 0))))
  = Normal tt
  /\ launches (trace (openRepository (diskHost submoduleDisk)
                        (mkWorkbench (Some ["/repo"])
                           (Some (mkTextEditor "/repo/libs/sub/x.ts" 0 0)))))
     = [ExecFile "/opt/sublime_merge/sublime_merge" ["."] "/repo"].
Proof.
  split; [reflexivity|].
  exact (proj1 (openRepository_launch (diskHost submoduleDisk)
                  (mkWorkbench (Some ["/repo"])
                     (Some (mkTextEditor "/repo/libs/sub/x.ts" 0 0))))).
Defined.

Lemma viewLineHistory_views (h : Host) (w : Workbench) (editor : TextEditor) :
  activeTextEditor w = Some editor ->
  value (viewLineHistory h w)
  = match value (getFileDetails h editor) with
    | Normal _ => Normal tt
    | Thrown e => Thrown e
    | OutOfFuel => OutOfFuel
    end
  /\ launches (trace (viewLineHistory h w))
     = match value (getFileDetails h editor) with
       | Normal (Some fd) =>
           [ExecFile (binaryPath_of h) ["search"; lineHistoryPattern fd]
              (repository fd)]
       | _ => []
       end
  /\ userWarnings (trace (viewLineHistory h w))
     = userWarnings (trace (getFileDetails h editor)).
Proof.
  intros Hed. unfold viewLineHistory. rewrite Hed.
  rewrite value_bind, trace_bind, launches_app, userWarnings_app.
  rewrite getFileDetails_launches.
  destruct (value (getFileDetails h editor)) as [[fd|]|e|].
  - destruct (openSublimeMerge_launch h ["search"; lineHistoryPattern fd]
                (repository fd)) as (Hv & Hl & Hw).
    rewrite Hv, Hl, Hw. now rewrite app_nil_r.
  - cbn. now rewrite app_nil_r.
  - cbn. now rewrite app_nil_r.
  - cbn. now rewrite app_nil_r.
Qed.

(** X13.  What [viewLineHistory] searches for.  Without an active editor
    the command does nothing at all: no call, no warning, no launch.
    With one, it launches the binary exactly when [getFileDetails]
    returns a location, in the located repository, with the arguments
    [search] and [file:"<path>" line:<s>-<e>], where [<s>] and [<e>] are
    the decimal digits of the lines of the selection counted from 1 (the
    editor counts them from 0). *)
Theorem viewLineHistory_launch (h : Host) (w : Workbench) :
  match activeTextEditor w with
  | None => viewLineHistory h w = (Normal tt, [])
  | Some editor =>
      launches (trace (viewLineHistory h w))
      = match value (getFileDetails h editor) with
        | Normal (Some fd) =>
            [ExecFile (binaryPath_of h)
               ["search";
                "file:" ++ JsString.dquote ++ path fd ++ JsString.dquote
                ++ " line:" ++ Number_toString (selection_start_line editor + 1)
                ++ "-" ++ Number_toString (selection_end_line editor + 1)]
               (repository fd)]
        | _ => []
        end
  end.
Proof.
  destruct (activeTextEditor w) as [editor|] eqn:Hed.
  - destruct (viewLineHistory_views h w editor Hed) as (_ & Hl & _).
    rewrite Hl.
    pose proof (getFileDetails_outcome h editor) as H.
    destruct (value (getFileDetails h editor)) as [[fd|]|e|]; try reflexivity.
    destruct H as (_ & _ & Hs & He).
    unfold lineHistoryPattern. now rewrite Hs, He.
  - unfold viewLineHistory. now rewrite Hed.
Qed.

Lemma viewLineHistory_launch_witness :
  launches (trace (viewLineHistory (diskHost submoduleDisk)
                     (mkWorkbench None
                        (Some (mkTextEditor "/repo/src/a.ts" 9 11)))))
  = [ExecFile "/opt/sublime_merge/sublime_merge"
       ["search"; "file:" ++ JsString.dquote ++ "src/a.ts" ++ JsString.dquote
                  ++ " line:10-12"]
       "/repo"].
Proof.
  exact (viewLineHistory_launch (diskHost submoduleDisk)
           (mkWorkbench None (Some (mkTextEditor "/repo/src/a.ts" 9 11)))).
Defined.

(** ** Every command *)

Lemma openRepository_safe (h : Host) (w : Workbench) :
  value (openRepository h w) <> OutOfFuel
  /\ launchesAtMostOnce h (openRepository h w).
Proof.
  destruct (openRepository_views h w) as (Hv & Hl & Hw).
  pose proof (repositoryToOpen_outcome h w) as H.
  unfold launchesAtMostOnce. rewrite Hv, Hl, Hw.
  destruct (value (repositoryToOpen h w)) as [[r|]|e|];
    try (split; [discriminate | now left]); [|contradiction].
  split; [discriminate|]. right. exists ["."], r. tauto.
Qed.

Lemma viewLineHistory_safe (h : Host) (w : Workbench) :
  value (viewLineHistory h w) <> OutOfFuel
  /\ launchesAtMostOnce h (viewLineHistory h w).
Proof.
  destruct (activeTextEditor w) as [editor|] eqn:Hed.
  - destruct (viewLineHistory_views h w editor Hed) as (Hv & Hl & Hw).
    pose proof (getFileDetails_outcome h editor) as H.
    unfold launchesAtMostOnce. rewrite Hv, Hl, Hw.
    destruct (value (getFileDetails h editor)) as [[fd|]|e|];
      try (split; [discriminate | now left]); [|contradiction].
    split; [discriminate|]. right.
    exists ["search"; lineHistoryPattern fd], (repository fd). tauto.
  - unfold viewLineHistory, launchesAtMostOnce. rewrite Hed.
    split; [discriminate | now left].
Qed.

Lemma openFile_safe (h : Host) (filePath : string) (action : Action) :
  value (openFile h filePath action) <> OutOfFuel
  /\ launchesAtMostOnce h (openFile h filePath action).
Proof.
  destruct (string_dec filePath "") as [->|Hne].
  - split; [discriminate | now left].
  - change filePath with (document_uri_path (mkTextEditor filePath 0 0)) in *.
    destruct (openFile_views h (mkTextEditor filePath 0 0) action Hne)
      as (Hv & Hl & Hw).
    pose proof (getFileDetails_outcome h (mkTextEditor filePath 0 0)) as H.
    unfold launchesAtMostOnce. rewrite Hv, Hl, Hw.
    destruct (value (getFileDetails h (mkTextEditor filePath 0 0)))
      as [[fd|]|e|];
      try (split; [discriminate | now left]); [|contradiction].
    split; [discriminate|]. right.
    exists [Action_text action; searchPattern_of action (path fd)],
      (repository fd).
    tauto.
Qed.

Lemma openFile_of_safe (h : Host) (arg : option string) (action : Action) :
  value (openFile_of h arg action) <> OutOfFuel
  /\ launchesAtMostOnce h (openFile_of h arg action).
Proof.
  destruct arg as [filePath|]; [apply openFile_safe|].
  split; [discriminate | now left].
Qed.

Lemma getSmergeBinaryPath_nonempty (platform : string) :
  getSmergeBinaryPath platform <> "".
Proof.
  unfold getSmergeBinaryPath.
  destruct (platform =? "win32"); [discriminate|].
  destruct (platform =? "darwin"); discriminate.
Qed.

(** X14.  Every command launches safely.  [activate] registers the four
    commands [openRepository], [viewFileHistory], [viewLineHistory] and
    [blameFile] under the extension's name and sets the default binary of
    the platform.  From then on, whatever the filesystem, the setting and
    the workbench are when a command is run and whatever argument it is
    given, the command ends, and it launches at most one process: the
    configured path if that is a non-empty string and the default binary
    of the platform otherwise, never the empty string, in a working
    directory that is not the empty string, and only in a run that
    returns and has shown no warning. *)
Theorem commands_launch_safely
        (platform : string) (h0 h : Host) (w : Workbench)
        (command : string) (handler : Handler) (arg : option string) :
  SMERGE_BINARY_PATH h = SMERGE_BINARY_PATH (fst (activate platform h0)) ->
  In (command, handler) (snd (activate platform h0)) ->
  map fst (snd (activate platform h0))
  = [ "history-in-sublime-merge.openRepository";
      "history-in-sublime-merge.viewFileHistory";
      "history-in-sublime-merge.viewLineHistory";
      "history-in-sublime-merge.blameFile" ]
  /\ value (handler h w arg) <> OutOfFuel
  /\ launchesAtMostOnce h (handler h w arg)
  /\ binaryPath_of h <> ""
  /\ binaryPath_of h
     = match configuredPath h with
       | Some p => if (p =? "") then getSmergeBinaryPath platform else p
       | None => getSmergeBinaryPath platform
       end.
Proof.
  intros Hbin Hin. cbn [activate fst SMERGE_BINARY_PATH] in Hbin.
  split; [reflexivity|].
  assert (Hpath : binaryPath_of h
                  = match configuredPath h with
                    | Some p => if (p =? "") then getSmergeBinaryPath platform
                                else p
                    | None => getSmergeBinaryPath platform
                    end).
  { unfold binaryPath_of, truthy. rewrite Hbin.
    destruct (configuredPath h) as [p|]; [|reflexivity].
    now destruct (p =? ""). }
  assert (Hne : binaryPath_of h <> "").
  { rewrite Hpath.
    destruct (configuredPath h) as [p|];
      [|apply getSmergeBinaryPath_nonempty].
    destruct (p =? "") eqn:E; [apply getSmergeBinaryPath_nonempty|].
    now apply String.eqb_neq. }
  cbn [activate snd In] in Hin.
  destruct Hin as [Hin|[Hin|[Hin|[Hin|[]]]]];
    inversion Hin; subst handler; clear Hin.
  - destruct (openRepository_safe h w). tauto.
  - destruct (openFile_of_safe h arg search). tauto.
  - destruct (viewLineHistory_safe h w). tauto.
  - destruct (openFile_of_safe h arg blame). tauto.
Qed.

Lemma commands_launch_safely_witness :
  SMERGE_BINARY_PATH (diskHost submoduleDisk)
  = SMERGE_BINARY_PATH (fst (activate "linux" (diskHost bareDisk)))
  /\ In ("history-in-sublime-merge.blameFile",
         fun (h' : Host) (_ : Workbench) (file : option string) =>
           openFile_of h' file blame)
        (snd (activate "linux" (diskHost bareDisk)))
  /\ launchesAtMostOnce (diskHost submoduleDisk)
       (openFile_of (diskHost submoduleDisk) (Some "/repo/src/a.ts") blame).
Proof.
  split; [reflexivity|].
  split; [cbn; tauto|].
  pose proof (commands_launch_safely "linux" (diskHost bareDisk)
                (diskHost submoduleDisk) (mkWorkbench None None)
                "history-in-sublime-merge.blameFile"
                (fun h' _ file => openFile_of h' file blame)
                (Some "/repo/src/a.ts") eq_refl
                ltac:(cbn; tauto)) as (_ & _ & H & _).
  exact H.
Defined.

(** ** Dangling redirects *)

(** C3, as amended.  Let the [.git] entry of a directory [d] be a
    regular file whose redirect target is not an existing directory, and
    let the file lie in [d] or below it with no [.git] entry in between.
    Then the level [d] answers nothing, without a warning, and the walk
    goes on from the parent of [d]: the call returns what the walk from
    that parent returns.  That is the answer of the nearest directory
    [a] above [d], other than the filesystem root, that answers, and [a]
    itself when the [.git] entry of [a] is a directory.  When no
    directory from the parent of [d] up to the child of the root answers,
    the call returns [undefined] and shows the one warning, whatever the
    root holds. *)
Theorem getRepository_dangling_redirect
        (h : Host) (a mid : list string) (x : string) (rest : list string)
        (f raw : string) :
  forallb name (a ++ mid ++ [x] ++ rest) = true -> segment f = true ->
  isExistingFile h (path.join [absolute (a ++ mid ++ [x]); ".git"]) = true ->
  readFileSync (fs h) (path.join [absolute (a ++ mid ++ [x]); ".git"]) = Ok raw ->
  isExistingDirectory h
    (gitDirPath_of h (path.join [absolute (a ++ mid ++ [x]); ".git"])
       (JsString.trim raw)) = false ->
  noMarkerBetween h (a ++ mid ++ [x]) rest = true ->
  (forall lvl, In lvl (levelsBetween a mid) ->
               value (repositoryAt h (absolute lvl)) = Normal None) ->
  value (repositoryAt h (absolute (a ++ mid ++ [x]))) = Normal None
  /\ userWarnings (trace (repositoryAt h (absolute (a ++ mid ++ [x])))) = []
  /\ value (getRepository h (absolute ((a ++ mid ++ [x]) ++ rest ++ [f])) file)
     = value (getRepository h (absolute (a ++ mid)) directory)
  /\ (a <> [] ->
      isExistingDirectory h (path.join [absolute a; ".git"]) = true ->
      value (getRepository h (absolute ((a ++ mid ++ [x]) ++ rest ++ [f])) file)
      = Normal (Some (absolute a)))
  /\ (a <> [] ->
      forall r,
        value (repositoryAt h (absolute a)) = Normal (Some r) ->
        value (getRepository h (absolute ((a ++ mid ++ [x]) ++ rest ++ [f])) file)
        = Normal (Some r))
  /\ (a = [] ->
      value (getRepository h (absolute ((a ++ mid ++ [x]) ++ rest ++ [f])) file)
      = Normal None
      /\ userWarnings
           (trace (getRepository h
                     (absolute ((a ++ mid ++ [x]) ++ rest ++ [f])) file))
         = [ShowWarningMessage "Unable to resolve the repository to open."]).
Proof.
  intros Hn Hf Hfile Hread Hdangling Hbelow Hmid.
  set (d := (a ++ mid ++ [x])%list) in *.
  assert (Hdr : forallb name (d ++ rest) = true)
    by (subst d; now rewrite <- !app_assoc).
  assert (Hd : forallb name d = true)
    by (rewrite forallb_app in Hdr; now apply andb_true_iff in Hdr as [Hd _]).
  assert (Ham : forallb name (a ++ mid) = true /\ name x = true).
  { subst d. rewrite app_assoc, forallb_app in Hd.
    apply andb_true_iff in Hd as [Ham Hx]. cbn in Hx.
    rewrite andb_true_r in Hx. now split. }
  destruct Ham as [Ham Hx].
  assert (Ha : forallb name a = true)
    by (rewrite forallb_app in Ham; now apply andb_true_iff in Ham as [Ha _]).
  assert (Hlevel : value (repositoryAt h (absolute d)) = Normal None).
  { unfold isExistingFile in Hfile.
    apply andb_true_iff in Hfile as [He Hst].
    destruct (statSync (fs h) (path.join [absolute d; ".git"]))
      as [[| |]|e] eqn:Est; try discriminate.
    rewrite repositoryAt_file by assumption. cbn [value fst].
    now rewrite (submoduleRepository_value h _ raw Hread), Hdangling. }
  assert (Hquiet : userWarnings (trace (repositoryAt h (absolute d))) = [])
    by (apply userWarnings_none; apply repositoryAt_quiet).
  assert (Hparent : path.dirname (absolute d) = absolute (a ++ mid)).
  { subst d. rewrite app_assoc.
    apply dirname_absolute_snoc;
      [now apply names_segments | now apply name_segment]. }
  assert (Hfrom_parent :
            value (climb (repositoryAt h) "/" (absolute (a ++ mid)))
            = value (climb (repositoryAt h) "/" (absolute a)))
    by now apply climb_through.
  assert (Hwalk : value (getRepository h (absolute (d ++ rest ++ [f])) file)
                  = value (climb (repositoryAt h) "/" (absolute a))).
  { rewrite getRepository_value. cbn [startDir_of].
    rewrite app_assoc, absolute_parse_root.
    rewrite dirname_absolute_snoc by (now apply names_segments || assumption).
    rewrite climb_through; [| assumption |].
    2:{ intros lvl Hl. unfold noMarkerBetween in Hbelow.
        rewrite forallb_forall in Hbelow. specialize (Hbelow lvl Hl).
        apply negb_true_iff in Hbelow. now rewrite repositoryAt_absent. }
    rewrite climb_value_skip; [now rewrite Hparent | | assumption |].
    - apply absolute_neq_root; [now apply names_segments|].
      subst d. now destruct a, mid.
    - rewrite Hparent. intros E.
      pose proof (absolute_snoc_longer (a ++ mid) x (name_segment _ Hx)) as Hlen.
      subst d. rewrite app_assoc in E. rewrite <- E in Hlen. lia. }
  split; [exact Hlevel|]. split; [exact Hquiet|].
  split; [|split; [|split]].
  - rewrite Hwalk, getRepository_value. cbn [startDir_of].
    now rewrite absolute_parse_root, Hfrom_parent.
  - intros Hne Hdir. rewrite Hwalk.
    apply climb_value_found.
    + apply absolute_neq_root; [now apply names_segments | assumption].
    + unfold isExistingDirectory in Hdir.
      apply andb_true_iff in Hdir as [He Hs].
      destruct (statSync (fs h) (path.join [absolute a; ".git"]))
        as [[| |]|e] eqn:Est; try discriminate.
      rewrite repositoryAt_directory by assumption. cbn [value fst].
      rewrite join_git by assumption.
      rewrite dirname_absolute_snoc;
        [reflexivity | now apply names_segments | reflexivity].
  - intros Hne r Hr. rewrite Hwalk.
    apply climb_value_found; [|assumption].
    apply absolute_neq_root; [now apply names_segments | assumption].
  - intros Hroot.
    assert (Hnone : value (getRepository h (absolute (d ++ rest ++ [f])) file)
                    = Normal None).
    { rewrite Hwalk, Hroot. change (absolute []) with "/".
      now rewrite climb_at_root. }
    split; [exact Hnone|].
    now rewrite warnings_of_getRepository, Hnone.
Qed.

Lemma getRepository_dangling_redirect_witness :
  forallb name (["repo"] ++ ["libs"] ++ ["sub"] ++ ["src"]) = true
  /\ segment "x.ts" = true
  /\ isExistingFile (diskHost deepDanglingDisk)
       (path.join [absolute (["repo"] ++ ["libs"] ++ ["sub"]); ".git"]) = true
  /\ readFileSync (fs (diskHost deepDanglingDisk))
       (path.join [absolute (["repo"] ++ ["libs"] ++ ["sub"]); ".git"])
     = Ok ("gitdir: ../../.git/modules/sub" ++ LF)
  /\ isExistingDirectory (diskHost deepDanglingDisk)
       (gitDirPath_of (diskHost deepDanglingDisk)
          (path.join [absolute (["repo"] ++ ["libs"] ++ ["sub"]); ".git"])
          (JsString.trim ("gitdir: ../../.git/modules/sub" ++ LF))) = false
  /\ noMarkerBetween (diskHost deepDanglingDisk)
       (["repo"] ++ ["libs"] ++ ["sub"]) ["src"] = true
  /\ value (repositoryAt (diskHost deepDanglingDisk) "/repo/libs") = Normal None
  /\ isExistingDirectory (diskHost deepDanglingDisk)
       (path.join [absolute ["repo"]; ".git"]) = true
  /\ value (getRepository (diskHost deepDanglingDisk)
              "/repo/libs/sub/src/x.ts" file)
     = Normal (Some "/repo").
Proof.
  repeat (split; [reflexivity|]).
  pose proof (getRepository_dangling_redirect
                (diskHost deepDanglingDisk) ["repo"] ["libs"] "sub" ["src"]
                "x.ts" ("gitdir: ../../.git/modules/sub" ++ LF)
                eq_refl eq_refl eq_refl eq_refl eq_refl eq_refl)
    as Hthm.
  assert (Hmid : forall lvl,
             In lvl (levelsBetween ["repo"] ["libs"]) ->
             value (repositoryAt (diskHost deepDanglingDisk) (absolute lvl))
             = Normal None).
  { intros lvl [<-|[]]. reflexivity. }
  destruct (Hthm Hmid) as (_ & _ & _ & Hdir & _).
  exact (Hdir ltac:(discriminate) eq_refl).
Defined.

(** C3, as stated, fails when the next usable marker is that of the
    filesystem root: [/x/.git] is a regular file whose redirect target
    does not exist, [/.git] is a directory, and nothing is returned for
    the file [/x/a.ts]. *)
Lemma dangling_redirect_below_root_repository :
  isExistingFile (diskHost rootFallbackDisk) "/x/.git" = true
  /\ readFileSync (fs (diskHost rootFallbackDisk)) "/x/.git"
     = Ok ("gitdir: /nowhere" ++ LF)
  /\ isExistingDirectory (diskHost rootFallbackDisk)
       (gitDirPath_of (diskHost rootFallbackDisk) "/x/.git"
          (JsString.trim ("gitdir: /nowhere" ++ LF))) = false
  /\ value (repositoryAt (diskHost rootFallbackDisk) "/x") = Normal None
  /\ isExistingDirectory (diskHost rootFallbackDisk) "/.git" = true
  /\ value (repositoryAt (diskHost rootFallbackDisk) "/") = Normal (Some "/")
  /\ value (getRepository (diskHost rootFallbackDisk) "/x/a.ts" file)
     = Normal None
  /\ value (getRepository (diskHost rootFallbackDisk) "/x/a.ts" file)
     <> Normal (Some "/").
Proof. repeat split; try reflexivity. vm_compute. discriminate. Qed.
